(** * tuya_vacuum_map_extractor/main.py: dispatch, orchestration and error containment

    A shallow embedding of [main.py] (download, parse_map, parse_path, flip,
    render_layout, get_map).  Python values are a small inductive type,
    exceptions are results, and logging plus the calls to the collaborators
    (requests, PIL, the per-format decoders) are recorded in a trace.

    Conventions of the embedding:
    - numbers are Python ints; floats are outside the value type;
    - the modules [v0], [v1], [custom0], [common], [tuya] and [const] that
      [main.py] imports are not among the sources: their functions are the
      fields of a record [World], over which every statement quantifies;
    - a local variable that is rebound inside a [try] keeps its last binding
      in the [except] clause and after it, as in Python;
    - a drawing call works on the image in place: it returns the image as it
      is after the call, with the exception it raised, if any. *)

From Stdlib Require Import ZArith List String Ascii Bool Lia DecimalString.
From Stdlib.Strings Require Import Byte.
Import ListNotations.
Set Warnings "-register-all".
Open Scope string_scope.
Open Scope Z_scope.

(** ** Python values *)

Module Py.

(** The values that flow through [main.py]: JSON documents, headers, settings,
    colour tables and link lists.  Numbers are Python [int]s; a [dict] keeps
    its insertion order and has string keys, as JSON objects do. *)
Inductive value : Type :=
| VNone
| VBool (b : bool)
| VInt (n : Z)
| VStr (s : string)
| VList (l : list value)
| VDict (d : list (string * value)).

Definition dict := list (string * value).

Inductive exn_class : Type :=
| JSONDecodeError      (* requests.exceptions.JSONDecodeError *)
| HTTPError            (* requests.exceptions.HTTPError *)
| RequestException     (* requests.exceptions.RequestException, other subclasses *)
| NotSupportedError    (* .const.NotSupportedError, an Exception *)
| ValueError
| KeyError
| TypeError
| IndexError
| ZeroDivisionError
| OtherError.

(** One piece of an f-string: literal text or [str] of a value. *)
Inductive piece : Type :=
| Lit (s : string)
| StrOf (v : value).

(** An exception: its class, its message and the exception it was raised
    [from] (its [__cause__]). *)
Inductive exn : Type :=
| Exn (cls : exn_class) (msg : list piece) (cause : option exn).

Definition exn_cls (e : exn) : exn_class := let 'Exn c _ _ := e in c.
Definition exn_msg (e : exn) : list piece := let 'Exn _ m _ := e in m.
Definition exn_cause (e : exn) : option exn := let 'Exn _ _ c := e in c.

Inductive result (A : Type) : Type :=
| Ok (a : A)
| Raise (e : exn).
Arguments Ok {A} a.
Arguments Raise {A} e.

Definition exn_class_eqb (a b : exn_class) : bool :=
  match a, b with
  | JSONDecodeError, JSONDecodeError | HTTPError, HTTPError
  | RequestException, RequestException | NotSupportedError, NotSupportedError
  | ValueError, ValueError | KeyError, KeyError | TypeError, TypeError
  | IndexError, IndexError | ZeroDivisionError, ZeroDivisionError
  | OtherError, OtherError => true
  | _, _ => false
  end.

(** [except RequestException]: requests' JSONDecodeError and HTTPError are
    subclasses of RequestException. *)
Definition is_RequestException (c : exn_class) : bool :=
  match c with
  | JSONDecodeError | HTTPError | RequestException => true
  | _ => false
  end.

Definition lookup (k : string) (d : dict) : option value :=
  match find (fun kv => String.eqb k (fst kv)) d with
  | Some kv => Some (snd kv)
  | None => None
  end.

Definition has_key (k : string) (d : dict) : bool :=
  existsb (fun kv => String.eqb k (fst kv)) d.

Definition b2z (b : bool) : Z := if b then 1 else 0.

(** Python's [==].  [True == 1] and [False == 0]; two lists are equal when
    they are equal element by element; two dicts when they have the same keys
    with equal values. *)
Fixpoint py_eq (a b : value) {struct a} : bool :=
  match a, b with
  | VNone, VNone => true
  | VBool x, VBool y => Bool.eqb x y
  | VBool x, VInt n => b2z x =? n
  | VInt m, VBool y => m =? b2z y
  | VInt m, VInt n => m =? n
  | VStr s, VStr t => String.eqb s t
  | VList l, VList m =>
      (fix go (l m : list value) {struct l} : bool :=
         match l, m with
         | [], [] => true
         | x :: l', y :: m' => py_eq x y && go l' m'
         | _, _ => false
         end) l m
  | VDict d, VDict e =>
      (List.length d =? List.length e)%nat &&
      (fix go (d : list (string * value)) {struct d} : bool :=
         match d with
         | [] => true
         | (k, v) :: d' =>
             match lookup k e with
             | Some w => py_eq v w && go d'
             | None => false
             end
         end) d
  | _, _ => false
  end.

(** Truth value of an object, as [if x:] and [not x] test it. *)
Definition truthy (v : value) : bool :=
  match v with
  | VNone => false
  | VBool b => b
  | VInt n => negb (n =? 0)
  | VStr s => negb (String.eqb s "")
  | VList l => match l with [] => false | _ => true end
  | VDict d => match d with [] => false | _ => true end
  end.

Definition is_list (v : value) : bool :=
  match v with VList _ => true | _ => false end.

(** A TypeError; the messages are those of CPython 3.11. *)
Definition type_error (what : string) : exn := Exn TypeError [Lit what] None.

(** [type(v).__name__], as the interpreter's TypeError messages quote it. *)
Definition type_name (v : value) : string :=
  match v with
  | VNone => "NoneType"
  | VBool _ => "bool"
  | VInt _ => "int"
  | VStr _ => "str"
  | VList _ => "list"
  | VDict _ => "dict"
  end.

Definition not_iterable_argument (v : value) : exn :=
  type_error ("argument of type '" ++ type_name v ++ "' is not iterable").

Definition not_subscriptable (v : value) : exn :=
  type_error ("'" ++ type_name v ++ "' object is not subscriptable").

Definition not_iterable (v : value) : exn :=
  type_error ("'" ++ type_name v ++ "' object is not iterable").

(** The message of a binary operator refused between [v] and an int. *)
Definition unsupported_operand (op : string) (v : value) : exn :=
  type_error ("unsupported operand type(s) for " ++ op ++ ": '" ++ type_name v
              ++ "' and 'int'").

Definition double_quote : string := String (ascii_of_nat 34) EmptyString.

(** The message of [+] between a str or a list and an int. *)
Definition cannot_concatenate (v : value) : exn :=
  type_error ("can only concatenate " ++ type_name v ++ " (not " ++ double_quote
              ++ "int" ++ double_quote ++ ") to " ++ type_name v).

Definition is_substring (k s : string) : bool :=
  match index 0 k s with Some _ => true | None => false end.

(** ['k' in c] for a string literal ['k']: key test on a dict, membership on
    a list, substring test on a str, TypeError on the rest. *)
Definition contains_str (k : string) (c : value) : result bool :=
  match c with
  | VDict d => Ok (has_key k d)
  | VList l => Ok (existsb (fun x => py_eq (VStr k) x) l)
  | VStr s => Ok (is_substring k s)
  | VNone | VBool _ | VInt _ => Raise (not_iterable_argument c)
  end.

(** [d['k']] on a dict. *)
Definition dict_getitem (d : dict) (k : string) : result value :=
  match lookup k d with
  | Some v => Ok v
  | None => Raise (Exn KeyError [StrOf (VStr k)] None)
  end.

(** [c['k']] for a string literal ['k']. *)
Definition getitem_str (c : value) (k : string) : result value :=
  match c with
  | VDict d => dict_getitem d k
  | VList _ =>
      Raise (type_error "list indices must be integers or slices, not str")
  | VStr _ => Raise (type_error "string indices must be integers, not 'str'")
  | VNone | VBool _ | VInt _ => Raise (not_subscriptable c)
  end.

(** [c[i]] for a literal index [i] that is not negative. *)
Definition getitem_nat (c : value) (i : nat) : result value :=
  match c with
  | VList l =>
      match nth_error l i with
      | Some v => Ok v
      | None => Raise (Exn IndexError [Lit "list index out of range"] None)
      end
  | VStr s =>
      match String.get i s with
      | Some ch => Ok (VStr (String ch EmptyString))
      | None => Raise (Exn IndexError [Lit "string index out of range"] None)
      end
  | VDict _ => Raise (Exn KeyError [StrOf (VInt (Z.of_nat i))] None)
  | VNone | VBool _ | VInt _ => Raise (not_subscriptable c)
  end.

(** [d.get('k', default)]. *)
Definition dict_get (d : dict) (k : string) (default : value) : value :=
  match lookup k d with
  | Some v => v
  | None => default
  end.

(** [for x in c]: the elements a loop visits. *)
Definition iter (c : value) : result (list value) :=
  match c with
  | VList l => Ok l
  | VDict d => Ok (map (fun kv => VStr (fst kv)) d)
  | VStr s => Ok (map (fun ch => VStr (String ch EmptyString)) (list_ascii_of_string s))
  | VNone | VBool _ | VInt _ => Raise (not_iterable c)
  end.

Fixpoint repeat_app {A : Type} (l : list A) (n : nat) : list A :=
  match n with
  | O => []
  | S n' => l ++ repeat_app l n'
  end.

(** [v * k] for an int [k]: product of numbers, repetition of sequences. *)
Definition mul_int (v : value) (k : Z) : result value :=
  match v with
  | VInt n => Ok (VInt (n * k))
  | VBool b => Ok (VInt (b2z b * k))
  | VList l => Ok (VList (repeat_app l (Z.to_nat k)))
  | VStr s =>
      Ok (VStr (string_of_list_ascii
                  (repeat_app (list_ascii_of_string s) (Z.to_nat k))))
  | VNone | VDict _ => Raise (unsupported_operand "*" v)
  end.

(** [v + k] and [v - k] for an int literal [k]. *)
Definition add_int (v : value) (k : Z) : result Z :=
  match v with
  | VInt n => Ok (n + k)
  | VBool b => Ok (b2z b + k)
  | VStr _ | VList _ => Raise (cannot_concatenate v)
  | VNone | VDict _ => Raise (unsupported_operand "+" v)
  end.

Definition sub_int (v : value) (k : Z) : result Z :=
  match v with
  | VInt n => Ok (n - k)
  | VBool b => Ok (b2z b - k)
  | VNone | VStr _ | VList _ | VDict _ => Raise (unsupported_operand "-" v)
  end.

(** [str(v)] on the values whose text the code compares: numbers, strings,
    None and booleans.  ([str] of a container is only ever interpolated into
    messages, where it is kept as [StrOf].) *)
Definition str_atom (v : value) : option string :=
  match v with
  | VNone => Some "None"
  | VBool true => Some "True"
  | VBool false => Some "False"
  | VInt n => Some (NilZero.string_of_int (Z.to_int n))
  | VStr s => Some s
  | VList _ | VDict _ => None
  end.

(** [bytes.hex()]: two lowercase hexadecimal digits per byte. *)
Definition hex_digit (n : N) : ascii :=
  match n with
  | 0%N => "0" | 1%N => "1" | 2%N => "2" | 3%N => "3"
  | 4%N => "4" | 5%N => "5" | 6%N => "6" | 7%N => "7"
  | 8%N => "8" | 9%N => "9" | 10%N => "a" | 11%N => "b"
  | 12%N => "c" | 13%N => "d" | 14%N => "e" | _ => "f"
  end%char.

Fixpoint hex (bs : list byte) : string :=
  match bs with
  | [] => EmptyString
  | b :: bs' =>
      let n := Byte.to_N b in
      String (hex_digit (N.div n 16)) (String (hex_digit (N.modulo n 16)) (hex bs'))
  end.

(** [s[0:n]]: the first [n] characters, fewer when [s] is shorter. *)
Definition slice0 (n : nat) (s : string) : string := substring 0 n s.

End Py.
Import Py.

(** ** Effects: exceptions, the log, calls to collaborators, local variables *)

Inductive level : Type := DEBUG | ERROR.

(** One piece of a logged f-string. *)
Inductive lpiece : Type :=
| LLit (s : string)
| LStr (v : value)        (* {v} *)
| LJson (v : value)       (* {json.dumps(v, indent=2)} *)
| LExn (e : exn).         (* {str(e)} *)

Inductive transpose_method : Type := FLIP_LEFT_RIGHT | FLIP_TOP_BOTTOM.

Inductive resample_filter : Type := BOX.

Definition rgb : Type := (Z * Z * Z)%type.
Definition box : Type := ((Z * Z) * (Z * Z))%type.

(** The calls [main.py] makes to code outside of it, with the arguments that
    are plain data. *)
Inductive call : Type :=
| c_requests_get (url : value)
| c_get_download_link
| c_json
| c_decode_custom0 (data : value)
| c_decode_header (hex48 : string)
| c_decode_v0 (data : string)
| c_decode_v1 (data : string)
| c_decode_path_custom0 (data : value)
| c_decode_path_v1 (data : string)
| c_to_array (variant : string)
| c_fromarray
| c_resize (size : Z * Z) (resample : resample_filter)
| c_Draw
| c_line (xy fill : list value) (width : Z)
| c_format_path_point (point : value)
| c_map_to_image (point : value)
| c_ellipse (xy : box) (outline fill : rgb) (width : Z)
| c_rotate (angle : value)
| c_transpose (m : transpose_method).

Inductive event : Type :=
| Log (lvl : level) (msg : list lpiece)
| Call (c : call).

Definition trace := list event.

(** A computation with local variables [L]: it ends with a value or an
    exception, leaves the locals as they were when it ended (an [except]
    clause and the code after it see them), and emits a trace. *)
Definition M (L A : Type) : Type := L -> (result A * L) * trace.

Definition ret {L A} (a : A) : M L A := fun l => (Ok a, l, []).

Definition raise {L A} (e : exn) : M L A := fun l => (Raise e, l, []).

Definition bind {L A B} (m : M L A) (f : A -> M L B) : M L B :=
  fun l =>
    let '(r, l1, t1) := m l in
    match r with
    | Ok a => let '(r2, l2, t2) := f a l1 in (r2, l2, (t1 ++ t2)%list)
    | Raise e => (Raise e, l1, t1)
    end.

Declare Scope py_scope.
Delimit Scope py_scope with py.
Notation "x <- m ;; k" := (bind m (fun x => k))
  (at level 61, m at next level, right associativity) : py_scope.
Notation "m ;;; k" := (bind m (fun _ => k))
  (at level 61, right associativity) : py_scope.
Open Scope py_scope.

(** [try: m except <catches> as e: h e]. *)
Definition try_except {L A} (m : M L A) (catches : exn -> bool) (h : exn -> M L A) : M L A :=
  fun l =>
    let '(r, l1, t1) := m l in
    match r with
    | Ok a => (Ok a, l1, t1)
    | Raise e =>
        if catches e then let '(r2, l2, t2) := h e l1 in (r2, l2, (t1 ++ t2)%list)
        else (Raise e, l1, t1)
    end.

Definition lift {L A} (r : result A) : M L A := fun l => (r, l, []).

Definition log {L} (lvl : level) (msg : list lpiece) : M L unit :=
  fun l => (Ok tt, l, [Log lvl msg]).

(** A call to a collaborator: recorded, then it returns or raises. *)
Definition ext {L A} (c : call) (r : result A) : M L A :=
  fun l => (r, l, [Call c]).

Definition get_local {L} : M L L := fun l => (Ok l, l, []).
Definition set_local {L} (l' : L) : M L unit := fun _ => (Ok tt, l', []).

(** Calling a function: it runs on its own locals. *)
Definition invoke {L L' A} (m : M L' A) (l' : L') : M L A :=
  fun l => let '(r, _, t) := m l' in (r, l, t).

Definition run {A} (m : M unit A) : result A * trace :=
  let '(r, _, t) := m tt in (r, t).

Definition except_Exception (e : exn) : bool := true.
Definition except_JSONDecodeError (e : exn) : bool := exn_class_eqb (exn_cls e) JSONDecodeError.
Definition except_RequestException (e : exn) : bool := is_RequestException (exn_cls e).

(** ** The collaborators *)

(** What [main.py] reads of a [requests] response. *)
Record response : Type := {
  status_code : Z;
  raise_for_status : option exn;   (* the HTTPError it raises, if any *)
  json : result value;              (* what [.json()] returns or raises *)
  content : list byte
}.

(** The modules [main.py] imports: [requests], [PIL], and this package's
    [v0], [v1], [custom0], [common] and [tuya].  A decoder that is handed the
    header returns it as it is after the call. *)
Set Implicit Arguments.
Record World (Image Array : Type) : Type := {
  requests_get : value -> result response;
  get_download_link : string -> string -> string -> string -> result dict;
  now : string;
  decode_header : string -> result dict;
  decode_v0 : string -> dict -> result (list Z * dict);
  decode_v1 : string -> dict -> result (list Z * dict);
  decode_custom0 : value -> result (dict * list Z);
  decode_path_v1 : string -> result value;
  decode_path_custom0 : value -> dict -> result value;
  to_array_v0 : list Z -> value -> value -> dict -> result Array;
  to_array_v1 : list Z -> value -> value -> value -> dict -> result Array;
  to_array_custom0 : list Z -> value -> value -> dict -> result Array;
  _format_path_point : value -> bool -> result value;
  map_to_image : value -> value -> value -> value -> result value;
  fromarray : Array -> result Image;
  size : Image -> Z * Z;
  resize : Image -> Z * Z -> resample_filter -> result Image;
  rotate : Image -> value -> result Image;
  transpose : Image -> transpose_method -> result Image;
  Draw : Image -> option exn;
  line : Image -> list value -> list value -> Z -> Image * option exn;
  ellipse : Image -> box -> rgb -> rgb -> Z -> Image * option exn
}.
Unset Implicit Arguments.

(** ** main.py *)

Section Main.

Context {Image Array : Type} (W : World Image Array).

(** [download(url, timeout=10.0)] *)
Definition download (url : value) : M unit response :=
  try_except
    (response <- ext (c_requests_get url) (requests_get W url) ;;
     lift (match raise_for_status response with
           | Some e => Raise e
           | None => Ok tt
           end) ;;;
     ret response)
    except_RequestException
    (fun e =>
       log ERROR [LLit "Download failed for URL "; LStr url; LLit ": "; LExn e] ;;;
       raise e).

(** The [try] block of [parse_map]: the structured formats. *)
Definition parse_map_json (response : response) : M unit (dict * list Z) :=
  data <- ext c_json (json response) ;;
  log DEBUG [LLit "Raw JSON response: "; LJson data] ;;;
  has_result <- lift (contains_str "result" data) ;;
  result_is_list <-
    (if has_result
     then v <- lift (getitem_str data "result") ;; ret (is_list v)
     else ret false) ;;
  if result_is_list then
    ext (c_decode_custom0 data) (decode_custom0 W data)
  else
    has_map_data <- lift (contains_str "map_data" data) ;;
    if has_map_data then
      map_data <- lift (getitem_str data "map_data") ;;
      ext (c_decode_custom0 map_data) (decode_custom0 W map_data)
    else
      raise (Exn JSONDecodeError [Lit "No recognized JSON format"] None).

(** The [except JSONDecodeError] clause of [parse_map]: the binary formats. *)
Definition parse_map_binary (response : response) : M unit (dict * list Z) :=
  log DEBUG [LLit "Falling back to binary parsing"] ;;;
  try_except
    (let data := hex (content response) in
     header <- ext (c_decode_header (slice0 48 data))
                   (decode_header W (slice0 48 data)) ;;
     version <- lift (dict_getitem header "version") ;;
     if py_eq version (VList [VInt 0]) then
       r <- ext (c_decode_v0 data) (decode_v0 W data header) ;;
       ret (snd r, fst r)
     else if py_eq version (VList [VInt 1]) then
       r <- ext (c_decode_v1 data) (decode_v1 W data header) ;;
       ret (snd r, fst r)
     else
       raise (Exn NotSupportedError
                  [Lit "Map version "; StrOf version; Lit " is not supported."]
                  None))
    except_Exception
    (fun e =>
       log ERROR [LLit "Binary parsing failed: "; LExn e] ;;;
       raise (Exn ValueError
                  [Lit "Failed to parse map data in any supported format"]
                  (Some e))).

(** [parse_map(response)]: returns [(header, mapDataArr)]. *)
Definition parse_map (response : response) : M unit (dict * list Z) :=
  try_except (parse_map_json response)
             except_JSONDecodeError
             (fun _ => parse_map_binary response).

(** The two loops of [parse_path]: [coords.append(i*scale)]. *)
Fixpoint scale_coord (coord : list value) (scale : Z) (coords : list value)
  : result (list value) :=
  match coord with
  | [] => Ok coords
  | i :: rest =>
      match mul_int i scale with
      | Ok v => scale_coord rest scale (coords ++ [v])%list
      | Raise e => Raise e
      end
  end.

Fixpoint scale_path (path_data : list value) (scale : Z) (coords : list value)
  : result (list value) :=
  match path_data with
  | [] => Ok coords
  | coord :: rest =>
      match iter coord with
      | Raise e => Raise e
      | Ok elems =>
          match scale_coord elems scale coords with
          | Ok coords' => scale_path rest scale coords'
          | Raise e => Raise e
          end
      end
  end.

(** [parse_path(response, scale, header)].  The nested [try] either binds
    [path_data] ([inl]) or returns from the function ([inr]). *)
Definition parse_path (response : response) (scale : Z) (header : dict)
  : M unit (list value) :=
  r <- try_except
         (data <- ext c_json (json response) ;;
          path_data <- ext (c_decode_path_custom0 data)
                           (decode_path_custom0 W data header) ;;
          ret (inl path_data))
         except_JSONDecodeError
         (fun _ =>
            try_except
              (let data := hex (content response) in
               path_data <- ext (c_decode_path_v1 data) (decode_path_v1 W data) ;;
               ret (inl path_data))
              except_Exception
              (fun e =>
                 log ERROR [LLit "Path parsing failed: "; LExn e] ;;;
                 ret (inr []))) ;;
  match r with
  | inr early => ret early
  | inl path_data =>
      items <- lift (iter path_data) ;;
      lift (scale_path items scale [])
  end.

(** [image = f(image)] on the local variable [image]. *)
Definition rebind (c : call) (f : Image -> result Image) : M Image unit :=
  image <- get_local ;;
  image' <- ext c (f image) ;;
  set_local image'.

(** A call that draws on [image] in place and may raise. *)
Definition draw_on (c : call) (f : Image -> Image * option exn) : M Image unit :=
  fun image =>
    let '(image', err) := f image in
    (match err with None => Ok tt | Some e => Raise e end, image', [Call c]).

Definition rotations : list value := [VInt 90; VInt 180; VInt (-90); VInt 270].

(** The [try] block of [flip], on the local variable [image]. *)
Definition flip_try (settings : dict) : M Image unit :=
  let angle := dict_get settings "rotate" (VInt 0) in
  let flip_vertical := dict_get settings "flip_vertical" (VBool false) in
  let flip_horizontal := dict_get settings "flip_horizontal" (VBool false) in
  (if existsb (py_eq angle) rotations
   then rebind (c_rotate angle) (fun image => rotate W image angle)
   else ret tt) ;;;
  (if truthy flip_vertical
   then rebind (c_transpose FLIP_LEFT_RIGHT)
               (fun image => transpose W image FLIP_LEFT_RIGHT)
   else ret tt) ;;;
  (if truthy flip_horizontal
   then rebind (c_transpose FLIP_TOP_BOTTOM)
               (fun image => transpose W image FLIP_TOP_BOTTOM)
   else ret tt).

(** [flip(headers, image, settings)] *)
Definition flip (headers : dict) (image : Image) (settings : dict)
  : M unit (dict * Image) :=
  invoke
    (try_except (flip_try settings)
                except_Exception
                (fun e => log ERROR [LLit "Image transformation failed: "; LExn e]) ;;;
     image <- get_local ;;
     ret (headers, image))
    image.

(** [protoVer] in [render_layout]: [str(header["version"][0])] when the
    version is a list, the version itself otherwise. *)
Inductive protover : Type :=
| TextOf (v : value)
| AsIs (v : value).

(** [protoVer == "s"] *)
Definition protover_is (p : protover) (s : string) : bool :=
  match p with
  | TextOf v =>
      match str_atom v with
      | Some t => String.eqb t s
      | None => false   (* a container's text starts with a bracket *)
      end
  | AsIs v => py_eq v (VStr s)
  end.

Definition protover_shown (p : protover) : value :=
  match p with TextOf v | AsIs v => v end.

(** [render_layout(raw_map, header, colors)] *)
Definition render_layout (raw_map : list Z) (header : dict) (colors : dict)
  : M unit Image :=
  try_except
    (width <- lift (dict_getitem header "width") ;;
     height <- lift (dict_getitem header "height") ;;
     version <- lift (dict_getitem header "version") ;;
     protoVer <-
       (if is_list version
        then v0 <- lift (getitem_nat version 0) ;; ret (TextOf v0)
        else ret (AsIs version)) ;;
     let pixellist := raw_map in
     array <-
       (if protover_is protoVer "custom0" then
          ext (c_to_array "custom0") (to_array_custom0 W pixellist width height colors)
        else if protover_is protoVer "0" then
          ext (c_to_array "v0") (to_array_v0 W pixellist width height colors)
        else if protover_is protoVer "1" then
          let rooms := dict_get header "roominfo" (VList []) in
          ext (c_to_array "v1") (to_array_v1 W pixellist width height rooms colors)
        else
          raise (Exn NotSupportedError
                     [Lit "Protocol version "; StrOf (protover_shown protoVer);
                      Lit " not supported"]
                     None)) ;;
     ext c_fromarray (fromarray W array))
    except_Exception
    (fun e => log ERROR [LLit "Rendering failed: "; LExn e] ;;; raise e).

(** [next((item["map_url"] for item in items if "map_url" in item), None)] *)
Fixpoint first_map_url (items : list value) : result value :=
  match items with
  | [] => Ok VNone
  | item :: rest =>
      match contains_str "map_url" item with
      | Raise e => Raise e
      | Ok true => getitem_str item "map_url"
      | Ok false => first_map_url rest
      end
  end.

(** [links[1:]] *)
Definition slice_from1 (links : value) : result value :=
  match links with
  | VList l => Ok (VList (tl l))
  | VStr s => Ok (VStr (substring 1 (String.length s) s))
  | VDict _ => Raise (type_error "unhashable type: 'slice'")
  | VNone | VBool _ | VInt _ => Raise (not_subscriptable links)
  end.

(** [int(1080/width)].  The quotient of two ints of this size is a float
    whose truncation is the truncated exact quotient. *)
Definition compute_scale (width : Z) : result Z :=
  if width =? 0
  then Raise (Exn ZeroDivisionError [Lit "division by zero"] None)
  else Ok (Z.quot 1080 width).

Definition default_path_color : value := VList [VInt 0; VInt 255; VInt 0].

(** The dock position in image coordinates, before scaling: the lines
    [x, y = header["pileX"], header["pileY"]] to the end of the [if]. *)
Definition dock_point (header : dict) : M Image value :=
  x <- lift (dict_getitem header "pileX") ;;
  y <- lift (dict_getitem header "pileY") ;;
  version <- lift (dict_getitem header "version") ;;
  if existsb (py_eq version) [VList [VInt 0]; VList [VInt 1]] then
    let p := VDict [("x", x); ("y", y)] in
    ext (c_format_path_point p) (_format_path_point W p false)
  else
    mapResolution <- lift (dict_getitem header "mapResolution") ;;
    x_min <- lift (dict_getitem header "x_min") ;;
    y_min <- lift (dict_getitem header "y_min") ;;
    let p := VList [x; y] in
    ext (c_map_to_image p) (map_to_image W p mapResolution x_min y_min).

(** "Draw charging station": the marker at the scaled dock position. *)
Definition draw_dock (header : dict) (scale : Z) : M Image unit :=
  if has_key "pileX" header && has_key "pileY" header then
    point <- dock_point header ;;
    p0 <- lift (getitem_nat point 0) ;;
    x <- lift (mul_int p0 scale) ;;
    p1 <- lift (getitem_nat point 1) ;;
    y <- lift (mul_int p1 scale) ;;
    x0 <- lift (sub_int x 10) ;;
    y0 <- lift (sub_int y 10) ;;
    x1 <- lift (add_int x 10) ;;
    y1 <- lift (add_int y 10) ;;
    draw_on (c_ellipse ((x0, y0), (x1, y1)) (255, 255, 255) (0, 255, 0) 2)
            (fun image => ellipse W image ((x0, y0), (x1, y1))
                                  (255, 255, 255) (0, 255, 0) 2)
  else ret tt.

(** The body of the inner [try] of [get_map], on the local [image]. *)
Definition path_body (path_link : value) (header colors : dict) : M Image unit :=
  path_response <- invoke (download path_link) tt ;;
  image <- get_local ;;
  scale <- lift (compute_scale (fst (size W image))) ;;
  let new_size := (fst (size W image) * scale, snd (size W image) * scale) in
  rebind (c_resize new_size BOX) (fun image => resize W image new_size BOX) ;;;
  path <- invoke (parse_path path_response scale header) tt ;;
  if truthy (VList path) then
    image <- get_local ;;
    ext c_Draw (match Draw W image with Some e => Raise e | None => Ok tt end) ;;;
    fill <- lift (iter (dict_get colors "path_color" default_path_color)) ;;
    draw_on (c_line path fill 2) (fun image => line W image path fill 2) ;;;
    draw_dock header scale
  else ret tt.

(** The inner [try ... except Exception] of [get_map]. *)
Definition path_try (path_link : value) (header colors : dict) : M Image unit :=
  try_except (path_body path_link header colors)
             except_Exception
             (fun e => log ERROR [LLit "Path rendering failed: "; LExn e]).

(** Run a block on a local variable and read the variable when it ends. *)
Definition exec_local {L} (m : M L unit) (l0 : L) : M unit L :=
  fun _ =>
    let '(r, l, t) := m l0 in
    (match r with Ok _ => Ok l | Raise e => Raise e end, tt, t).

(** "Get download links": [urls] as it is after the first [if]. *)
Definition resolve_urls (server client_id secret_key device_id : string)
                        (urls : dict) : M unit dict :=
  if negb (truthy (VDict urls)) then
    link <- ext c_get_download_link
                (get_download_link W server client_id secret_key device_id) ;;
    log DEBUG [LLit "Download link response: "; LStr (VDict link)] ;;;
    let invalid : M unit dict :=
      log ERROR [LLit "Invalid link response structure"] ;;;
      raise (Exn ValueError [Lit "Invalid API response format"] None) in
    if negb (truthy (dict_get link "result" VNone)) then invalid
    else
      links <- lift (dict_getitem link "result") ;;
      if negb (is_list links) then invalid
      else ret [("links", links); ("time", VStr (now W))]
  else ret urls.

(** The path stage of [get_map]: "Handle path rendering if enabled". *)
Definition path_stage (links : value) (header colors settings : dict)
                      (image : Image) : M unit Image :=
  if truthy (dict_get settings "path_enabled" (VBool false)) then
    rest <- lift (slice_from1 links) ;;
    items <- lift (iter rest) ;;
    path_link <- lift (first_map_url items) ;;
    if truthy path_link
    then exec_local (path_try path_link header colors) image
    else ret image
  else ret image.

(** The body of the outer [try] of [get_map]. *)
Definition get_map_body (server client_id secret_key device_id : string)
                        (colors settings urls : dict) : M unit (dict * Image) :=
  urls <- resolve_urls server client_id secret_key device_id urls ;;
  links <- lift (dict_getitem urls "links") ;;
  items <- lift (iter links) ;;
  map_link <- lift (first_map_url items) ;;
  (if negb (truthy map_link) then
     log ERROR [LLit "No map URL found in response"] ;;;
     raise (Exn ValueError [Lit "No map URL available"] None)
   else ret tt) ;;;
  response <- download map_link ;;
  log DEBUG [LLit "Map response status: "; LStr (VInt (status_code response))] ;;;
  parsed <- parse_map response ;;
  let header := fst parsed in
  let mapDataArr := snd parsed in
  image <- render_layout mapDataArr header colors ;;
  image <- path_stage links header colors settings image ;;
  flip header image settings.

Definition or_empty (d : option dict) : dict :=
  match d with Some d => d | None => [] end.

(** [get_map(server, client_id, secret_key, device_id, colors, settings, urls)] *)
Definition get_map (server client_id secret_key device_id : string)
                   (colors settings urls : option dict) : M unit (dict * Image) :=
  let colors := or_empty colors in
  let settings := or_empty settings in
  let urls := or_empty urls in
  try_except
    (get_map_body server client_id secret_key device_id colors settings urls)
    except_Exception
    (fun e =>
       log ERROR [LLit "Map processing failed: "; LExn e] ;;;
       raise (Exn ValueError [Lit "Failed to process map data"] (Some e))).

End Main.

(** ** A reference world

    Images are grids of cell values with the drawing calls kept as an
    overlay; the decoders and the network are given by a few knobs.  It
    serves to run [main.py] on concrete requests. *)

Module Sim.

Definition grid : Type := list (list Z).

Record image : Type := {
  pixels : grid;
  overlay : list call
}.

Definition grid_width (g : grid) : Z :=
  match g with
  | [] => 0
  | row :: _ => Z.of_nat (List.length row)
  end.

Definition image_size (i : image) : Z * Z :=
  (grid_width (pixels i), Z.of_nat (List.length (pixels i))).

Definition mirror_left_right (g : grid) : grid := map (@rev Z) g.
Definition mirror_top_bottom (g : grid) : grid := rev g.

Fixpoint columns (g : grid) : grid :=
  match g with
  | [] => []
  | [row] => map (fun x => [x]) row
  | row :: rest => map (fun p => fst p :: snd p) (combine row (columns rest))
  end.

(** Rotation by quarter turns, counter-clockwise as PIL does (exact on
    square images, which keep their size). *)
Definition turn (angle : value) (g : grid) : grid :=
  match angle with
  | VInt 90 => rev (columns g)
  | VInt 180 => rev (map (@rev Z) g)
  | VInt 270 | VInt (-90) => map (@rev Z) (columns g)
  | _ => g
  end.

Definition stretch {A : Type} (k : nat) (l : list A) : list A :=
  flat_map (fun x => repeat x k) l.

(** Upscaling by an integer factor: every cell becomes a [k] by [k] block. *)
Definition upscale (k : nat) (g : grid) : grid := stretch k (map (stretch k) g).

Fixpoint rows_of (w : nat) (h : nat) (cells : list Z) : grid :=
  match h with
  | O => []
  | S h' => firstn w cells :: rows_of w h' (skipn w cells)
  end.

Definition to_grid (cells : list Z) (width height : value) : result grid :=
  match width, height with
  | VInt w, VInt h => Ok (rows_of (Z.to_nat w) (Z.to_nat h) cells)
  | _, _ => Raise (type_error "width and height must be ints")
  end.

Record knobs : Type := {
  net : value -> result response;                  (* requests.get *)
  api : result dict;                               (* get_download_link *)
  header_of : string -> result dict;               (* decode_header *)
  cells : list Z;                                  (* what decode_v0/v1 find *)
  structured : value -> result (dict * list Z);    (* decode_custom0 *)
  path_structured : value -> dict -> result value; (* decode_path_custom0 *)
  path_binary : string -> result value;            (* decode_path_v1 *)
  rotate_error : option exn;
  transpose_error : option exn;
  line_error : option exn;
  ellipse_error : option exn
}.

Definition or_raise {A : Type} (err : option exn) (a : A) : result A :=
  match err with
  | Some e => Raise e
  | None => Ok a
  end.

Definition sim_resize (i : image) (size : Z * Z) (f : resample_filter) : result image :=
  if (fst size <? 1) || (snd size <? 1)
  then Raise (Exn ValueError [Lit "height and width must be > 0"] None)
  else
    let k := Z.to_nat (fst size / fst (image_size i)) in
    Ok {| pixels := upscale k (pixels i); overlay := overlay i |}.

Definition sim_transpose (i : image) (m : transpose_method) : image :=
  {| pixels := match m with
               | FLIP_LEFT_RIGHT => mirror_left_right (pixels i)
               | FLIP_TOP_BOTTOM => mirror_top_bottom (pixels i)
               end;
     overlay := overlay i |}.

Definition sim_draw (c : call) (err : option exn) (i : image) : image * option exn :=
  match err with
  | Some e => (i, Some e)
  | None => ({| pixels := pixels i; overlay := (overlay i ++ [c])%list |}, None)
  end.

(** Modelled from the spec: [map_to_image] of the module [custom0], which
    is not part of the sources at hand; the affine mapping of the structured
    format, [pixel = (raw - origin) / resolution], on ints. *)
Definition sim_map_to_image (p resolution x_min y_min : value) : result value :=
  match p, resolution, x_min, y_min with
  | VList [VInt x; VInt y], VInt r, VInt x0, VInt y0 =>
      if r =? 0 then Raise (Exn ZeroDivisionError [Lit "division by zero"] None)
      else Ok (VList [VInt ((x - x0) / r); VInt ((y - y0) / r)])
  | _, _, _, _ => Raise (type_error "unsupported operand type(s)")
  end.

(** Modelled from the spec: [_format_path_point] of the module [v1], which
    is not part of the sources at hand; the shared point-formatting routine,
    here the coordinate pair itself. *)
Definition sim_format_path_point (p : value) (reverse_y : bool) : result value :=
  match getitem_str p "x", getitem_str p "y" with
  | Ok x, Ok y => Ok (VList [x; y])
  | Raise e, _ | _, Raise e => Raise e
  end.

Definition world (k : knobs) : World image grid := {|
  requests_get := net k;
  get_download_link := fun _ _ _ _ => api k;
  now := "12:00:00";
  decode_header := header_of k;
  decode_v0 := fun _ header => Ok (cells k, header);
  decode_v1 := fun _ header => Ok (cells k, (header ++ [("roominfo", VList [])])%list);
  decode_custom0 := structured k;
  decode_path_v1 := path_binary k;
  decode_path_custom0 := path_structured k;
  to_array_v0 := fun cells w h _ => to_grid cells w h;
  to_array_v1 := fun cells w h _ _ => to_grid cells w h;
  to_array_custom0 := fun cells w h _ => to_grid cells w h;
  _format_path_point := sim_format_path_point;
  map_to_image := sim_map_to_image;
  fromarray := fun g => Ok {| pixels := g; overlay := [] |};
  size := image_size;
  resize := sim_resize;
  rotate := fun i angle =>
    or_raise (rotate_error k) {| pixels := turn angle (pixels i); overlay := overlay i |};
  transpose := fun i m => or_raise (transpose_error k) (sim_transpose i m);
  Draw := fun _ => None;
  line := fun i xy fill w => sim_draw (c_line xy fill w) (line_error k) i;
  ellipse := fun i xy outline fill w =>
    sim_draw (c_ellipse xy outline fill w) (ellipse_error k) i
|}.

Definition no_json_error : exn := Exn JSONDecodeError [Lit "Expecting value"] None.

Definition no_json : result value := Raise no_json_error.

(** A binary response: the body is not JSON. *)
Definition binary_response (bytes : list byte) : response :=
  {| status_code := 200; raise_for_status := None; json := no_json; content := bytes |}.

(** A structured response: the document and the bytes of its text. *)
Definition json_response (data : value) (body : list byte) : response :=
  {| status_code := 200; raise_for_status := None; json := Ok data; content := body |}.

Definition unreachable : exn := Exn RequestException [Lit "connection refused"] None.

End Sim.

(** ** Requests used as examples *)

Module Scenario.
Import Sim.

Definition out_of_memory : exn := Exn OtherError [Lit "out of memory"] None.

(** Nothing is reachable and nothing decodes. *)
Definition offline : knobs := {|
  net := fun _ => Raise unreachable;
  api := Raise unreachable;
  header_of := fun _ => Raise (Exn ValueError [Lit "header too short"] None);
  cells := [];
  structured := fun _ => Raise (Exn KeyError [StrOf (VStr "data")] None);
  path_structured := fun _ _ => Raise (Exn KeyError [StrOf (VStr "pathData")] None);
  path_binary := fun _ => Raise (Exn ValueError [Lit "not a path"] None);
  rotate_error := None;
  transpose_error := None;
  line_error := None;
  ellipse_error := None
|}.

(** As [offline], but [Image.transpose] runs out of memory. *)
Definition transpose_fails : knobs := {|
  net := net offline; api := api offline; header_of := header_of offline;
  cells := cells offline; structured := structured offline;
  path_structured := path_structured offline; path_binary := path_binary offline;
  rotate_error := None;
  transpose_error := Some out_of_memory;
  line_error := None;
  ellipse_error := None
|}.

Definition links : value :=
  VList [VDict [("map_url", VStr "https://map")];
         VDict [("map_url", VStr "https://path")]].

Definition urls : dict := [("links", links)].

Definition legacy_header : dict :=
  [("version", VList [VInt 0]); ("width", VInt 540); ("height", VInt 1);
   ("pileX", VInt 100); ("pileY", VInt 0)].

(** A payload of a 24-byte preamble and two cells. *)
Definition map_bytes : list byte := (repeat x00 24 ++ [x01; x02])%list.

(** [{"pathData": []}] and its text. *)
Definition path_doc : value := VDict [("pathData", VList [])].
Definition path_body_bytes : list byte :=
  [x7b; x22; x70; x61; x74; x68; x44; x61; x74; x61; x22; x3a; x20; x5b; x5d; x7d].
Definition path_response : response := json_response path_doc path_body_bytes.

(** [{"result": []}] and its text. *)
Definition listed_doc : value := VDict [("result", VList [])].
Definition listed_response : response :=
  json_response listed_doc
    [x7b; x22; x72; x65; x73; x75; x6c; x74; x22; x3a; x20; x5b; x5d; x7d].

(** [{}] and its text. *)
Definition empty_doc : value := VDict [].
Definition empty_response : response := json_response empty_doc [x7b; x7d].

Definition serve (path : response) (url : value) : result response :=
  if py_eq url (VStr "https://map") then Ok (binary_response map_bytes)
  else if py_eq url (VStr "https://path") then Ok path
  else Raise unreachable.

(** A Legacy map of 540 by 1 cells with a dock, and a structured path of
    two points. *)
Definition home : knobs := {|
  net := serve path_response;
  api := Ok [("result", links)];
  header_of := fun _ => Ok legacy_header;
  cells := repeat 0 540;
  structured := structured offline;
  path_structured := fun _ _ =>
    Ok (VList [VList [VInt 1; VInt 0]; VList [VInt 3; VInt 0]]);
  path_binary := path_binary offline;
  rotate_error := None;
  transpose_error := None;
  line_error := None;
  ellipse_error := None
|}.

(** As [home], but the structured path decoder misses a key. *)
Definition path_decode_fails : knobs := {|
  net := net home; api := api home; header_of := header_of home;
  cells := cells home; structured := structured home;
  path_structured := path_structured offline;
  path_binary := path_binary home;
  rotate_error := None;
  transpose_error := None;
  line_error := None;
  ellipse_error := None
|}.

(** As [home], but the binary header announces version 2. *)
Definition version_two : knobs := {|
  net := net home; api := api home;
  header_of := fun _ =>
    Ok [("version", VList [VInt 2]); ("width", VInt 540); ("height", VInt 1)];
  cells := cells home; structured := structured home;
  path_structured := path_structured home;
  path_binary := path_binary home;
  rotate_error := None;
  transpose_error := None;
  line_error := None;
  ellipse_error := None
|}.

(** As [home], but [Image.transpose] runs out of memory. *)
Definition home_transpose_fails : knobs := {|
  net := net home; api := api home; header_of := header_of home;
  cells := cells home; structured := structured home;
  path_structured := path_structured home;
  path_binary := path_binary home;
  rotate_error := None;
  transpose_error := Some out_of_memory;
  line_error := None;
  ellipse_error := None
|}.

Definition path_on : dict := [("path_enabled", VBool true)].

(** The 540 by 1 map of [home], as rasterized, and upscaled by 2. *)
Definition small : image := {| pixels := [repeat 0 540]; overlay := [] |}.
Definition doubled : image := {| pixels := upscale 2 [repeat 0 540]; overlay := [] |}.

Definition two_by_two : image := {| pixels := [[1; 2]; [3; 4]]; overlay := [] |}.

Definition turned_and_flipped : dict :=
  [("rotate", VInt 180); ("flip_vertical", VBool true); ("flip_horizontal", VBool true)].

Definition quarter_turn_and_flipped : dict :=
  [("rotate", VInt 90); ("flip_vertical", VBool true); ("flip_horizontal", VBool true)].

Definition grid_image (g : grid) : image := {| pixels := g; overlay := [] |}.

Definition missing_path_data : exn := Exn KeyError [StrOf (VStr "pathData")] None.

End Scenario.


(** ** Vocabulary of the statements *)

(** The calls of the structured (JSON) decoding and of the binary decoding. *)
Definition is_structured_call (c : call) : bool :=
  match c with
  | c_json | c_decode_custom0 _ => true
  | _ => false
  end.

Definition is_binary_call (c : call) : bool :=
  match c with
  | c_decode_header _ | c_decode_v0 _ | c_decode_v1 _ => true
  | _ => false
  end.

Definition not_structured (e : event) : bool :=
  match e with
  | Call c => negb (is_structured_call c)
  | Log _ _ => true
  end.

(** No structured call comes after a binary call. *)
Fixpoint structured_first (tr : trace) : bool :=
  match tr with
  | [] => true
  | Call c :: rest =>
      if is_binary_call c then forallb not_structured rest
      else structured_first rest
  | Log _ _ :: rest => structured_first rest
  end.

(** A JSON object with a top-level ['result'] key that holds a list. *)
Definition result_list (data : value) : bool :=
  match data with
  | VDict d =>
      match lookup "result" d with
      | Some (VList _) => true
      | _ => false
      end
  | _ => false
  end.

(** What a JSON object holds under the wrapper key ['map_data']. *)
Definition wrapper (data : value) : option value :=
  match data with
  | VDict d => lookup "map_data" d
  | _ => None
  end.

(** The events emitted by an optional step. *)
Definition applied (b : bool) (e : event) : trace := if b then [e] else [].


(** The result of a computation that has no locals. *)
Definition outcome {A : Type} (m : M unit A) : result A := fst (run m).

(** The exception [get_map] raises for a failure [e] inside it. *)
Definition processing_failed (e : exn) : exn :=
  Exn ValueError [Lit "Failed to process map data"] (Some e).

(** The exception the binary branch of [parse_map] raises for a failure [e]. *)
Definition parsing_failed (e : exn) : exn :=
  Exn ValueError [Lit "Failed to parse map data in any supported format"] (Some e).

(** The exception raised for a binary header of another version. *)
Definition unsupported_version (version : value) : exn :=
  Exn NotSupportedError
      [Lit "Map version "; StrOf version; Lit " is not supported."] None.

Section Stages.

Context {Image Array : Type} (W : World Image Array).

(** The links are resolved and [map_link] is what the first entry with a
    ['map_url'] holds. *)
Definition map_located (server client_id secret_key device_id : string)
                       (urls : dict) (links map_link : value) : Prop :=
  exists (urls' : dict) (items : list value),
    outcome (resolve_urls W server client_id secret_key device_id urls) = Ok urls' /\
    dict_getitem urls' "links" = Ok links /\
    iter links = Ok items /\
    first_map_url items = Ok map_link /\
    truthy map_link = true.

(** Step 1 of a request went through: the map blob is located and its
    download returned [response]. *)
Definition map_fetched (server client_id secret_key device_id : string)
                       (urls : dict) (links : value) (response : response) : Prop :=
  exists map_link : value,
    map_located server client_id secret_key device_id urls links map_link /\
    outcome (download W map_link) = Ok response.

(** Steps 1 to 3 went through: the map was fetched, decoded to [header] and
    rasterized to [image]. *)
Definition map_rendered (server client_id secret_key device_id : string)
                        (colors urls : dict) (links : value)
                        (header : dict) (image : Image) : Prop :=
  exists (response : response) (mapDataArr : list Z),
    map_fetched server client_id secret_key device_id urls links response /\
    outcome (parse_map W response) = Ok (header, mapDataArr) /\
    outcome (render_layout W mapDataArr header colors) = Ok image.

End Stages.


(** The path blob is located: [path_link] is what the generator over
    [links[1:]] yields first, and it is true. *)
Definition path_located (links path_link : value) : Prop :=
  exists (rest : value) (items : list value),
    slice_from1 links = Ok rest /\
    iter rest = Ok items /\
    first_map_url items = Ok path_link /\
    truthy path_link = true.

(** The value of the local variable when a block ends. *)
Definition local_after {L A : Type} (m : M L A) (l : L) : L := snd (fst (m l)).

Definition is_drawing_call (c : call) : bool :=
  match c with
  | c_line _ _ _ | c_ellipse _ _ _ _ => true
  | _ => false
  end.

Definition no_drawing (e : event) : bool :=
  match e with
  | Call c => negb (is_drawing_call c)
  | Log _ _ => true
  end.




Definition white : rgb := (255, 255, 255).
Definition green : rgb := (0, 255, 0).

(** The position of the entry the generator yields from: the first one
    that carries ['map_url']. *)
Fixpoint first_index (items : list value) : option nat :=
  match items with
  | [] => None
  | item :: rest =>
      match contains_str "map_url" item with
      | Ok true => Some O
      | Ok false => option_map S (first_index rest)
      | Raise _ => None
      end
  end.

(** The entries of the link list the map URL and the path URL are read
    from: the generator for the path runs over [links[1:]]. *)
Definition map_entry (links : list value) : option nat := first_index links.
Definition path_entry (links : list value) : option nat :=
  option_map S (first_index (tl links)).


(** ** Vocabulary of the further statements *)

(** The trace of a computation that has no locals. *)
Definition trace_of {A : Type} (m : M unit A) : trace := snd (run m).

Definition is_download (e : event) : bool :=
  match e with
  | Call (c_requests_get _) => true
  | _ => false
  end.

Definition is_link_request (e : event) : bool :=
  match e with
  | Call c_get_download_link => true
  | _ => false
  end.

Definition is_raster_call (e : event) : bool :=
  match e with
  | Call (c_to_array _) | Call c_fromarray => true
  | _ => false
  end.

Definition is_decoder_call (e : event) : bool :=
  match e with
  | Call (c_decode_custom0 _) | Call (c_decode_header _)
  | Call (c_decode_v0 _) | Call (c_decode_v1 _) => true
  | _ => false
  end.

(** How many events of a trace satisfy [p]. *)
Definition count (p : event -> bool) (tr : trace) : nat :=
  List.length (filter p tr).

(** ** Vocabulary of the further statements, continued *)

(** At most [n] events of the trace satisfy [p], whatever the locals. *)
Definition bounded {L A : Type} (p : event -> bool) (n : nat) (m : M L A) : Prop :=
  forall l : L, (count p (snd (m l)) <= n)%nat.

(** A call that leaves the machine: a download or a link request. *)
Definition is_network (e : event) : bool := is_download e || is_link_request e.

(** The record [download] logs for a failure [e]. *)
Definition download_failed (url : value) (e : exn) : event :=
  Log ERROR [LLit "Download failed for URL "; LStr url; LLit ": "; LExn e].

(** The exceptions [get_map] raises itself. *)
Definition no_map_url : exn := Exn ValueError [Lit "No map URL available"] None.

(** The exception [render_layout] raises for a version it does not know. *)
Definition unsupported_protocol (v : value) : exn :=
  Exn NotSupportedError [Lit "Protocol version "; StrOf v; Lit " not supported"] None.

(** A log record, as opposed to a call. *)
Definition is_log (e : event) : bool :=
  match e with Log _ _ => true | Call _ => false end.

(** [KeyError('k')] *)
Definition key_error (k : string) : exn := Exn KeyError [StrOf (VStr k)] None.

Definition invalid_api_response : exn :=
  Exn ValueError [Lit "Invalid API response format"] None.

(** The record [render_layout] logs for a failure [e]. *)
Definition rendering_failed (e : exn) : event :=
  Log ERROR [LLit "Rendering failed: "; LExn e].

(** The record the path branch of [get_map] logs for a failure [e]. *)
Definition path_rendering_failed (e : exn) : event :=
  Log ERROR [LLit "Path rendering failed: "; LExn e].

(** ** Further requests used as examples *)

Module MoreScenarios.
Import Sim.

(** A link list whose first entry holds an empty URL. *)
Definition blank_first : value :=
  VList [VDict [("map_url", VStr "")]; VDict [("map_url", VStr "https://path")]].

(** A link list with the map entry only. *)
Definition map_only : value := VList [VDict [("map_url", VStr "https://map")]].

(** An image wider than 1080 cells. *)
Definition wide : image := {| pixels := [repeat 0 1081]; overlay := [] |}.

(** A header whose version is a bare int, not a list. *)
Definition bare_version_header : dict :=
  [("width", VInt 2); ("height", VInt 2); ("version", VInt 0)].


(** A Legacy map of 1081 by 1 cells with a dock. *)
Definition wide_header : dict :=
  [("version", VList [VInt 0]); ("width", VInt 1081); ("height", VInt 1);
   ("pileX", VInt 100); ("pileY", VInt 0)].

(** As [home], but [draw.line] runs out of memory. *)
Definition line_fails : knobs := {|
  net := net Scenario.home; api := api Scenario.home;
  header_of := header_of Scenario.home;
  cells := cells Scenario.home; structured := structured Scenario.home;
  path_structured := path_structured Scenario.home;
  path_binary := path_binary Scenario.home;
  rotate_error := None;
  transpose_error := None;
  line_error := Some Scenario.out_of_memory;
  ellipse_error := None
|}.

(** As [home], but the map is 1081 cells wide. *)
Definition wide_home : knobs := {|
  net := net Scenario.home; api := api Scenario.home;
  header_of := fun _ => Ok wide_header;
  cells := repeat 0 1081; structured := structured Scenario.home;
  path_structured := path_structured Scenario.home;
  path_binary := path_binary Scenario.home;
  rotate_error := None;
  transpose_error := None;
  line_error := None;
  ellipse_error := None
|}.

(** What PIL answers to a resize to an empty size. *)
Definition empty_size : exn :=
  Exn ValueError [Lit "height and width must be > 0"] None.

(** The path of [home] at scale 2, its colour and its dock marker; the
    upscaled map of [home] once the line is drawn, and once the marker is
    drawn too. *)
Definition home_path : list value := [VInt 2; VInt 0; VInt 6; VInt 0].
Definition home_fill : list value := [VInt 0; VInt 255; VInt 0].
Definition home_marker : box := ((190, -10), (210, 10)).

Definition lined : image :=
  {| pixels := pixels Scenario.doubled;
     overlay := [c_line home_path home_fill 2] |}.

Definition marked : image :=
  {| pixels := pixels Scenario.doubled;
     overlay := [c_line home_path home_fill 2;
                 c_ellipse home_marker white green 2] |}.

End MoreScenarios.

(** ** Proof tactics *)

Ltac unfold_m :=
  unfold run, invoke, exec_local, try_except, rebind, draw_on, bind, ext, lift,
         log, ret, raise, get_local, set_local, except_Exception.

Ltac in_last :=
  solve [ repeat first [ left; reflexivity | apply in_or_app; right | right ] ].

(** ** Properties *)

(** *** The value model on examples *)

Example hex_example : hex [x00; x1f; xa0] = "001fa0".
Proof. reflexivity. Qed.

Example str_atom_example :
  str_atom (VInt (-12)) = Some "-12" /\ str_atom (VInt 0) = Some "0".
Proof. split; reflexivity. Qed.

Example py_eq_example :
  py_eq (VList [VBool false]) (VList [VInt 0]) = true /\
  py_eq (VList [VInt 0; VInt 0]) (VList [VInt 0]) = false /\
  py_eq (VDict [("a", VInt 1); ("b", VNone)]) (VDict [("b", VNone); ("a", VBool true)])
    = true.
Proof. repeat split; reflexivity. Qed.

Example slice0_short : slice0 48 "0001" = "0001".
Proof. reflexivity. Qed.

(** *** The transform step *)

Lemma rotations_spec (angle : value) :
  existsb (py_eq angle) rotations = true <->
  In angle [VInt 90; VInt 180; VInt 270; VInt (-90)].
Proof.
  unfold rotations. split.
  - intros H. destruct angle as [ | b | n | s | l | d ]; simpl in H;
      try discriminate.
    + destruct b; discriminate.
    + rewrite !orb_false_r in H.
      repeat (apply orb_true_iff in H; destruct H as [H | H]);
        apply Z.eqb_eq in H; subst; simpl; auto.
  - simpl. intros [H | [H | [H | [H | []]]]]; subst; reflexivity.
Qed.

(** In the reference world, [FLIP_LEFT_RIGHT] puts the cell of column [c]
    in column [width - 1 - c] of the same row, and [FLIP_TOP_BOTTOM] does
    the same with rows. *)
Lemma sim_transpose_cells (i : Sim.image) (r c : nat) (row : list Z) :
  nth_error (Sim.pixels i) r = Some row ->
  (c < List.length row)%nat ->
  (exists row',
      nth_error (Sim.pixels (Sim.sim_transpose i FLIP_LEFT_RIGHT)) r = Some row' /\
      nth_error row' (List.length row - 1 - c) = nth_error row c) /\
  nth_error (Sim.pixels (Sim.sim_transpose i FLIP_TOP_BOTTOM))
            (List.length (Sim.pixels i) - 1 - r) = Some row.
Proof.
  intros Hr Hc. simpl. unfold Sim.mirror_left_right, Sim.mirror_top_bottom. split.
  - exists (rev row). rewrite nth_error_map, Hr. split; [reflexivity |].
    rewrite nth_error_rev.
    destruct (Nat.ltb_spec (List.length row - 1 - c) (List.length row)) as [_ | H];
      [| lia].
    f_equal. lia.
  - assert (Hlt : (r < List.length (Sim.pixels i))%nat)
      by (apply nth_error_Some; rewrite Hr; discriminate).
    rewrite nth_error_rev.
    destruct (Nat.ltb_spec (List.length (Sim.pixels i) - 1 - r)
                           (List.length (Sim.pixels i))) as [_ | H]; [| lia].
    rewrite <- Hr. f_equal. lia.
Qed.

Section FlipProperties.

Context {Image Array : Type} (W : World Image Array).

(** What [flip] returns and calls when no operation fails. *)
Lemma flip_run_ok (headers : dict) (image : Image) (settings : dict) :
  let angle := dict_get settings "rotate" (VInt 0) in
  let fv := truthy (dict_get settings "flip_vertical" (VBool false)) in
  let fh := truthy (dict_get settings "flip_horizontal" (VBool false)) in
  let rot := existsb (py_eq angle) rotations in
  forall i1 i2 i3 : Image,
    (if rot then rotate W image angle else Ok image) = Ok i1 ->
    (if fv then transpose W i1 FLIP_LEFT_RIGHT else Ok i1) = Ok i2 ->
    (if fh then transpose W i2 FLIP_TOP_BOTTOM else Ok i2) = Ok i3 ->
    run (flip W headers image settings) =
    (Ok (headers, i3),
     (applied rot (Call (c_rotate angle))
      ++ applied fv (Call (c_transpose FLIP_LEFT_RIGHT))
      ++ applied fh (Call (c_transpose FLIP_TOP_BOTTOM)))%list).
Proof.
  intros angle fv fh rot i1 i2 i3 H1 H2 H3.
  unfold flip, flip_try. fold angle. fold rot. fold fv. fold fh.
  unfold_m.
  destruct rot, fv, fh; simpl in *;
    repeat match goal with
           | H : Ok _ = Ok _ |- _ => injection H as H; subst
           | H : _ = Ok _ |- _ => rewrite H
           end; reflexivity.
Qed.

(** C5.  [flip] rotates exactly when the [rotate] setting is one of 90, 180,
    270 and -90; it applies the rotation first, then the flip selected by
    [flip_vertical], then the flip selected by [flip_horizontal], each flip
    gated by the truth value of its own flag. *)
Theorem flip_rotate_then_flips (headers : dict) (image : Image) (settings : dict) :
  let angle := dict_get settings "rotate" (VInt 0) in
  let fv := truthy (dict_get settings "flip_vertical" (VBool false)) in
  let fh := truthy (dict_get settings "flip_horizontal" (VBool false)) in
  let rot := existsb (py_eq angle) rotations in
  (rot = true <-> In angle [VInt 90; VInt 180; VInt 270; VInt (-90)]) /\
  forall i1 i2 i3 : Image,
    (if rot then rotate W image angle else Ok image) = Ok i1 ->
    (if fv then transpose W i1 FLIP_LEFT_RIGHT else Ok i1) = Ok i2 ->
    (if fh then transpose W i2 FLIP_TOP_BOTTOM else Ok i2) = Ok i3 ->
    run (flip W headers image settings) =
    (Ok (headers, i3),
     (applied rot (Call (c_rotate angle))
      ++ applied fv (Call (c_transpose FLIP_LEFT_RIGHT))
      ++ applied fh (Call (c_transpose FLIP_TOP_BOTTOM)))%list).
Proof.
  intros angle fv fh rot. split; [apply rotations_spec |].
  intros i1 i2 i3. apply flip_run_ok.
Qed.

(** What [flip] returns when an operation may fail. *)
Lemma flip_failure_cases (headers : dict) (image : Image) (settings : dict) :
  let angle := dict_get settings "rotate" (VInt 0) in
  let fv := truthy (dict_get settings "flip_vertical" (VBool false)) in
  let fh := truthy (dict_get settings "flip_horizontal" (VBool false)) in
  let rot := existsb (py_eq angle) rotations in
  let failed e := Log ERROR [LLit "Image transformation failed: "; LExn e] in
  exists (image' : Image) (tr : trace),
    run (flip W headers image settings) = (Ok (headers, image'), tr) /\
    match (if rot then rotate W image angle else Ok image) with
    | Raise e => image' = image /\ In (failed e) tr
    | Ok i1 =>
        match (if fv then transpose W i1 FLIP_LEFT_RIGHT else Ok i1) with
        | Raise e => image' = i1 /\ In (failed e) tr
        | Ok i2 =>
            match (if fh then transpose W i2 FLIP_TOP_BOTTOM else Ok i2) with
            | Raise e => image' = i2 /\ In (failed e) tr
            | Ok i3 => image' = i3
            end
        end
    end.
Proof.
  intros angle fv fh rot failed.
  unfold flip, flip_try. fold angle. fold rot. fold fv. fold fh.
  unfold_m.
  destruct rot; simpl;
    [destruct (rotate W image angle) as [i1 | e]; simpl |];
    (destruct fv; simpl;
     [ match goal with
       | |- context [transpose W ?i FLIP_LEFT_RIGHT] =>
           destruct (transpose W i FLIP_LEFT_RIGHT) as [i2 | e2]; simpl
       | _ => idtac
       end | ]);
    (destruct fh; simpl;
     [ match goal with
       | |- context [transpose W ?i FLIP_TOP_BOTTOM] =>
           destruct (transpose W i FLIP_TOP_BOTTOM) as [i3 | e3]; simpl
       | _ => idtac
       end | ]);
    eexists; eexists; (split; [reflexivity |]);
    try reflexivity; split; try reflexivity; simpl; auto 10.
Qed.

(** C10.  A true [flip_vertical] makes [flip] transpose the image with
    [FLIP_LEFT_RIGHT] (a mirror across the vertical axis); a true
    [flip_horizontal] makes it transpose with [FLIP_TOP_BOTTOM] (a mirror
    across the horizontal axis).  [i1] is the image after the rotation step. *)
Theorem flip_flags_select_mirrors (headers : dict) (image : Image) (settings : dict) :
  let angle := dict_get settings "rotate" (VInt 0) in
  let fv := truthy (dict_get settings "flip_vertical" (VBool false)) in
  let fh := truthy (dict_get settings "flip_horizontal" (VBool false)) in
  let rot := existsb (py_eq angle) rotations in
  forall i1 : Image,
    (if rot then rotate W image angle else Ok image) = Ok i1 ->
    (forall i2 : Image,
        fv = true -> fh = false ->
        transpose W i1 FLIP_LEFT_RIGHT = Ok i2 ->
        fst (run (flip W headers image settings)) = Ok (headers, i2)) /\
    (forall i2 : Image,
        fv = false -> fh = true ->
        transpose W i1 FLIP_TOP_BOTTOM = Ok i2 ->
        fst (run (flip W headers image settings)) = Ok (headers, i2)) /\
    (forall i2 i3 : Image,
        fv = true -> fh = true ->
        transpose W i1 FLIP_LEFT_RIGHT = Ok i2 ->
        transpose W i2 FLIP_TOP_BOTTOM = Ok i3 ->
        fst (run (flip W headers image settings)) = Ok (headers, i3)).
Proof.
  intros angle fv fh rot i1 H1.
  pose proof (flip_run_ok headers image settings) as H.
  fold angle fv fh rot in H.
  repeat split.
  - intros i2 Hv Hh H2. rewrite (H i1 i2 i2 H1); [reflexivity | |];
      [rewrite Hv; exact H2 | rewrite Hh; reflexivity].
  - intros i2 Hv Hh H2. rewrite (H i1 i1 i2 H1); [reflexivity | |];
      [rewrite Hv; reflexivity | rewrite Hh; exact H2].
  - intros i2 i3 Hv Hh H2 H3. rewrite (H i1 i2 i3 H1); [reflexivity | |];
      [rewrite Hv; exact H2 | rewrite Hh; exact H3].
Qed.

End FlipProperties.

Lemma has_key_lookup k d :
  has_key k d = match lookup k d with Some _ => true | None => false end.
Proof.
  unfold has_key, lookup. induction d as [| [k' v] d IH]; simpl; [reflexivity |].
  destruct (String.eqb k k'); simpl; [reflexivity | exact IH].
Qed.

Lemma exn_class_eqb_eq a b : exn_class_eqb a b = true <-> a = b.
Proof. split; [destruct a, b; simpl; congruence | intros ->; destruct b; reflexivity]. Qed.

Section ParseProperties.
Context {Image Array : Type} (W : World Image Array).

Lemma parse_map_json_cases (r : response) :
  let '(res, _, tr) := parse_map_json W r tt in
  match json r with
  | Raise e => res = Raise e /\ tr = [Call c_json]
  | Ok data =>
      exists rest, tr = Call c_json :: Log DEBUG [LLit "Raw JSON response: "; LJson data] :: rest /\
      if result_list data then res = decode_custom0 W data /\ rest = [Call (c_decode_custom0 data)]
      else match wrapper data with
           | Some v => res = decode_custom0 W v /\ rest = [Call (c_decode_custom0 v)]
           | None => rest = [] /\ exists e, res = Raise e /\
                     (forall d, data = VDict d ->
                        e = Exn JSONDecodeError [Lit "No recognized JSON format"] None)
           end
  end.
Proof.
  unfold parse_map_json. unfold_m.
  destruct (json r) as [data | e]; simpl; [| auto].
  destruct data as [ | b | n | s | l | d ].
  1-3: simpl; eexists; split; [reflexivity |]; split; [reflexivity |];
       eexists; split; [reflexivity | discriminate].
  - unfold contains_str.
    destruct (is_substring "result" s), (is_substring "map_data" s); simpl;
      eexists; (split; [reflexivity |]); (split; [reflexivity |]);
      eexists; (split; [reflexivity | discriminate]).
  - unfold contains_str.
    destruct (existsb (fun x => py_eq (VStr "result") x) l),
             (existsb (fun x => py_eq (VStr "map_data") x) l); simpl;
      eexists; (split; [reflexivity |]); (split; [reflexivity |]);
      eexists; (split; [reflexivity | discriminate]).
  - unfold contains_str, getitem_str, dict_getitem, result_list, wrapper.
    rewrite !has_key_lookup.
    destruct (lookup "result" d) as [v |]; simpl.
    + destruct v; simpl; try (eexists; split; [reflexivity |]; split; reflexivity);
        destruct (lookup "map_data" d) as [w |]; simpl;
        eexists; (split; [reflexivity |]); try (split; reflexivity);
        (split; [reflexivity |]); eexists; (split; [reflexivity |]);
        intros; reflexivity.
    + destruct (lookup "map_data" d) as [w |]; simpl;
        eexists; (split; [reflexivity |]); try (split; reflexivity);
        (split; [reflexivity |]); eexists; (split; [reflexivity |]);
        intros; reflexivity.
Qed.


Lemma parse_map_binary_trace (r : response) :
  let h48 := slice0 48 (hex (content r)) in
  exists rest,
    snd (parse_map_binary W r tt) =
      Log DEBUG [LLit "Falling back to binary parsing"]
      :: Call (c_decode_header h48) :: rest /\
    forallb not_structured rest = true /\
    (forall h, ~ In (Call (c_decode_header h)) rest).
Proof.
  unfold parse_map_binary, dict_getitem. unfold_m.
  destruct (decode_header W _) as [header | e]; simpl.
  2: { eexists; split; [reflexivity |]; split; [reflexivity |].
       intros h [H | []]; discriminate. }
  destruct (lookup "version" header) as [version |]; simpl.
  2: { eexists; split; [reflexivity |]; split; [reflexivity |].
       intros h [H | []]; discriminate. }
  destruct (py_eq version (VList [VInt 0])); simpl.
  { destruct (decode_v0 W _ header) as [[cells header'] | e]; simpl;
      eexists; (split; [reflexivity |]); (split; [reflexivity |]);
      intros h H; simpl in H; intuition discriminate. }
  destruct (py_eq version (VList [VInt 1])); simpl.
  { destruct (decode_v1 W _ header) as [[cells header'] | e]; simpl;
      eexists; (split; [reflexivity |]); (split; [reflexivity |]);
      intros h H; simpl in H; intuition discriminate. }
  eexists; split; [reflexivity |]; split; [reflexivity |].
  intros h [H | []]; discriminate.
Qed.

(** C1.  [parse_map] attempts the structured decoding first: it calls
    [response.json()] before anything else, hands a document with a
    ['result'] list (or else the value under ['map_data']) to the structured
    decoder, and decodes the binary header of the same bytes only after the
    structured attempt ended in a JSONDecodeError -- the body is not JSON,
    neither key is recognised, or the structured decoder raised it.  No
    structured call follows a binary one. *)
Theorem parse_map_structured_first (r : response) :
  let tr := snd (run (parse_map W r)) in
  let h48 := slice0 48 (hex (content r)) in
  (exists rest, tr = Call c_json :: rest) /\
  structured_first tr = true /\
  (forall data,
      json r = Ok data -> result_list data = true ->
      nth_error tr 2 = Some (Call (c_decode_custom0 data))) /\
  (forall data v,
      json r = Ok data -> result_list data = false -> wrapper data = Some v ->
      nth_error tr 2 = Some (Call (c_decode_custom0 v))) /\
  (forall h,
      In (Call (c_decode_header h)) tr ->
      h = h48 /\
      ((exists e, json r = Raise e /\ exn_cls e = JSONDecodeError) \/
       (exists data,
           json r = Ok data /\ result_list data = false /\ wrapper data = None) \/
       (exists data arg e,
           json r = Ok data /\ In (Call (c_decode_custom0 arg)) tr /\
           decode_custom0 W arg = Raise e /\ exn_cls e = JSONDecodeError))) /\
  (forall d,
      json r = Ok (VDict d) ->
      result_list (VDict d) = false -> wrapper (VDict d) = None ->
      In (Call (c_decode_header h48)) tr) /\
  (forall e,
      json r = Raise e -> exn_cls e = JSONDecodeError ->
      In (Call (c_decode_header h48)) tr).
Proof.
  intros tr h48. subst tr.
  unfold parse_map, run, try_except, except_JSONDecodeError.
  pose proof (parse_map_json_cases r) as HJ.
  destruct (parse_map_json W r tt) as [[res []] t1].
  destruct (parse_map_binary_trace r) as [rest2 [HB [Hns Hnh]]].
  destruct (parse_map_binary W r tt) as [[res2 []] t2].
  simpl in HB. subst t2. fold h48 in Hnh |- *.
  destruct (json r) as [data | e0] eqn:Ejson.
  - destruct HJ as [rest [-> HJ]].
    assert (Hfall : forall e, res = Raise e ->
              exn_class_eqb (exn_cls e) JSONDecodeError = true ->
              (exists d0, Ok data = Ok d0 /\ result_list d0 = false /\ wrapper d0 = None) \/
              (exists d0 arg e', Ok data = Ok d0 /\ In (Call (c_decode_custom0 arg)) rest /\
                  decode_custom0 W arg = Raise e' /\ exn_cls e' = JSONDecodeError)).
    { intros e Hres Hc. apply exn_class_eqb_eq in Hc.
      destruct (result_list data) eqn:Erl.
      - destruct HJ as [-> ->]. right. exists data, data, e.
        repeat split; simpl; auto.
      - destruct (wrapper data) as [v |] eqn:Ew.
        + destruct HJ as [-> ->]. right. exists data, v, e.
          repeat split; simpl; auto.
        + left. exists data. auto. }
    assert (Hshape : rest = [] \/ exists v, rest = [Call (c_decode_custom0 v)]).
    { destruct (result_list data); [right; eexists; apply HJ |].
      destruct (wrapper data); [right; eexists; apply HJ | left; apply HJ]. }
    assert (Hsel : forall v, (result_list data = true /\ v = data) \/
                             (result_list data = false /\ wrapper data = Some v) ->
                   rest = [Call (c_decode_custom0 v)]).
    { intros v [[H1 ->] | [H1 H2]]; rewrite H1 in HJ; [apply HJ |].
      rewrite H2 in HJ. apply HJ. }
    assert (Hnone : result_list data = false -> wrapper data = None ->
                    exists e, res = Raise e /\
                      (forall d, data = VDict d ->
                         e = Exn JSONDecodeError [Lit "No recognized JSON format"] None)).
    { intros H1 H2. rewrite H1, H2 in HJ. apply HJ. }
    assert (Hnh' : forall h, ~ In (Call (c_decode_header h)) rest).
    { intros h Hin.
      destruct (result_list data); [destruct HJ as [_ ->]; simpl in Hin; intuition discriminate |].
      destruct (wrapper data); destruct HJ as [Ha Hb]; [rewrite Hb in Hin | rewrite Ha in Hin];
        simpl in Hin; intuition discriminate. }
    assert (Hsf : structured_first rest = true).
    { destruct (result_list data); [destruct HJ as [_ ->]; reflexivity |].
      destruct (wrapper data); destruct HJ as [Ha Hb]; [rewrite Hb | rewrite Ha]; reflexivity. }
    clear HJ.
    destruct res as [a | e]; [| destruct (exn_class_eqb (exn_cls e) JSONDecodeError) eqn:Ec];
      simpl.
    + repeat split.
      * eexists; reflexivity.
      * exact Hsf.
      * intros d0 H0 H1. injection H0 as <-. rewrite (Hsel data); auto.
      * intros d0 v H0 H1 H2. injection H0 as <-. rewrite (Hsel v); auto.
      * destruct H as [H | [H | H]]; try discriminate. destruct (Hnh' _ H).
      * destruct H as [H | [H | H]]; try discriminate. destruct (Hnh' _ H).
      * intros d H0 H1 H2. injection H0 as ->.
        destruct (Hnone H1 H2) as [e [He _]]. discriminate.
      * intros e H0. discriminate.
    + repeat split.
      * eexists; reflexivity.
      * destruct Hshape as [-> | [v ->]]; simpl; exact Hns.
      * intros d0 H0 H1. injection H0 as <-. rewrite (Hsel data); auto.
      * intros d0 v H0 H1 H2. injection H0 as <-. rewrite (Hsel v); auto.
      * destruct H as [H | [H | H]]; try discriminate.
        apply in_app_or in H. destruct H as [H | H]; [destruct (Hnh' _ H) |].
        destruct H as [H | [H | H]]; try discriminate; [congruence | destruct (Hnh _ H)].
      * destruct (Hfall e eq_refl Ec) as [H1 | (d0 & arg & e' & H1 & H2 & H3 & H4)].
        -- right; left. exact H1.
        -- right; right. exists d0, arg, e'.
           split; [exact H1 |].
           split; [right; right; apply in_or_app; left; exact H2 |].
           split; assumption.
      * intros d H0 H1 H2. right; right. apply in_or_app. right. simpl. auto.
      * intros e1 H0. discriminate.
    + repeat split.
      * eexists; reflexivity.
      * exact Hsf.
      * intros d0 H0 H1. injection H0 as <-. rewrite (Hsel data); auto.
      * intros d0 v H0 H1 H2. injection H0 as <-. rewrite (Hsel v); auto.
      * destruct H as [H | [H | H]]; try discriminate. destruct (Hnh' _ H).
      * destruct H as [H | [H | H]]; try discriminate. destruct (Hnh' _ H).
      * intros d H0 H1 H2. injection H0 as ->.
        destruct (Hnone H1 H2) as [e' [He Hd]]. injection He as <-.
        rewrite (Hd d eq_refl) in Ec. discriminate.
      * intros e1 H0. discriminate.
  - destruct HJ as [-> ->].
    destruct (exn_class_eqb (exn_cls e0) JSONDecodeError) eqn:Ec; simpl.
    + repeat split; try (intros; discriminate).
      * eexists; reflexivity.
      * exact Hns.
      * destruct H as [H | [H | [H | H]]]; try discriminate;
          [congruence | destruct (Hnh _ H)].
      * left. exists e0. split; [reflexivity | apply exn_class_eqb_eq; exact Ec].
      * intros e H0 H1. auto.
    + repeat split; try (intros; discriminate).
      * eexists; reflexivity.
      * destruct H as [H | []]; discriminate.
      * destruct H as [H | []]; discriminate.
      * intros e H0 H1. injection H0 as <-. rewrite H1 in Ec. discriminate.
Qed.
End ParseProperties.

Section Outcome.
Context {A B : Type}.

Lemma outcome_bind (m : M unit A) (f : A -> M unit B) :
  outcome (bind m f) =
  match outcome m with
  | Ok a => outcome (f a)
  | Raise e => Raise e
  end.
Proof.
  unfold outcome, run, bind.
  destruct (m tt) as [[[a | e] []] t]; simpl; [| reflexivity].
  destruct (f a tt) as [[r []] t2]; reflexivity.
Qed.

Lemma outcome_try (m : M unit A) (c : exn -> bool) (h : exn -> M unit A) :
  outcome (try_except m c h) =
  match outcome m with
  | Ok a => Ok a
  | Raise e => if c e then outcome (h e) else Raise e
  end.
Proof.
  unfold outcome, run, try_except.
  destruct (m tt) as [[[a | e] []] t]; simpl; [reflexivity |].
  destruct (c e); [| reflexivity].
  destruct (h e tt) as [[r []] t2]; reflexivity.
Qed.

Lemma outcome_lift (r : result A) : outcome (lift r) = r.
Proof. reflexivity. Qed.

Lemma outcome_ret (a : A) : outcome (ret a) = Ok a.
Proof. reflexivity. Qed.

Lemma outcome_raise (e : exn) : outcome (@raise unit A e) = Raise e.
Proof. reflexivity. Qed.

End Outcome.

Lemma outcome_log (lvl : level) (msg : list lpiece) : outcome (log lvl msg) = Ok tt.
Proof. reflexivity. Qed.

Section RequestProperties.
Context {Image Array : Type} (W : World Image Array).

Lemma flip_total (headers : dict) (image : Image) (settings : dict) :
  exists image', outcome (flip W headers image settings) = Ok (headers, image').
Proof.
  unfold outcome, run, flip, invoke, try_except, bind.
  destruct (flip_try W settings image) as [[[[] | e] i1] t1]; simpl;
    eexists; reflexivity.
Qed.

Lemma get_map_body_located server client_id secret_key device_id
      colors settings urls links map_link :
  map_located W server client_id secret_key device_id urls links map_link ->
  outcome (get_map_body W server client_id secret_key device_id colors settings urls) =
  match outcome (download W map_link) with
  | Raise e => Raise e
  | Ok response =>
      match outcome (parse_map W response) with
      | Raise e => Raise e
      | Ok parsed =>
          match outcome (render_layout W (snd parsed) (fst parsed) colors) with
          | Raise e => Raise e
          | Ok image =>
              match outcome (path_stage W links (fst parsed) colors settings image) with
              | Ok image' => outcome (flip W (fst parsed) image' settings)
              | Raise e => Raise e
              end
          end
      end
  end.
Proof.
  intros (urls' & items & H1 & H2 & H3 & H4 & H5).
  unfold get_map_body.
  rewrite outcome_bind, H1.
  rewrite outcome_bind, outcome_lift, H2.
  rewrite outcome_bind, outcome_lift, H3.
  rewrite outcome_bind, outcome_lift, H4.
  rewrite outcome_bind, H5. simpl negb. cbv iota.
  rewrite outcome_ret.
  rewrite outcome_bind.
  destruct (outcome (download W map_link)) as [response | e]; [| reflexivity].
  rewrite outcome_bind, outcome_log.
  rewrite outcome_bind.
  destruct (outcome (parse_map W response)) as [parsed | e]; [| reflexivity].
  cbv zeta.
  rewrite outcome_bind.
  destruct (outcome (render_layout W (snd parsed) (fst parsed) colors)) as [image | e];
    [| reflexivity].
  rewrite outcome_bind. reflexivity.
Qed.

Lemma get_map_outcome server client_id secret_key device_id colors settings urls :
  outcome (get_map W server client_id secret_key device_id colors settings urls) =
  match outcome (get_map_body W server client_id secret_key device_id
                              (or_empty colors) (or_empty settings) (or_empty urls)) with
  | Ok a => Ok a
  | Raise e => Raise (processing_failed e)
  end.
Proof.
  unfold get_map. rewrite outcome_try.
  destruct (outcome (get_map_body W _ _ _ _ _ _ _)) as [a | e]; [reflexivity |].
  unfold except_Exception. rewrite outcome_bind, outcome_log, outcome_raise.
  reflexivity.
Qed.

Lemma parse_map_binary_outcome (r : response) :
  let data := hex (content r) in
  outcome (parse_map_binary W r) =
  match decode_header W (slice0 48 data) with
  | Raise e => Raise (parsing_failed e)
  | Ok header =>
      match lookup "version" header with
      | None => Raise (parsing_failed (Exn KeyError [StrOf (VStr "version")] None))
      | Some version =>
          if py_eq version (VList [VInt 0]) then
            match decode_v0 W data header with
            | Ok r => Ok (snd r, fst r)
            | Raise e => Raise (parsing_failed e)
            end
          else if py_eq version (VList [VInt 1]) then
            match decode_v1 W data header with
            | Ok r => Ok (snd r, fst r)
            | Raise e => Raise (parsing_failed e)
            end
          else Raise (parsing_failed (unsupported_version version))
      end
  end.
Proof.
  unfold parse_map_binary, dict_getitem, outcome. unfold_m. simpl.
  destruct (decode_header W _) as [header | e]; simpl; [| reflexivity].
  destruct (lookup "version" header) as [version |]; simpl; [| reflexivity].
  destruct (py_eq version (VList [VInt 0])); simpl.
  { destruct (decode_v0 W _ header) as [[cells header'] | e]; reflexivity. }
  destruct (py_eq version (VList [VInt 1])); simpl.
  { destruct (decode_v1 W _ header) as [[cells header'] | e]; reflexivity. }
  reflexivity.
Qed.


Lemma parse_map_not_json (r : response) (e0 : exn) :
  json r = Raise e0 -> exn_cls e0 = JSONDecodeError ->
  outcome (parse_map W r) = outcome (parse_map_binary W r).
Proof.
  intros H1 H2. unfold parse_map. rewrite outcome_try.
  assert (H : outcome (parse_map_json W r) = Raise e0).
  { unfold parse_map_json. rewrite outcome_bind. unfold outcome at 1, run, ext.
    simpl. rewrite H1. reflexivity. }
  rewrite H. unfold except_JSONDecodeError. rewrite H2. reflexivity.
Qed.

(** C2 (as amended).  For a binary payload, version [[0]] selects the Legacy
    decoder and version [[1]] the Rich decoder; any other version makes
    [parse_map] fail with a ValueError "Failed to parse map data in any
    supported format" whose cause is the NotSupportedError naming the
    version, and [get_map] fails in turn: no image is returned. *)
Theorem unsupported_version_is_fatal (r : response) (header : dict) (version : value) :
  let data := hex (content r) in
  decode_header W (slice0 48 data) = Ok header ->
  lookup "version" header = Some version ->
  (py_eq version (VList [VInt 0]) = true ->
   outcome (parse_map_binary W r) =
   match decode_v0 W data header with
   | Ok r => Ok (snd r, fst r)
   | Raise e => Raise (parsing_failed e)
   end) /\
  (py_eq version (VList [VInt 0]) = false ->
   py_eq version (VList [VInt 1]) = true ->
   outcome (parse_map_binary W r) =
   match decode_v1 W data header with
   | Ok r => Ok (snd r, fst r)
   | Raise e => Raise (parsing_failed e)
   end) /\
  (py_eq version (VList [VInt 0]) = false ->
   py_eq version (VList [VInt 1]) = false ->
   outcome (parse_map_binary W r) = Raise (parsing_failed (unsupported_version version)) /\
   (forall e0,
       json r = Raise e0 -> exn_cls e0 = JSONDecodeError ->
       outcome (parse_map W r) = Raise (parsing_failed (unsupported_version version)) /\
       forall server client_id secret_key device_id colors settings urls links,
         map_fetched W server client_id secret_key device_id (or_empty urls) links r ->
         outcome (get_map W server client_id secret_key device_id colors settings urls) =
         Raise (processing_failed (parsing_failed (unsupported_version version))))).
Proof.
  intros data Hh Hv.
  pose proof (parse_map_binary_outcome r) as HB. cbv zeta in HB.
  fold data in HB. rewrite Hh, Hv in HB.
  repeat split.
  - intros H0. rewrite H0 in HB. exact HB.
  - intros H0 H1. rewrite H0, H1 in HB. exact HB.
  - rewrite H, H0 in HB. exact HB.
  - rewrite parse_map_not_json with (1 := H1) (2 := H2).
    rewrite H, H0 in HB. exact HB.
  - intros server client_id secret_key device_id colors settings urls links
           (map_link & HL & HD).
    rewrite get_map_outcome.
    rewrite get_map_body_located with (1 := HL), HD.
    rewrite parse_map_not_json with (1 := H1) (2 := H2).
    rewrite H, H0 in HB. rewrite HB. reflexivity.
Qed.

Lemma get_map_body_rendered server client_id secret_key device_id
      colors settings urls links header image :
  map_rendered W server client_id secret_key device_id colors urls links header image ->
  outcome (get_map_body W server client_id secret_key device_id colors settings urls) =
  match outcome (path_stage W links header colors settings image) with
  | Ok image' => outcome (flip W header image' settings)
  | Raise e => Raise e
  end.
Proof.
  intros (response & cells & (map_link & HL & HD) & H7 & H8).
  rewrite get_map_body_located with (1 := HL), HD, H7. simpl.
  rewrite H8. reflexivity.
Qed.

(** C6 (as amended).  A failure inside the transform step never leaves [flip]:
    it is logged, and [flip] returns the image as it was bound when the
    failing operation was called -- the untransformed image when that is the
    first operation applied, the image with the earlier operations applied
    otherwise. *)
Theorem flip_contains_failure (headers : dict) (image : Image) (settings : dict) :
  let angle := dict_get settings "rotate" (VInt 0) in
  let fv := truthy (dict_get settings "flip_vertical" (VBool false)) in
  let fh := truthy (dict_get settings "flip_horizontal" (VBool false)) in
  let rot := existsb (py_eq angle) rotations in
  let failed e := Log ERROR [LLit "Image transformation failed: "; LExn e] in
  exists (image' : Image) (tr : trace),
    run (flip W headers image settings) = (Ok (headers, image'), tr) /\
    match (if rot then rotate W image angle else Ok image) with
    | Raise e => image' = image /\ In (failed e) tr
    | Ok i1 =>
        match (if fv then transpose W i1 FLIP_LEFT_RIGHT else Ok i1) with
        | Raise e => image' = i1 /\ In (failed e) tr
        | Ok i2 =>
            match (if fh then transpose W i2 FLIP_TOP_BOTTOM else Ok i2) with
            | Raise e => image' = i2 /\ In (failed e) tr
            | Ok i3 => image' = i3
            end
        end
    end /\
    (forall server client_id secret_key device_id colors settings0 urls links rendered,
        settings = or_empty settings0 ->
        map_rendered W server client_id secret_key device_id
                     (or_empty colors) (or_empty urls) links headers rendered ->
        outcome (path_stage W links headers (or_empty colors) settings rendered)
          = Ok image ->
        outcome (get_map W server client_id secret_key device_id colors settings0 urls)
          = Ok (headers, image')).
Proof.
  intros angle fv fh rot failed.
  destruct (flip_failure_cases W headers image settings) as (image' & tr & Hrun & Hcases).
  exists image', tr. split; [exact Hrun |]. split; [exact Hcases |].
  intros server client_id secret_key device_id colors settings0 urls links rendered
         Hs Hr Hp.
  rewrite get_map_outcome, <- Hs.
  rewrite get_map_body_rendered with (1 := Hr). rewrite Hp.
  unfold outcome. rewrite Hrun. reflexivity.
Qed.

End RequestProperties.

Section PathProperties.
Context {Image Array : Type} (W : World Image Array).

Lemma path_body_eq (path_link : value) (header colors : dict) (image : Image) :
  path_body W path_link header colors image =
  let '(rd, _, td) := download W path_link tt in
  match rd with
  | Raise e => (Raise e, image, td)
  | Ok resp =>
      match compute_scale (fst (size W image)) with
      | Raise e => (Raise e, image, td)
      | Ok scale =>
          let new_size := (fst (size W image) * scale, snd (size W image) * scale) in
          match resize W image new_size BOX with
          | Raise e => (Raise e, image, (td ++ [Call (c_resize new_size BOX)])%list)
          | Ok big =>
              let '(rp, _, tp) := parse_path W resp scale header tt in
              let t1 := (td ++ Call (c_resize new_size BOX) :: tp)%list in
              match rp with
              | Raise e => (Raise e, big, t1)
              | Ok path =>
                  if truthy (VList path) then
                    match Draw W big with
                    | Some e => (Raise e, big, (t1 ++ [Call c_Draw])%list)
                    | None =>
                        match iter (dict_get colors "path_color" default_path_color) with
                        | Raise e => (Raise e, big, (t1 ++ [Call c_Draw])%list)
                        | Ok fill =>
                            let '(lined, err) := line W big path fill 2 in
                            match err with
                            | Some e =>
                                (Raise e, lined,
                                 (t1 ++ [Call c_Draw; Call (c_line path fill 2)])%list)
                            | None =>
                                let '(r, img, t) := draw_dock W header scale lined in
                                (r, img,
                                 (t1 ++ Call c_Draw :: Call (c_line path fill 2) :: t)%list)
                            end
                        end
                    end
                  else (Ok tt, big, t1)
              end
          end
      end
  end.
Proof.
  unfold path_body. unfold_m.
  destruct (download W path_link tt) as [[[resp | e] []] td]; simpl; [| reflexivity].
  destruct (compute_scale (fst (size W image))) as [scale | e]; simpl;
    [| rewrite app_nil_r; reflexivity].
  destruct (resize W image _ BOX) as [big | e]; simpl; [| reflexivity].
  destruct (parse_path W resp scale header tt) as [[[path | e] []] tp]; simpl;
    [| reflexivity].
  destruct path as [| p0 path]; simpl; [rewrite app_nil_r; reflexivity |].
  destruct (Draw W big) as [e |]; simpl;
    [rewrite <- app_assoc; reflexivity |].
  destruct (iter (dict_get colors "path_color" default_path_color)) as [fill | e]; simpl;
    [| rewrite <- app_assoc; reflexivity].
  destruct (line W big (p0 :: path) fill 2) as [lined [e |]]; simpl;
    [rewrite <- app_assoc; reflexivity |].
  destruct (draw_dock W header scale lined) as [[r img] t]; simpl.
  rewrite <- app_assoc. reflexivity.
Qed.


Lemma download_no_drawing (url : value) :
  forallb no_drawing (snd (download W url tt)) = true.
Proof.
  unfold download. unfold_m.
  destruct (requests_get W url) as [resp | e]; simpl.
  - destruct (raise_for_status resp) as [e |]; simpl; [| reflexivity].
    destruct (except_RequestException e); reflexivity.
  - destruct (except_RequestException e); reflexivity.
Qed.

Lemma parse_path_no_drawing (resp : response) (scale : Z) (header : dict) :
  forallb no_drawing (snd (parse_path W resp scale header tt)) = true.
Proof.
  unfold parse_path. unfold_m.
  destruct (json resp) as [data | e]; simpl.
  - destruct (decode_path_custom0 W data header) as [pd | e]; simpl.
    + destruct (iter pd) as [items | e]; simpl; [| reflexivity].
      destruct (scale_path items scale []); reflexivity.
    + destruct (except_JSONDecodeError e); simpl; [| reflexivity].
      destruct (decode_path_v1 W _) as [pd | e']; simpl; [| reflexivity].
      destruct (iter pd) as [items | e'']; simpl; [| reflexivity].
      destruct (scale_path items scale []); reflexivity.
  - destruct (except_JSONDecodeError e); simpl; [| reflexivity].
    destruct (decode_path_v1 W _) as [pd | e']; simpl; [| reflexivity].
    destruct (iter pd) as [items | e'']; simpl; [| reflexivity].
    destruct (scale_path items scale []); reflexivity.
Qed.

Lemma path_try_eq (path_link : value) (header colors : dict) (image : Image) :
  path_try W path_link header colors image =
  let '(r, i, t) := path_body W path_link header colors image in
  match r with
  | Ok _ => (Ok tt, i, t)
  | Raise e =>
      (Ok tt, i, (t ++ [Log ERROR [LLit "Path rendering failed: "; LExn e]])%list)
  end.
Proof.
  unfold path_try, try_except, except_Exception, log.
  destruct (path_body W path_link header colors image) as [[[[] | e] i] t]; reflexivity.
Qed.

Lemma path_stage_outcome (links path_link : value) (header colors settings : dict)
      (image : Image) :
  truthy (dict_get settings "path_enabled" (VBool false)) = true ->
  path_located links path_link ->
  outcome (path_stage W links header colors settings image) =
  Ok (local_after (path_try W path_link header colors) image).
Proof.
  intros He (rest & items & H1 & H2 & H3 & H4).
  unfold path_stage. rewrite He.
  rewrite outcome_bind, outcome_lift, H1.
  rewrite outcome_bind, outcome_lift, H2.
  rewrite outcome_bind, outcome_lift, H3.
  rewrite H4.
  unfold outcome, run, exec_local, local_after.
  rewrite path_try_eq.
  destruct (path_body W path_link header colors image) as [[[[] | e] i] t]; reflexivity.
Qed.

Lemma local_after_path_try (path_link : value) (header colors : dict) (image : Image) :
  local_after (path_try W path_link header colors) image =
  local_after (path_body W path_link header colors) image.
Proof.
  unfold local_after. rewrite path_try_eq.
  destruct (path_body W path_link header colors image) as [[[[] | e] i] t]; reflexivity.
Qed.

(** A request whose map is rendered and whose path blob is located returns
    the transform of the image the path branch leaves. *)
Lemma get_map_with_path server client_id secret_key device_id colors settings urls
      links path_link header image :
  map_rendered W server client_id secret_key device_id (or_empty colors)
               (or_empty urls) links header image ->
  truthy (dict_get (or_empty settings) "path_enabled" (VBool false)) = true ->
  path_located links path_link ->
  outcome (get_map W server client_id secret_key device_id colors settings urls) =
  outcome (flip W header
                (local_after (path_body W path_link header (or_empty colors)) image)
                (or_empty settings)).
Proof.
  intros Hr He Hl.
  rewrite get_map_outcome.
  rewrite get_map_body_rendered with (1 := Hr).
  rewrite path_stage_outcome with (1 := He) (2 := Hl).
  rewrite local_after_path_try.
  destruct (flip_total W header
              (local_after (path_body W path_link header (or_empty colors)) image)
              (or_empty settings)) as [out Hout].
  rewrite Hout. reflexivity.
Qed.

(** The path branch from the point where the upscaled image is bound. *)
Lemma path_body_upscaled (path_link : value) (header colors : dict) (image : Image)
      (resp : response) (scale : Z) (big : Image) :
  outcome (download W path_link) = Ok resp ->
  compute_scale (fst (size W image)) = Ok scale ->
  resize W image (fst (size W image) * scale, snd (size W image) * scale) BOX = Ok big ->
  path_body W path_link header colors image =
  let new_size := (fst (size W image) * scale, snd (size W image) * scale) in
  let '(rp, _, tp) := parse_path W resp scale header tt in
  let t1 := (snd (download W path_link tt) ++ Call (c_resize new_size BOX) :: tp)%list in
  match rp with
  | Raise e => (Raise e, big, t1)
  | Ok path =>
      if truthy (VList path) then
        match Draw W big with
        | Some e => (Raise e, big, (t1 ++ [Call c_Draw])%list)
        | None =>
            match iter (dict_get colors "path_color" default_path_color) with
            | Raise e => (Raise e, big, (t1 ++ [Call c_Draw])%list)
            | Ok fill =>
                let '(lined, err) := line W big path fill 2 in
                match err with
                | Some e =>
                    (Raise e, lined,
                     (t1 ++ [Call c_Draw; Call (c_line path fill 2)])%list)
                | None =>
                    let '(r, img, t) := draw_dock W header scale lined in
                    (r, img, (t1 ++ Call c_Draw :: Call (c_line path fill 2) :: t)%list)
                end
            end
        end
      else (Ok tt, big, t1)
  end.
Proof.
  intros Hd Hs Hb. rewrite path_body_eq.
  unfold outcome, run in Hd.
  destruct (download W path_link tt) as [[rd []] td]. simpl in Hd. subst rd.
  rewrite Hs. cbv zeta. rewrite Hb. reflexivity.
Qed.


Lemma forallb_no_drawing_app (t u : trace) :
  forallb no_drawing (t ++ u) = forallb no_drawing t && forallb no_drawing u.
Proof. apply forallb_app. Qed.

(** C3 (as amended).  Once the path blob is located, a failure of a step of
    the path branch (path fetch, path decode, or path and dock compositing)
    never leaves the branch: it is caught and logged, the rest of the branch
    is skipped, and the request still succeeds.  When the path fetch, the
    scale computation or the upscaling fails, the image handed to the
    transform step is the unscaled, path-free map image; when path decoding
    fails, it is the upscaled map image, with nothing drawn on it; when
    compositing fails, it is the upscaled image as the drawing call that
    failed left it; in every case it is the image as the local variable held
    it when the step failed. *)
Theorem path_failure_is_contained (path_link : value) (header colors : dict)
        (image : Image) :
  let failed e := Log ERROR [LLit "Path rendering failed: "; LExn e] in
  let final := local_after (path_try W path_link header colors) image in
  let tr := snd (path_try W path_link header colors image) in
  let w := fst (size W image) in
  let h := snd (size W image) in
  fst (fst (path_try W path_link header colors image)) = Ok tt /\
  (forall e i t,
      path_body W path_link header colors image = (Raise e, i, t) ->
      final = i /\ tr = (t ++ [failed e])%list) /\
  (forall e,
      outcome (download W path_link) = Raise e ->
      final = image /\ In (failed e) tr) /\
  (forall resp,
      outcome (download W path_link) = Ok resp ->
      (forall e, compute_scale w = Raise e -> final = image /\ In (failed e) tr) /\
      (forall scale,
          compute_scale w = Ok scale ->
          (forall e,
              resize W image (w * scale, h * scale) BOX = Raise e ->
              final = image /\ In (failed e) tr) /\
          (forall big,
              resize W image (w * scale, h * scale) BOX = Ok big ->
              (forall e,
                  outcome (parse_path W resp scale header) = Raise e ->
                  final = big /\ In (failed e) tr /\ forallb no_drawing tr = true) /\
              (outcome (parse_path W resp scale header) = Ok [] ->
               final = big /\ forallb no_drawing tr = true)))) /\
  (forall server client_id secret_key device_id colors0 settings urls links,
      colors = or_empty colors0 ->
      map_rendered W server client_id secret_key device_id colors (or_empty urls)
                   links header image ->
      truthy (dict_get (or_empty settings) "path_enabled" (VBool false)) = true ->
      path_located links path_link ->
      exists out,
        outcome (get_map W server client_id secret_key device_id colors0 settings urls)
          = Ok (header, out) /\
        outcome (flip W header final (or_empty settings)) = Ok (header, out)) /\
  (forall resp scale e0 e,
      json resp = Raise e0 -> exn_cls e0 = JSONDecodeError ->
      decode_path_v1 W (hex (content resp)) = Raise e ->
      run (parse_path W resp scale header) =
      (Ok [], [Call c_json; Call (c_decode_path_v1 (hex (content resp)));
               Log ERROR [LLit "Path parsing failed: "; LExn e]])) /\
  (forall resp scale big path,
      outcome (download W path_link) = Ok resp ->
      compute_scale w = Ok scale ->
      resize W image (w * scale, h * scale) BOX = Ok big ->
      outcome (parse_path W resp scale header) = Ok path ->
      truthy (VList path) = true ->
      (forall e, Draw W big = Some e -> final = big /\ In (failed e) tr) /\
      (forall e,
          Draw W big = None ->
          iter (dict_get colors "path_color" default_path_color) = Raise e ->
          final = big /\ In (failed e) tr) /\
      (forall fill,
          Draw W big = None ->
          iter (dict_get colors "path_color" default_path_color) = Ok fill ->
          (forall lined e,
              line W big path fill 2 = (lined, Some e) ->
              final = lined /\ In (failed e) tr) /\
          (forall lined e,
              line W big path fill 2 = (lined, None) ->
              fst (fst (draw_dock W header scale lined)) = Raise e ->
              final = local_after (draw_dock W header scale) lined /\
              In (failed e) tr))).
Proof.
  intros failed final tr w h. subst final tr. unfold local_after.
  rewrite path_try_eq.
  split; [| split; [| split; [| split; [| split; [| split]]]]].
  7: { intros resp scale big path Hd Hs Hb Hp Ht.
       rewrite (path_body_upscaled path_link header colors image resp scale big Hd Hs Hb).
       cbv zeta. unfold outcome, run in Hp.
       destruct (parse_path W resp scale header tt) as [[rp []] tp].
       simpl in Hp. subst rp. rewrite Ht.
       split; [| split].
       - intros e He. rewrite He. simpl. split; [reflexivity | in_last].
       - intros e HD He. rewrite HD, He. simpl. split; [reflexivity | in_last].
       - intros fill HD Hf. rewrite HD, Hf. split.
         + intros lined e Hl. rewrite Hl. simpl. split; [reflexivity | in_last].
         + intros lined e Hl Hk. rewrite Hl.
           destruct (draw_dock W header scale lined) as [[r img] t].
           simpl in Hk. subst r. simpl. split; [reflexivity |].
           apply in_or_app. right. left. reflexivity. }
  6: { intros resp scale e0 e H1 H2 H3.
       unfold parse_path, except_JSONDecodeError. unfold_m.
       rewrite H1. cbn [exn_cls]. rewrite H2. simpl. rewrite H3. reflexivity. }
  - destruct (path_body W path_link header colors image) as [[[[] | e] i] t]; reflexivity.
  - intros e i t H. rewrite H. simpl. auto.
  - intros e H. rewrite path_body_eq.
    unfold outcome, run in H.
    destruct (download W path_link tt) as [[rd []] td]. simpl in H. subst rd.
    simpl. split; [reflexivity | apply in_or_app; right; left; reflexivity].
  - intros resp H. rewrite path_body_eq.
    pose proof (download_no_drawing path_link) as Hd.
    unfold outcome, run in H.
    destruct (download W path_link tt) as [[rd []] td]. simpl in H, Hd. subst rd.
    fold w h. split.
    + intros e He. rewrite He. simpl.
      split; [reflexivity | apply in_or_app; right; left; reflexivity].
    + intros scale Hs. rewrite Hs. cbv zeta. split.
      * intros e He. rewrite He. simpl.
        split; [reflexivity | apply in_or_app; right; left; reflexivity].
      * intros big Hb. rewrite Hb.
        pose proof (parse_path_no_drawing resp scale header) as Hp.
        unfold outcome, run.
        destruct (parse_path W resp scale header tt) as [[rp []] tp].
        simpl in Hp |- *. split.
        -- intros e He. subst rp. simpl.
           split; [reflexivity |].
           split; [apply in_or_app; right; left; reflexivity |].
           rewrite !forallb_no_drawing_app. simpl. rewrite Hd, Hp. reflexivity.
        -- intros He. subst rp. simpl.
           split; [reflexivity |].
           rewrite !forallb_no_drawing_app. simpl. rewrite Hd, Hp. reflexivity.
  - intros server client_id secret_key device_id colors0 settings urls links
           Hc Hr He Hl.
    rewrite get_map_outcome. rewrite <- Hc.
    rewrite get_map_body_rendered with (1 := Hr).
    rewrite path_stage_outcome with (1 := He) (2 := Hl).
    unfold local_after. rewrite path_try_eq.
    destruct (flip_total W header
                (snd (fst (let '(r, i, t) := path_body W path_link header colors image in
                           match r with
                           | Ok _ => (Ok tt, i, t)
                           | Raise e => (Ok tt, i, (t ++ [failed e])%list)
                           end)))
                (or_empty settings)) as [out Hout].
    exists out. unfold failed in Hout. rewrite Hout. split; reflexivity.
Qed.








Lemma compute_scale_floor (w : Z) : 0 < w -> compute_scale w = Ok (1080 / w).
Proof.
  intros H. unfold compute_scale.
  destruct (Z.eqb_spec w 0) as [-> | _]; [lia |].
  rewrite Z.quot_div_nonneg by lia. reflexivity.
Qed.

Lemma scale_coord_spec (coord : list value) (scale : Z) :
  forall acc coords,
    scale_coord coord scale acc = Ok coords ->
    exists vs, coords = (acc ++ vs)%list /\
               Forall2 (fun i v => mul_int i scale = Ok v) coord vs.
Proof.
  induction coord as [| i rest IH]; simpl; intros acc coords H.
  - injection H as <-. exists []. rewrite app_nil_r. auto.
  - destruct (mul_int i scale) as [v |] eqn:Ev; [| discriminate].
    destruct (IH _ _ H) as (vs & -> & HF).
    exists (v :: vs). rewrite <- app_assoc. auto.
Qed.

Lemma scale_path_spec (path_data : list value) (scale : Z) :
  forall acc coords,
    scale_path path_data scale acc = Ok coords ->
    exists elems vs,
      Forall2 (fun c es => iter c = Ok es) path_data elems /\
      coords = (acc ++ vs)%list /\
      Forall2 (fun i v => mul_int i scale = Ok v) (List.concat elems) vs.
Proof.
  induction path_data as [| c rest IH]; simpl; intros acc coords H.
  - injection H as <-. exists [], []. rewrite app_nil_r. auto.
  - destruct (iter c) as [es |] eqn:Ei; [| discriminate].
    destruct (scale_coord es scale acc) as [acc' |] eqn:Es; [| discriminate].
    destruct (scale_coord_spec _ _ _ _ Es) as (vs1 & -> & HF1).
    destruct (IH _ _ H) as (elems & vs2 & HE & -> & HF2).
    exists (es :: elems), (vs1 ++ vs2)%list. rewrite <- app_assoc.
    repeat split; auto. simpl. apply Forall2_app; assumption.
Qed.

Lemma scale_coord_ints (ns : list Z) (scale : Z) (acc : list value) :
  scale_coord (map VInt ns) scale acc =
  Ok (acc ++ map (fun n => VInt (n * scale)) ns)%list.
Proof.
  revert acc. induction ns as [| n ns IH]; simpl; intros acc.
  - rewrite app_nil_r. reflexivity.
  - rewrite IH, <- app_assoc. reflexivity.
Qed.

Lemma scale_path_ints (pts : list (list Z)) (scale : Z) (acc : list value) :
  scale_path (map (fun p => VList (map VInt p)) pts) scale acc =
  Ok (acc ++ map (fun n => VInt (n * scale)) (List.concat pts))%list.
Proof.
  revert acc. induction pts as [| p pts IH]; simpl; intros acc.
  - rewrite app_nil_r. reflexivity.
  - rewrite scale_coord_ints, IH, map_app, <- app_assoc. reflexivity.
Qed.

Lemma parse_path_spec (resp : response) (scale : Z) (header : dict)
      (coords : list value) :
  outcome (parse_path W resp scale header) = Ok coords ->
  coords = [] \/
  exists path_data items elems,
    ((exists data, json resp = Ok data /\
                   decode_path_custom0 W data header = Ok path_data) \/
     decode_path_v1 W (hex (content resp)) = Ok path_data) /\
    iter path_data = Ok items /\
    Forall2 (fun c es => iter c = Ok es) items elems /\
    Forall2 (fun i v => mul_int i scale = Ok v) (List.concat elems) coords.
Proof.
  assert (Hloop : forall path_data,
             match iter path_data with
             | Ok items => scale_path items scale []
             | Raise e => Raise e
             end = Ok coords ->
             exists items elems,
               iter path_data = Ok items /\
               Forall2 (fun c es => iter c = Ok es) items elems /\
               Forall2 (fun i v => mul_int i scale = Ok v) (List.concat elems) coords).
  { intros pd H. destruct (iter pd) as [items |]; [| discriminate].
    destruct (scale_path_spec _ _ _ _ H) as (elems & vs & HE & -> & HF).
    exists items, elems. auto. }
  unfold parse_path, outcome. unfold_m.
  destruct (json resp) as [data | e] eqn:Ej; simpl.
  - destruct (decode_path_custom0 W data header) as [pd | e] eqn:Ed; simpl.
    + intros H. right.
      destruct (iter pd) as [items |] eqn:Ei; simpl in H; [| discriminate].
      destruct (Hloop pd) as (items' & elems & H1 & H2 & H3); [rewrite Ei; exact H |].
      exists pd, items', elems. split; [left; exists data; auto | auto].
    + destruct (except_JSONDecodeError e); simpl; [| discriminate].
      destruct (decode_path_v1 W _) as [pd | e'] eqn:Ev; simpl.
      * intros H. right.
        destruct (iter pd) as [items |] eqn:Ei; simpl in H; [| discriminate].
        destruct (Hloop pd) as (items' & elems & H1 & H2 & H3); [rewrite Ei; exact H |].
        exists pd, items', elems. auto.
      * intros [= <-]. left. reflexivity.
  - destruct (except_JSONDecodeError e); simpl; [| discriminate].
    destruct (decode_path_v1 W _) as [pd | e'] eqn:Ev; simpl.
    + intros H. right.
      destruct (iter pd) as [items |] eqn:Ei; simpl in H; [| discriminate].
      destruct (Hloop pd) as (items' & elems & H1 & H2 & H3); [rewrite Ei; exact H |].
      exists pd, items', elems. auto.
    + intros [= <-]. left. reflexivity.
Qed.

(** C8 (as amended).  In the path branch, on an image of positive width, the
    scale is the floor of 1080 divided by the width, and the image is
    resized to (width*scale, height*scale) with the BOX filter.  When that
    resize returns, its result replaces the raster image: it is what the
    branch leaves when the path is empty or cannot be decoded, and it is
    what the line is drawn on, whose points are every decoded coordinate
    multiplied by that scale; the request returns the transform of the image
    the branch leaves.  When the resize fails, the raster image stays as it
    was. *)
Theorem path_scale_is_floor_of_1080 (path_link : value) (header colors : dict)
        (image : Image) :
  let w := fst (size W image) in
  let h := snd (size W image) in
  let scale := 1080 / w in
  let final := local_after (path_body W path_link header colors) image in
  0 < w ->
  compute_scale w = Ok scale /\
  scale * w <= 1080 < (scale + 1) * w /\
  (forall resp,
      outcome (download W path_link) = Ok resp ->
      In (Call (c_resize (w * scale, h * scale) BOX))
         (snd (path_body W path_link header colors image)) /\
      (forall e,
          resize W image (w * scale, h * scale) BOX = Raise e ->
          path_body W path_link header colors image =
          (Raise e, image,
           (snd (download W path_link tt)
              ++ [Call (c_resize (w * scale, h * scale) BOX)])%list) /\
          forallb no_drawing (snd (path_body W path_link header colors image)) = true) /\
      forall big,
        resize W image (w * scale, h * scale) BOX = Ok big ->
        (forall e,
            outcome (parse_path W resp scale header) = Raise e -> final = big) /\
        forall path,
          outcome (parse_path W resp scale header) = Ok path ->
          (truthy (VList path) = false -> final = big) /\
          (truthy (VList path) = true ->
           (exists path_data items elems,
               ((exists data, json resp = Ok data /\
                              decode_path_custom0 W data header = Ok path_data) \/
                decode_path_v1 W (hex (content resp)) = Ok path_data) /\
               iter path_data = Ok items /\
               Forall2 (fun c es => iter c = Ok es) items elems /\
               Forall2 (fun i v => mul_int i scale = Ok v) (List.concat elems) path) /\
           (forall e, Draw W big = Some e -> final = big) /\
           forall fill,
             Draw W big = None ->
             iter (dict_get colors "path_color" default_path_color) = Ok fill ->
             In (Call (c_line path fill 2))
                (snd (path_body W path_link header colors image)) /\
             final =
             match line W big path fill 2 with
             | (lined, Some _) => lined
             | (lined, None) => local_after (draw_dock W header scale) lined
             end)) /\
  (forall server client_id secret_key device_id colors0 settings urls links,
      colors = or_empty colors0 ->
      map_rendered W server client_id secret_key device_id colors (or_empty urls)
                   links header image ->
      truthy (dict_get (or_empty settings) "path_enabled" (VBool false)) = true ->
      path_located links path_link ->
      outcome (get_map W server client_id secret_key device_id colors0 settings urls)
      = outcome (flip W header final (or_empty settings))) /\
  (forall (pts : list (list Z)) (k : Z),
      scale_path (map (fun p => VList (map VInt p)) pts) k [] =
      Ok (map (fun n => VInt (n * k)) (List.concat pts))).
Proof.
  intros w h scale final Hw.
  pose proof (compute_scale_floor w Hw) as Hs. fold scale in Hs.
  split; [exact Hs |].
  split.
  { subst scale. pose proof (Z.mul_div_le 1080 w Hw).
    pose proof (Z.mul_succ_div_gt 1080 w Hw). lia. }
  split; [| split; [| intros pts k; apply scale_path_ints]].
  2: { intros server client_id secret_key device_id colors0 settings urls links
              Hc Hr He Hl.
       subst colors final.
       apply get_map_with_path with (1 := Hr) (2 := He) (3 := Hl). }
  intros resp Hd.
  assert (Hresize : forall e,
             resize W image (w * scale, h * scale) BOX = Raise e ->
             path_body W path_link header colors image =
             (Raise e, image,
              (snd (download W path_link tt)
                 ++ [Call (c_resize (w * scale, h * scale) BOX)])%list)).
  { intros e He. rewrite path_body_eq.
    unfold outcome, run in Hd.
    destruct (download W path_link tt) as [[rd []] td]. simpl in Hd. subst rd.
    fold w h. rewrite Hs. cbv zeta. rewrite He. reflexivity. }
  assert (Hbig : forall big,
             resize W image (w * scale, h * scale) BOX = Ok big ->
             path_body W path_link header colors image =
             let '(rp, _, tp) := parse_path W resp scale header tt in
             let t1 := (snd (download W path_link tt)
                          ++ Call (c_resize (w * scale, h * scale) BOX) :: tp)%list in
             match rp with
             | Raise e => (Raise e, big, t1)
             | Ok path =>
                 if truthy (VList path) then
                   match Draw W big with
                   | Some e => (Raise e, big, (t1 ++ [Call c_Draw])%list)
                   | None =>
                       match iter (dict_get colors "path_color" default_path_color) with
                       | Raise e => (Raise e, big, (t1 ++ [Call c_Draw])%list)
                       | Ok fill =>
                           let '(lined, err) := line W big path fill 2 in
                           match err with
                           | Some e =>
                               (Raise e, lined,
                                (t1 ++ [Call c_Draw; Call (c_line path fill 2)])%list)
                           | None =>
                               let '(r, img, t) := draw_dock W header scale lined in
                               (r, img,
                                (t1 ++ Call c_Draw :: Call (c_line path fill 2) :: t)%list)
                           end
                       end
                   end
                 else (Ok tt, big, t1)
             end).
  { intros big Hb.
    exact (path_body_upscaled path_link header colors image resp scale big Hd Hs Hb). }
  split; [| split].
  2: { intros e He. split; [exact (Hresize e He) |].
       rewrite (Hresize e He). cbn [snd].
       rewrite forallb_no_drawing_app, download_no_drawing. reflexivity. }
  - destruct (resize W image (w * scale, h * scale) BOX) as [big | e] eqn:Hr.
    + rewrite (Hbig big eq_refl).
      destruct (parse_path W resp scale header tt) as [[[path | e] []] tp].
      * destruct (truthy (VList path)).
        -- destruct (Draw W big).
           ++ cbn [snd]. rewrite <- app_assoc. apply in_or_app. right. left. reflexivity.
           ++ destruct (iter _) as [fill | e].
              ** destruct (line W big path fill 2) as [lined [e |]].
                 --- cbn [snd]. rewrite <- app_assoc. apply in_or_app. right. left.
                     reflexivity.
                 --- destruct (draw_dock W header scale lined) as [[r img] t].
                     cbn [snd]. rewrite <- app_assoc. apply in_or_app. right. left.
                     reflexivity.
              ** cbn [snd]. rewrite <- app_assoc. apply in_or_app. right. left.
                 reflexivity.
        -- cbn [snd]. apply in_or_app. right. left. reflexivity.
      * cbn [snd]. apply in_or_app. right. left. reflexivity.
    + rewrite (Hresize e eq_refl). cbn [snd]. apply in_or_app. right. left. reflexivity.
  - intros big Hb. specialize (Hbig big Hb).
    subst final. unfold local_after. split.
    + intros e Hp. rewrite Hbig. unfold outcome, run in Hp.
      destruct (parse_path W resp scale header tt) as [[rp []] tp].
      simpl in Hp. subst rp. reflexivity.
    + intros path Hp.
      pose proof (parse_path_spec resp scale header path Hp) as Hspec.
      unfold outcome, run in Hp.
      destruct (parse_path W resp scale header tt) as [[rp []] tp].
      simpl in Hp. subst rp. split.
      * intros Ht. rewrite Hbig, Ht. reflexivity.
      * intros Ht. rewrite Ht in Hbig. split.
        -- destruct Hspec as [-> | H]; [discriminate | exact H].
        -- split.
           ++ intros e HD. rewrite Hbig, HD. reflexivity.
           ++ intros fill HD Hf. rewrite HD, Hf in Hbig. rewrite Hbig.
              destruct (line W big path fill 2) as [lined [e |]].
              ** split; [cbn [snd]; in_last | reflexivity].
              ** destruct (draw_dock W header scale lined) as [[r img] t].
                 split; [| reflexivity].
                 cbn [snd]. apply in_or_app. right. right. left. reflexivity.
Qed.

End PathProperties.

(** *** The link list *)

Lemma first_map_url_entry (items : list value) (u : value) :
  first_map_url items = Ok u ->
  truthy u = true ->
  exists (i : nat) (item : value),
    first_index items = Some i /\
    nth_error items i = Some item /\
    getitem_str item "map_url" = Ok u /\
    (forall (j : nat) (item' : value),
        (j < i)%nat -> nth_error items j = Some item' ->
        contains_str "map_url" item' = Ok false).
Proof.
  induction items as [| item rest IH]; simpl; intros H Ht.
  - injection H as <-. discriminate.
  - destruct (contains_str "map_url" item) as [[|] | e] eqn:Ec; [| | discriminate].
    + exists O, item. repeat split; auto. intros j item' Hj. lia.
    + destruct (IH H Ht) as (i & it & H1 & H2 & H3 & H4).
      exists (S i), it. rewrite H1. repeat split; auto.
      intros [| j] item' Hj Hn; simpl in Hn.
      * injection Hn as <-. exact Ec.
      * apply (H4 j); [lia | exact Hn].
Qed.

(** C9 (as amended).  The map blob URL is read from the first entry of the
    link list that carries ['map_url'].  When that entry is the first entry
    of the list, the path blob URL is read from the first entry after it
    that carries the same key: a later, hence different, entry. *)
Theorem map_and_path_entries (links : list value) :
  (forall u : value,
      first_map_url links = Ok u -> truthy u = true ->
      exists (i : nat) (item : value),
        map_entry links = Some i /\
        nth_error links i = Some item /\
        getitem_str item "map_url" = Ok u /\
        (forall (j : nat) (item' : value),
            (j < i)%nat -> nth_error links j = Some item' ->
            contains_str "map_url" item' = Ok false)) /\
  (forall first : value,
      nth_error links 0 = Some first ->
      contains_str "map_url" first = Ok true ->
      map_entry links = Some O /\
      first_map_url links = getitem_str first "map_url" /\
      forall path_link : value,
        path_located (VList links) path_link ->
        exists (j : nat) (item : value),
          path_entry links = Some j /\
          (0 < j)%nat /\
          nth_error links j = Some item /\
          getitem_str item "map_url" = Ok path_link /\
          (forall (k : nat) (item' : value),
              (0 < k < j)%nat -> nth_error links k = Some item' ->
              contains_str "map_url" item' = Ok false)).
Proof.
  split.
  - intros u H Ht. apply first_map_url_entry; assumption.
  - intros first Hf Hc.
    destruct links as [| x rest]; [discriminate |].
    simpl in Hf. injection Hf as ->.
    unfold map_entry, path_entry. simpl. rewrite Hc.
    repeat split.
    intros path_link (r & items & H1 & H2 & H3 & H4).
    simpl in H1. injection H1 as <-. simpl in H2. injection H2 as <-.
    destruct (first_map_url_entry rest path_link H3 H4) as (i & item & E1 & E2 & E3 & E4).
    exists (S i), item. rewrite E1. repeat split; auto; try lia.
    intros [| k] item' Hk Hn; [lia |].
    simpl in Hn. apply (E4 k); [lia | exact Hn].
Qed.

(** ** Worked requests *)

Section Worked.

Import Sim Scenario MoreScenarios.

Lemma parse_map_structured_first_witness :
  let W := world offline in
  result_list listed_doc = true /\
  nth_error (snd (run (parse_map W listed_response))) 2
    = Some (Call (c_decode_custom0 listed_doc)) /\
  result_list empty_doc = false /\
  wrapper empty_doc = None /\
  In (Call (c_decode_header "7b7d")) (snd (run (parse_map W empty_response))).
Proof.
  intros W.
  split; [reflexivity |]. split.
  - destruct (parse_map_structured_first W listed_response) as (_ & _ & H & _).
    exact (H listed_doc eq_refl eq_refl).
  - split; [reflexivity |]. split; [reflexivity |].
    destruct (parse_map_structured_first W empty_response)
      as (_ & _ & _ & _ & _ & H & _).
    exact (H [] eq_refl eq_refl eq_refl).
Defined.

Lemma located_in_given_urls (k : knobs) :
  map_located (world k) "" "" "" "" urls links (VStr "https://map").
Proof.
  exists urls, [VDict [("map_url", VStr "https://map")];
                VDict [("map_url", VStr "https://path")]].
  repeat split.
Qed.

(** C2 as the specification states it does not hold: for version [[2]] the
    exception [parse_map] raises is a ValueError, not a NotSupportedError. *)
Lemma unsupported_version_raises_ValueError :
  let W := world version_two in
  let r := binary_response map_bytes in
  decode_header W (slice0 48 (hex (content r)))
    = Ok [("version", VList [VInt 2]); ("width", VInt 540); ("height", VInt 1)] /\
  outcome (parse_map W r)
    = Raise (Exn ValueError
                 [Lit "Failed to parse map data in any supported format"]
                 (Some (Exn NotSupportedError
                            [Lit "Map version "; StrOf (VList [VInt 2]);
                             Lit " is not supported."]
                            None))) /\
  ~ (exists msg cause, outcome (parse_map W r) = Raise (Exn NotSupportedError msg cause)).
Proof.
  intros W r. split; [reflexivity |]. split; [reflexivity |].
  intros (msg & cause & H). vm_compute in H. discriminate.
Qed.

Lemma unsupported_version_is_fatal_witness :
  let W := world version_two in
  let r := binary_response map_bytes in
  let version := VList [VInt 2] in
  py_eq version (VList [VInt 0]) = false /\
  py_eq version (VList [VInt 1]) = false /\
  outcome (parse_map_binary W r) = Raise (parsing_failed (unsupported_version version)) /\
  outcome (get_map W "" "" "" "" None None (Some urls))
    = Raise (processing_failed (parsing_failed (unsupported_version version))).
Proof.
  intros W r version.
  destruct (unsupported_version_is_fatal W r
              [("version", version); ("width", VInt 540); ("height", VInt 1)]
              version eq_refl eq_refl) as (_ & _ & H).
  destruct (H eq_refl eq_refl) as (H1 & H2).
  split; [reflexivity |]. split; [reflexivity |]. split; [exact H1 |].
  destruct (H2 no_json_error eq_refl eq_refl) as (_ & H3).
  apply (H3 "" "" "" "" None None (Some urls) links).
  exists (VStr "https://map"). split; [apply located_in_given_urls | reflexivity].
Defined.

Lemma rendered_small (k : knobs) :
  net k = net home -> header_of k = header_of home -> cells k = cells home ->
  map_rendered (world k) "" "" "" "" [] urls links legacy_header small.
Proof.
  intros Hn Hh Hc. destruct k; simpl in Hn, Hh, Hc; subst.
  exists (binary_response map_bytes), (repeat 0 540).
  split; [| split; reflexivity].
  exists (VStr "https://map"). split; [apply located_in_given_urls | reflexivity].
Qed.

Lemma doubled_is_not_small : doubled <> small.
Proof.
  intros H. apply (f_equal image_size) in H. vm_compute in H. discriminate.
Qed.

(** C3 as the specification states it does not hold: when path decoding
    fails, the image returned is the upscaled one, not the unscaled map
    image. *)
Lemma failed_path_decode_returns_upscaled_image :
  let W := world path_decode_fails in
  map_rendered W "" "" "" "" [] urls links legacy_header small /\
  outcome (download W (VStr "https://path")) = Ok path_response /\
  outcome (parse_path W path_response 2 legacy_header) = Raise missing_path_data /\
  outcome (get_map W "" "" "" "" None (Some path_on) (Some urls))
    = Ok (legacy_header, doubled) /\
  image_size small = (540, 1) /\
  image_size doubled = (1080, 2) /\
  doubled <> small.
Proof.
  intros W.
  split; [apply rendered_small; reflexivity |].
  split; [reflexivity |]. split; [reflexivity |].
  split; [vm_compute; reflexivity |].
  split; [vm_compute; reflexivity |].
  split; [vm_compute; reflexivity | exact doubled_is_not_small].
Qed.

Lemma path_failure_is_contained_witness :
  let W := world path_decode_fails in
  let V := world line_fails in
  let path_link := VStr "https://path" in
  local_after (path_try V path_link legacy_header []) small = doubled /\
  In (Log ERROR [LLit "Path rendering failed: "; LExn out_of_memory])
     (snd (path_try V path_link legacy_header [] small)) /\
  local_after (path_try W path_link legacy_header []) small = doubled /\
  In (Log ERROR [LLit "Path rendering failed: "; LExn missing_path_data])
     (snd (path_try W path_link legacy_header [] small)) /\
  exists out,
    outcome (get_map W "" "" "" "" None (Some path_on) (Some urls))
      = Ok (legacy_header, out).
Proof.
  intros W V path_link.
  assert (Hcompositing :
            local_after (path_try V path_link legacy_header []) small = doubled /\
            In (Log ERROR [LLit "Path rendering failed: "; LExn out_of_memory])
               (snd (path_try V path_link legacy_header [] small))).
  { destruct (path_failure_is_contained V path_link legacy_header [] small)
      as (_ & _ & _ & _ & _ & _ & H7).
    assert (Hr : resize V small (fst (size V small) * 2, snd (size V small) * 2) BOX
                 = Ok doubled) by (vm_compute; reflexivity).
    destruct (H7 path_response 2 doubled home_path eq_refl eq_refl Hr eq_refl eq_refl)
      as (_ & _ & H8).
    destruct (H8 home_fill eq_refl eq_refl) as (H9 & _).
    exact (H9 doubled out_of_memory eq_refl). }
  destruct Hcompositing as (C1 & C2).
  split; [exact C1 |]. split; [exact C2 |].
  destruct (path_failure_is_contained W path_link legacy_header [] small)
    as (_ & _ & _ & H4 & H5 & _).
  destruct (H4 path_response eq_refl) as (_ & Hs).
  destruct (Hs 2 eq_refl) as (_ & Hb).
  assert (Hr : resize W small (fst (size W small) * 2, snd (size W small) * 2) BOX
               = Ok doubled) by (vm_compute; reflexivity).
  destruct (Hb doubled Hr) as (Hd & _).
  destruct (Hd missing_path_data eq_refl) as (E1 & E2 & _).
  split; [exact E1 |]. split; [exact E2 |].
  assert (Hl : path_located links path_link).
  { exists (VList [VDict [("map_url", VStr "https://path")]]),
           [VDict [("map_url", VStr "https://path")]].
    repeat split. }
  destruct (H5 "" "" "" "" None (Some path_on) (Some urls) links eq_refl
               (rendered_small path_decode_fails eq_refl eq_refl eq_refl)
               eq_refl Hl) as (out & Ho & _).
  exists out. exact Ho.
Defined.


Lemma flip_rotate_then_flips_witness :
  let W := world offline in
  run (flip W [] two_by_two quarter_turn_and_flipped)
    = (Ok ([], grid_image [[3; 1]; [4; 2]]),
       [Call (c_rotate (VInt 90)); Call (c_transpose FLIP_LEFT_RIGHT);
        Call (c_transpose FLIP_TOP_BOTTOM)]).
Proof.
  intros W.
  exact (proj2 (flip_rotate_then_flips W [] two_by_two quarter_turn_and_flipped)
               (grid_image [[2; 4]; [1; 3]]) (grid_image [[4; 2]; [3; 1]])
               (grid_image [[3; 1]; [4; 2]]) eq_refl eq_refl eq_refl).
Defined.

(** C6 as the specification states it does not hold: when the rotation
    succeeds and the flip after it fails, [flip] returns the rotated image,
    not the image it was given. *)
Lemma failed_flip_returns_rotated_image :
  let W := world transpose_fails in
  let rotated := grid_image [[4; 3]; [2; 1]] in
  rotate W two_by_two (VInt 180) = Ok rotated /\
  transpose W rotated FLIP_LEFT_RIGHT = Raise out_of_memory /\
  run (flip W [] two_by_two turned_and_flipped)
    = (Ok ([], rotated),
       [Call (c_rotate (VInt 180)); Call (c_transpose FLIP_LEFT_RIGHT);
        Log ERROR [LLit "Image transformation failed: "; LExn out_of_memory]]) /\
  rotated <> two_by_two.
Proof.
  intros W rotated. repeat split. discriminate.
Qed.

Lemma flip_contains_failure_witness :
  let W := world home_transpose_fails in
  exists out,
    outcome (path_stage W links legacy_header [] turned_and_flipped small) = Ok small /\
    outcome (get_map W "" "" "" "" None (Some turned_and_flipped) (Some urls))
      = Ok (legacy_header, out).
Proof.
  intros W.
  destruct (flip_contains_failure W legacy_header small turned_and_flipped)
    as (out & tr & _ & _ & H).
  exists out. split; [reflexivity |].
  exact (H "" "" "" "" None (Some turned_and_flipped) (Some urls) links small eq_refl
           (rendered_small home_transpose_fails eq_refl eq_refl eq_refl) eq_refl).
Defined.

Lemma flip_flags_select_mirrors_witness :
  let W := world offline in
  outcome (flip W [] two_by_two [("flip_vertical", VBool true)])
    = Ok ([], grid_image [[2; 1]; [4; 3]]) /\
  outcome (flip W [] two_by_two [("flip_horizontal", VBool true)])
    = Ok ([], grid_image [[3; 4]; [1; 2]]).
Proof.
  intros W. split.
  - destruct (flip_flags_select_mirrors W [] two_by_two
                [("flip_vertical", VBool true)] two_by_two eq_refl) as (H & _).
    exact (H (grid_image [[2; 1]; [4; 3]]) eq_refl eq_refl eq_refl).
  - destruct (flip_flags_select_mirrors W [] two_by_two
                [("flip_horizontal", VBool true)] two_by_two eq_refl) as (_ & H & _).
    exact (H (grid_image [[3; 4]; [1; 2]]) eq_refl eq_refl eq_refl).
Defined.

Lemma located_path : path_located links (VStr "https://path").
Proof.
  exists (VList [VDict [("map_url", VStr "https://path")]]),
         [VDict [("map_url", VStr "https://path")]].
  repeat split.
Qed.



(** C8 as the specification states it does not hold: on a map wider than
    1080 cells the scale is 0, the resize to an empty size fails, and the
    request returns the map image as it was rasterized, neither upscaled nor
    drawn on. *)
Lemma wide_map_is_not_upscaled :
  let W := world wide_home in
  let request := get_map W "" "" "" "" None (Some path_on) (Some urls) in
  map_rendered W "" "" "" "" [] urls links wide_header wide /\
  path_located links (VStr "https://path") /\
  image_size wide = (1081, 1) /\
  compute_scale (fst (size W wide)) = Ok 0 /\
  resize W wide (fst (size W wide) * 0, snd (size W wide) * 0) BOX = Raise empty_size /\
  local_after (path_body W (VStr "https://path") wide_header []) wide = wide /\
  outcome request = Ok (wide_header, wide) /\
  In (Call (c_resize (0, 0) BOX)) (trace_of request) /\
  In (Log ERROR [LLit "Path rendering failed: "; LExn empty_size]) (trace_of request) /\
  forallb no_drawing (trace_of request) = true.
Proof.
  intros W request.
  split.
  { exists (binary_response map_bytes), (repeat 0 1081).
    split; [| split; vm_compute; reflexivity].
    exists (VStr "https://map"). split; [apply located_in_given_urls | reflexivity]. }
  split; [exact located_path |].
  split; [vm_compute; reflexivity |].
  split; [vm_compute; reflexivity |].
  split; [vm_compute; reflexivity |].
  split; [vm_compute; reflexivity |].
  split; [vm_compute; reflexivity |].
  split; [vm_compute; tauto |].
  split; [vm_compute; tauto |].
  vm_compute. reflexivity.
Qed.

Lemma path_scale_is_floor_of_1080_witness :
  let W := world home in
  let path_link := VStr "https://path" in
  0 < fst (size W small) /\
  compute_scale (fst (size W small)) = Ok 2 /\
  In (Call (c_resize (1080, 2) BOX))
     (snd (path_body W path_link legacy_header [] small)) /\
  resize W small (1080, 2) BOX = Ok doubled /\
  pixels doubled = upscale 2 (pixels small) /\
  In (Call (c_line home_path home_fill 2))
     (snd (path_body W path_link legacy_header [] small)) /\
  line W doubled home_path home_fill 2 = (lined, None) /\
  local_after (path_body W path_link legacy_header []) small = marked /\
  pixels marked = pixels doubled /\
  outcome (get_map W "" "" "" "" None (Some path_on) (Some urls))
    = Ok (legacy_header, marked).
Proof.
  intros W path_link.
  assert (Hw : 0 < fst (size W small)) by reflexivity.
  destruct (path_scale_is_floor_of_1080 W path_link legacy_header [] small Hw)
    as (H1 & _ & H3 & H4 & _).
  split; [exact Hw |]. split; [exact H1 |].
  destruct (H3 path_response eq_refl) as (H5 & _ & H6).
  split; [exact H5 |].
  assert (Hr : resize W small
                 (fst (size W small) * (1080 / fst (size W small)),
                  snd (size W small) * (1080 / fst (size W small))) BOX
               = Ok doubled) by (vm_compute; reflexivity).
  split; [exact Hr |]. split; [reflexivity |].
  destruct (H6 doubled Hr) as (_ & H7).
  destruct (H7 home_path eq_refl) as (_ & H8).
  destruct (H8 eq_refl) as (_ & _ & H9).
  destruct (H9 home_fill eq_refl eq_refl) as (H10 & H11).
  assert (Hm : local_after (path_body W path_link legacy_header []) small = marked).
  { rewrite H11. vm_compute. reflexivity. }
  split; [exact H10 |].
  split; [vm_compute; reflexivity |].
  split; [exact Hm |]. split; [reflexivity |].
  rewrite (H4 "" "" "" "" None (Some path_on) (Some urls) links eq_refl
              (rendered_small home eq_refl eq_refl eq_refl) eq_refl located_path).
  rewrite Hm. vm_compute. reflexivity.
Defined.

(** C9 as the specification states it does not hold: when the first entry
    of the list carries no ['map_url'], the map URL and the path URL are
    read from the same entry. *)
Lemma path_entry_can_be_map_entry :
  let links := [VDict [("name", VStr "layout")];
                VDict [("map_url", VStr "https://a")];
                VDict [("map_url", VStr "https://b")]] in
  first_map_url links = Ok (VStr "https://a") /\
  path_located (VList links) (VStr "https://a") /\
  map_entry links = Some 1%nat /\
  path_entry links = Some 1%nat.
Proof.
  repeat split.
  eexists; eexists; repeat split.
Qed.

Lemma map_and_path_entries_witness :
  let links := [VDict [("map_url", VStr "https://a")];
                VDict [("name", VStr "layout")];
                VDict [("map_url", VStr "https://b")]] in
  map_entry links = Some O /\
  exists (j : nat) (item : value),
    path_entry links = Some j /\ (0 < j)%nat /\
    nth_error links j = Some item /\
    getitem_str item "map_url" = Ok (VStr "https://b").
Proof.
  intros links.
  destruct (proj2 (map_and_path_entries links) _ eq_refl eq_refl) as (H1 & _ & H3).
  split; [exact H1 |].
  assert (HL : path_located (VList links) (VStr "https://b")).
  { eexists; eexists; repeat split. }
  destruct (H3 _ HL) as (j & item & E1 & E2 & E3 & E4 & _).
  exists j, item. auto.
Defined.

End Worked.

(** ** Further properties of main.py *)

Section Traces.

Context {A B : Type}.

Lemma run_bind (m : M unit A) (f : A -> M unit B) :
  run (bind m f) =
  match run m with
  | (Ok a, t1) => (fst (run (f a)), (t1 ++ snd (run (f a)))%list)
  | (Raise e, t1) => (Raise e, t1)
  end.
Proof.
  unfold run, bind.
  destruct (m tt) as [[[a | e] []] t]; [| reflexivity].
  destruct (f a tt) as [[r []] t2]; reflexivity.
Qed.

Lemma run_try (m : M unit A) (c : exn -> bool) (h : exn -> M unit A) :
  run (try_except m c h) =
  match run m with
  | (Ok a, t1) => (Ok a, t1)
  | (Raise e, t1) =>
      if c e then (fst (run (h e)), (t1 ++ snd (run (h e)))%list)
      else (Raise e, t1)
  end.
Proof.
  unfold run, try_except.
  destruct (m tt) as [[[a | e] []] t]; [reflexivity |].
  destruct (c e); [| reflexivity].
  destruct (h e tt) as [[r []] t2]; reflexivity.
Qed.

Lemma count_app (p : event -> bool) (t u : trace) :
  count p (t ++ u)%list = (count p t + count p u)%nat.
Proof. unfold count. rewrite filter_app, length_app. reflexivity. Qed.

Lemma count_bind_le (p : event -> bool) (m : M unit A) (f : A -> M unit B) (n k : nat) :
  (count p (trace_of m) <= n)%nat ->
  (forall a, count p (trace_of (f a)) <= k)%nat ->
  (count p (trace_of (bind m f)) <= n + k)%nat.
Proof.
  unfold trace_of. intros Hm Hf. rewrite run_bind.
  destruct (run m) as [[a | e] t1]; simpl in *; [| lia].
  rewrite count_app. specialize (Hf a). lia.
Qed.

Lemma count_try_le (p : event -> bool) (m : M unit A) (c : exn -> bool)
      (h : exn -> M unit A) (n k : nat) :
  (count p (trace_of m) <= n)%nat ->
  (forall e, count p (trace_of (h e)) <= k)%nat ->
  (count p (trace_of (try_except m c h)) <= n + k)%nat.
Proof.
  unfold trace_of. intros Hm Hh. rewrite run_try.
  destruct (run m) as [[a | e] t1]; simpl in *; [lia |].
  destruct (c e); simpl; [| lia].
  rewrite count_app. specialize (Hh e). lia.
Qed.

End Traces.

Section Bounded.

Context {L A B : Type} (p : event -> bool).

Lemma bounded_weaken (n n' : nat) (m : M L A) :
  (n <= n')%nat -> bounded p n m -> bounded p n' m.
Proof. intros Hn Hm l. specialize (Hm l). lia. Qed.

Lemma bounded_ret (a : A) : bounded p 0 (@ret L A a).
Proof. intros l. apply Nat.le_refl. Qed.

Lemma bounded_raise (e : exn) : bounded p 0 (@raise L A e).
Proof. intros l. apply Nat.le_refl. Qed.

Lemma bounded_lift (r : result A) : bounded p 0 (@lift L A r).
Proof. intros l. apply Nat.le_refl. Qed.

Lemma bounded_get_local : bounded p 0 (@get_local L).
Proof. intros l. apply Nat.le_refl. Qed.

Lemma bounded_set_local (l' : L) : bounded p 0 (set_local l').
Proof. intros l. apply Nat.le_refl. Qed.

Lemma bounded_log (lvl : level) (msg : list lpiece) :
  p (Log lvl msg) = false -> bounded p 0 (@log L lvl msg).
Proof. intros H l. unfold count. simpl. rewrite H. apply Nat.le_refl. Qed.

Lemma bounded_ext (c : call) (r : result A) :
  p (Call c) = false -> bounded p 0 (@ext L A c r).
Proof. intros H l. unfold count. simpl. rewrite H. apply Nat.le_refl. Qed.

Lemma bounded_bind (n k : nat) (m : M L A) (f : A -> M L B) :
  bounded p n m -> (forall a, bounded p k (f a)) -> bounded p (n + k) (bind m f).
Proof.
  intros Hm Hf l. unfold bind. specialize (Hm l).
  destruct (m l) as [[[a | e] l1] t1]; simpl in *; [| lia].
  specialize (Hf a l1). destruct (f a l1) as [[r2 l2] t2]. simpl in *.
  rewrite count_app. lia.
Qed.

Lemma bounded_try (n k : nat) (m : M L A) (c : exn -> bool) (h : exn -> M L A) :
  bounded p n m -> (forall e, bounded p k (h e)) -> bounded p (n + k) (try_except m c h).
Proof.
  intros Hm Hh l. unfold try_except. specialize (Hm l).
  destruct (m l) as [[[a | e] l1] t1]; simpl in *; [lia |].
  destruct (c e); simpl; [| lia].
  specialize (Hh e l1). destruct (h e l1) as [[r2 l2] t2]. simpl in *.
  rewrite count_app. lia.
Qed.

End Bounded.

Lemma bounded_invoke {L L' A : Type} (p : event -> bool) (n : nat) (m : M L' A) (l' : L') :
  bounded p n m -> bounded p n (@invoke L L' A m l').
Proof.
  intros Hm l. unfold invoke. specialize (Hm l').
  destruct (m l') as [[r l1] t]. exact Hm.
Qed.

Lemma bounded_exec_local {L : Type} (p : event -> bool) (n : nat) (m : M L unit) (l0 : L) :
  bounded p n m -> bounded p n (exec_local m l0).
Proof.
  intros Hm l. unfold exec_local. specialize (Hm l0).
  destruct (m l0) as [[r l1] t]. exact Hm.
Qed.

Lemma bounded_trace_of {A : Type} (p : event -> bool) (n : nat) (m : M unit A) :
  bounded p n m -> (count p (trace_of m) <= n)%nat.
Proof.
  intros Hm. unfold trace_of, run. specialize (Hm tt).
  destruct (m tt) as [[r l] t]. exact Hm.
Qed.

Ltac quiet :=
  repeat first
    [ apply bounded_ret
    | apply bounded_raise
    | apply bounded_lift
    | apply bounded_get_local
    | apply bounded_set_local
    | apply bounded_log; reflexivity
    | apply bounded_ext; reflexivity
    | apply bounded_invoke
    | apply (bounded_bind _ 0 0); [| intro]
    | apply (bounded_try _ 0 0); [| intro]
    | match goal with
      | |- bounded _ _ (if ?b then _ else _) => destruct b
      | |- bounded _ _ (match ?x with _ => _ end) => destruct x
      | |- bounded _ _ (let _ := _ in _) => cbv zeta
      end ].

Lemma count_mono (p q : event -> bool) (tr : trace) :
  (forall e, p e = true -> q e = true) -> (count p tr <= count q tr)%nat.
Proof.
  intros H. unfold count. induction tr as [| e tr IH]; simpl; [lia |].
  destruct (p e) eqn:Ep; [rewrite (H e Ep); simpl; lia |].
  destruct (q e); simpl; lia.
Qed.

Lemma network_counts (tr : trace) (n : nat) :
  (count is_network tr <= n)%nat ->
  (count is_download tr <= n)%nat /\ (count is_link_request tr <= n)%nat.
Proof.
  intros H. split.
  - pose proof (count_mono is_download is_network tr) as Hm.
    assert (Hc : (count is_download tr <= count is_network tr)%nat).
    { apply Hm. intros e He. unfold is_network. rewrite He. reflexivity. }
    lia.
  - pose proof (count_mono is_link_request is_network tr) as Hm.
    assert (Hc : (count is_link_request tr <= count is_network tr)%nat).
    { apply Hm. intros e He. unfold is_network. rewrite He. apply orb_true_r. }
    lia.
Qed.

Section More.

Context {Image Array : Type} (W : World Image Array).

(** X1.  [download] returns a response exactly when [requests.get] returned
    it and [raise_for_status] raised nothing; otherwise it raises the very
    error of the failing call, logging it first when it is a
    RequestException, and it makes one call to [requests.get]. *)
Theorem download_reraises (url : value) :
  (forall resp,
      outcome (download W url) = Ok resp <->
      requests_get W url = Ok resp /\ raise_for_status resp = None) /\
  (forall e,
      outcome (download W url) = Raise e ->
      (requests_get W url = Raise e \/
       exists resp, requests_get W url = Ok resp /\ raise_for_status resp = Some e) /\
      trace_of (download W url) =
      Call (c_requests_get url)
      :: (if is_RequestException (exn_cls e) then [download_failed url e] else [])) /\
  (forall resp,
      outcome (download W url) = Ok resp ->
      trace_of (download W url) = [Call (c_requests_get url)]).
Proof.
  unfold outcome, trace_of, download, except_RequestException, download_failed.
  unfold_m.
  destruct (requests_get W url) as [resp0 | e0]; simpl.
  - destruct (raise_for_status resp0) as [e1 |] eqn:Es; simpl.
    + destruct (is_RequestException (exn_cls e1)) eqn:Ec; simpl;
        (split; [| split]).
      * intros resp. split; [discriminate | intros [[= <-] H]; congruence].
      * intros e [= <-]. rewrite Ec. split; [right; exists resp0; auto | reflexivity].
      * discriminate.
      * intros resp. split; [discriminate | intros [[= <-] H]; congruence].
      * intros e [= <-]. rewrite Ec. split; [right; exists resp0; auto | reflexivity].
      * discriminate.
    + split; [| split].
      * intros resp. split; [intros [= <-]; auto | intros [[= <-] _]; reflexivity].
      * discriminate.
      * reflexivity.
  - destruct (is_RequestException (exn_cls e0)) eqn:Ec; simpl; (split; [| split]).
    + intros resp. split; [discriminate | intros [H _]; discriminate].
    + intros e [= <-]. rewrite Ec. auto.
    + discriminate.
    + intros resp. split; [discriminate | intros [H _]; discriminate].
    + intros e [= <-]. rewrite Ec. auto.
    + discriminate.
Qed.

Lemma parse_map_quiet (r : response) : bounded is_network 0 (parse_map W r).
Proof. unfold parse_map, parse_map_json, parse_map_binary. quiet. Qed.

Lemma render_layout_quiet (raw : list Z) (header colors : dict) :
  bounded is_network 0 (render_layout W raw header colors).
Proof. unfold render_layout. quiet. Qed.

Lemma flip_quiet (headers : dict) (image : Image) (settings : dict) :
  bounded is_network 0 (flip W headers image settings).
Proof. unfold flip, flip_try, rebind. quiet. Qed.

Lemma parse_path_quiet (resp : response) (scale : Z) (header : dict) :
  bounded is_network 0 (parse_path W resp scale header).
Proof. unfold parse_path. quiet. Qed.

Lemma bounded_network_download {L A : Type} (m : M L A) :
  bounded is_network 0 m -> bounded is_download 0 m.
Proof. intros H l. apply (network_counts _ 0 (H l)). Qed.

Lemma bounded_network_link {L A : Type} (m : M L A) :
  bounded is_network 0 m -> bounded is_link_request 0 m.
Proof. intros H l. apply (network_counts _ 0 (H l)). Qed.

Lemma download_bounds (url : value) :
  bounded is_download 1 (download W url) /\ bounded is_link_request 0 (download W url).
Proof.
  unfold download. split.
  - apply (bounded_try _ 1 0); [| intro; quiet].
    apply (bounded_bind _ 1 0); [| intro; quiet].
    intros l. apply Nat.le_refl.
  - quiet.
Qed.

Lemma resolve_urls_bounds server client_id secret_key device_id (urls : dict) :
  bounded is_download 0 (resolve_urls W server client_id secret_key device_id urls) /\
  bounded is_link_request 1 (resolve_urls W server client_id secret_key device_id urls) /\
  (urls <> [] ->
   bounded is_link_request 0 (resolve_urls W server client_id secret_key device_id urls)).
Proof.
  unfold resolve_urls. split; [| split].
  - quiet.
  - destruct (negb (truthy (VDict urls))); [| apply (bounded_weaken _ 0 1); [lia | quiet]].
    apply (bounded_bind _ 1 0); [intros l; apply Nat.le_refl | intro; quiet].
  - intros H. destruct urls; [congruence |]. simpl. quiet.
Qed.

Lemma dock_point_quiet (header : dict) : bounded is_network 0 (dock_point W header).
Proof. unfold dock_point. quiet. Qed.

Lemma bounded_draw_on (p : event -> bool) (c : call) (f : Image -> Image * option exn) :
  p (Call c) = false -> bounded p 0 (draw_on c f).
Proof.
  intros H l. unfold draw_on. destruct (f l) as [i err]. unfold count. simpl.
  rewrite H. apply Nat.le_refl.
Qed.

Lemma draw_dock_quiet (header : dict) (scale : Z) :
  bounded is_network 0 (draw_dock W header scale).
Proof.
  unfold draw_dock.
  destruct (has_key "pileX" header && has_key "pileY" header); [| quiet].
  apply (bounded_bind _ 0 0); [apply dock_point_quiet | intro].
  quiet. apply bounded_draw_on. reflexivity.
Qed.

Lemma path_try_bounds (path_link : value) (header colors : dict) :
  bounded is_download 1 (path_try W path_link header colors) /\
  bounded is_link_request 0 (path_try W path_link header colors).
Proof.
  assert (Hrest : forall (resp : response),
             bounded is_network 0
               (image <- get_local ;;
                scale <- lift (compute_scale (fst (size W image))) ;;
                let new_size :=
                  (fst (size W image) * scale, snd (size W image) * scale) in
                rebind (c_resize new_size BOX)
                       (fun image => resize W image new_size BOX) ;;;
                path <- invoke (parse_path W resp scale header) tt ;;
                if truthy (VList path) then
                  image <- get_local ;;
                  ext c_Draw (match Draw W image with
                              | Some e => Raise e
                              | None => Ok tt
                              end) ;;;
                  fill <- lift (iter (dict_get colors "path_color" default_path_color)) ;;
                  draw_on (c_line path fill 2) (fun image => line W image path fill 2) ;;;
                  draw_dock W header scale
                else ret tt)%py).
  { intros resp. unfold rebind.
    apply (bounded_bind _ 0 0); [quiet | intro].
    apply (bounded_bind _ 0 0); [quiet | intro]. cbv zeta.
    apply (bounded_bind _ 0 0); [quiet | intro].
    apply (bounded_bind _ 0 0);
      [apply bounded_invoke; apply parse_path_quiet | intro].
    match goal with |- bounded _ _ (if ?b then _ else _) => destruct b end; [| quiet].
    apply (bounded_bind _ 0 0); [quiet | intro].
    apply (bounded_bind _ 0 0); [quiet | intro].
    apply (bounded_bind _ 0 0); [quiet | intro].
    apply (bounded_bind _ 0 0); [apply bounded_draw_on; reflexivity | intro].
    apply draw_dock_quiet. }
  unfold path_try, path_body. split.
  - apply (bounded_try _ 1 0); [| intro; quiet].
    apply (bounded_bind _ 1 0).
    + apply bounded_invoke. apply download_bounds.
    + intro resp. apply bounded_network_download. apply Hrest.
  - apply (bounded_try _ 0 0); [| intro; quiet].
    apply (bounded_bind _ 0 0).
    + apply bounded_invoke. apply download_bounds.
    + intro resp. apply bounded_network_link. apply Hrest.
Qed.

Lemma path_stage_bounds (links : value) (header colors settings : dict) (image : Image) :
  bounded is_download 1 (path_stage W links header colors settings image) /\
  bounded is_link_request 0 (path_stage W links header colors settings image) /\
  (truthy (dict_get settings "path_enabled" (VBool false)) = false ->
   bounded is_download 0 (path_stage W links header colors settings image)).
Proof.
  unfold path_stage. split; [| split].
  - destruct (truthy (dict_get settings "path_enabled" (VBool false)));
      [| apply (bounded_weaken _ 0 1); [lia | quiet]].
    apply (bounded_bind _ 0 1); [quiet | intro].
    apply (bounded_bind _ 0 1); [quiet | intro].
    apply (bounded_bind _ 0 1); [quiet | intro].
    match goal with |- bounded _ _ (if ?b then _ else _) => destruct b end;
      [| apply (bounded_weaken _ 0 1); [lia | quiet]].
    apply bounded_exec_local. apply path_try_bounds.
  - destruct (truthy (dict_get settings "path_enabled" (VBool false))); [| quiet].
    apply (bounded_bind _ 0 0); [quiet | intro].
    apply (bounded_bind _ 0 0); [quiet | intro].
    apply (bounded_bind _ 0 0); [quiet | intro].
    match goal with |- bounded _ _ (if ?b then _ else _) => destruct b end; [| quiet].
    apply bounded_exec_local. apply path_try_bounds.
  - intros ->. quiet.
Qed.

Lemma get_map_body_download_bound server client_id secret_key device_id
      (colors settings urls : dict) (k : nat) :
  (forall links header image,
      bounded is_download k (path_stage W links header colors settings image)) ->
  bounded is_download (1 + k)
          (get_map_body W server client_id secret_key device_id colors settings urls).
Proof.
  intros Hk. unfold get_map_body.
  apply (bounded_bind _ 0 (1 + k)); [apply resolve_urls_bounds | intro].
  apply (bounded_bind _ 0 (1 + k)); [quiet | intro].
  apply (bounded_bind _ 0 (1 + k)); [quiet | intro].
  apply (bounded_bind _ 0 (1 + k)); [quiet | intro].
  apply (bounded_bind _ 0 (1 + k)); [quiet | intro].
  apply (bounded_bind _ 1 k); [apply download_bounds | intro].
  apply (bounded_bind _ 0 k); [quiet | intro].
  apply (bounded_bind _ 0 k);
    [apply bounded_network_download; apply parse_map_quiet | intro]. cbv zeta.
  apply (bounded_bind _ 0 k);
    [apply bounded_network_download; apply render_layout_quiet | intro].
  replace k with (k + 0)%nat by lia.
  apply (bounded_bind _ k 0); [apply Hk | intro].
  apply bounded_network_download. apply flip_quiet.
Qed.

Lemma get_map_body_link_bound server client_id secret_key device_id
      (colors settings urls : dict) (k : nat) :
  bounded is_link_request k
          (resolve_urls W server client_id secret_key device_id urls) ->
  bounded is_link_request k
          (get_map_body W server client_id secret_key device_id colors settings urls).
Proof.
  intros Hk. unfold get_map_body.
  replace k with (k + 0)%nat by lia.
  apply (bounded_bind _ k 0); [exact Hk | intro].
  apply (bounded_bind _ 0 0); [quiet | intro].
  apply (bounded_bind _ 0 0); [quiet | intro].
  apply (bounded_bind _ 0 0); [quiet | intro].
  apply (bounded_bind _ 0 0); [quiet | intro].
  apply (bounded_bind _ 0 0); [apply download_bounds | intro].
  apply (bounded_bind _ 0 0); [quiet | intro].
  apply (bounded_bind _ 0 0);
    [apply bounded_network_link; apply parse_map_quiet | intro]. cbv zeta.
  apply (bounded_bind _ 0 0);
    [apply bounded_network_link; apply render_layout_quiet | intro].
  apply (bounded_bind _ 0 0); [apply path_stage_bounds | intro].
  apply bounded_network_link. apply flip_quiet.
Qed.

Lemma get_map_bounded server client_id secret_key device_id
      (colors settings urls : option dict) (p : event -> bool) (n : nat) :
  (forall lvl msg, p (Log lvl msg) = false) ->
  bounded p n (get_map_body W server client_id secret_key device_id
                 (or_empty colors) (or_empty settings) (or_empty urls)) ->
  bounded p n (get_map W server client_id secret_key device_id colors settings urls).
Proof.
  intros Hlog Hb. unfold get_map. cbv zeta.
  replace n with (n + 0)%nat by lia.
  apply (bounded_try _ n 0); [exact Hb | intro].
  apply (bounded_bind _ 0 0); [apply bounded_log; apply Hlog | intro; quiet].
Qed.

(** X2.  A call of [get_map] downloads at most twice and asks the link
    provider at most once; it does not ask the link provider at all when
    [urls] is given and not empty, and it downloads at most once when
    [path_enabled] is not true. *)
Theorem get_map_call_budget server client_id secret_key device_id
        (colors settings urls : option dict) :
  let tr := trace_of (get_map W server client_id secret_key device_id
                              colors settings urls) in
  (count is_download tr <= 2)%nat /\
  (count is_link_request tr <= 1)%nat /\
  (or_empty urls <> [] -> count is_link_request tr = 0%nat) /\
  (truthy (dict_get (or_empty settings) "path_enabled" (VBool false)) = false ->
   (count is_download tr <= 1)%nat).
Proof.
  intros tr. subst tr. split; [| split; [| split]].
  - apply bounded_trace_of. apply get_map_bounded; [reflexivity |].
    apply (get_map_body_download_bound _ _ _ _ _ _ _ 1).
    intros. apply path_stage_bounds.
  - apply bounded_trace_of. apply get_map_bounded; [reflexivity |].
    apply get_map_body_link_bound. apply resolve_urls_bounds.
  - intros H.
    assert (Hle : (count is_link_request
                     (trace_of (get_map W server client_id secret_key device_id
                                        colors settings urls)) <= 0)%nat).
    { apply bounded_trace_of. apply get_map_bounded; [reflexivity |].
      apply get_map_body_link_bound. apply resolve_urls_bounds. exact H. }
    lia.
  - intros H. apply bounded_trace_of. apply get_map_bounded; [reflexivity |].
    apply (get_map_body_download_bound _ _ _ _ _ _ _ 0).
    intros. apply path_stage_bounds. exact H.
Qed.

(** X3.  [urls] that are given and not empty are used as they are, without
    any call.  Otherwise the link provider is asked: its answer is accepted
    only when ['result'] holds a list that is not empty, which becomes
    ['links']; any other answer raises ValueError "Invalid API response
    format", and the provider's own error is passed on. *)
Theorem resolve_urls_spec server client_id secret_key device_id (urls : dict) :
  let provided := get_download_link W server client_id secret_key device_id in
  let resolved := resolve_urls W server client_id secret_key device_id urls in
  (urls <> [] -> run resolved = (Ok urls, [])) /\
  (urls = [] ->
   (forall urls',
       outcome resolved = Ok urls' ->
       exists link first rest,
         provided = Ok link /\
         lookup "result" link = Some (VList (first :: rest)) /\
         urls' = [("links", VList (first :: rest)); ("time", VStr (now W))]) /\
   (forall link,
       provided = Ok link ->
       (forall first rest, lookup "result" link <> Some (VList (first :: rest))) ->
       outcome resolved = Raise invalid_api_response) /\
   (forall e, provided = Raise e -> outcome resolved = Raise e)).
Proof.
  intros provided resolved. subst provided resolved. unfold resolve_urls. split.
  - intros H. destruct urls; [congruence | reflexivity].
  - intros ->. simpl negb. cbv iota zeta.
    unfold outcome, dict_get, dict_getitem. unfold_m.
    destruct (get_download_link W server client_id secret_key device_id)
      as [link | e0]; simpl;
      [| split; [discriminate | split; [discriminate | congruence]]].
    assert (Hinvalid :
              (forall first rest, lookup "result" link <> Some (VList (first :: rest))) ->
              forall r : result dict,
                r = Raise (Exn ValueError [Lit "Invalid API response format"] None) ->
                (forall urls',
                    r = Ok urls' ->
                    exists link0 first rest,
                      Ok link = Ok link0 /\
                      lookup "result" link0 = Some (VList (first :: rest)) /\
                      urls' = [("links", VList (first :: rest));
                               ("time", VStr (now W))]) /\
                (forall link0,
                    Ok link = Ok link0 ->
                    (forall first rest,
                        lookup "result" link0 <> Some (VList (first :: rest))) ->
                    r = Raise invalid_api_response) /\
                (forall e, @Ok dict link = Raise e -> r = Raise e)).
    { intros _ r ->. split; [discriminate |]. split; [reflexivity | discriminate]. }
    destruct (lookup "result" link) as [v |] eqn:El; simpl;
      [| apply Hinvalid; [discriminate | reflexivity]].
    destruct v as [ | b | n | s | l | d ]; simpl;
      try (apply Hinvalid; [discriminate | reflexivity]).
    + destruct b; simpl; apply Hinvalid; try discriminate; reflexivity.
    + destruct (n =? 0); simpl; apply Hinvalid; try discriminate; reflexivity.
    + destruct (String.eqb s ""); simpl; apply Hinvalid; try discriminate; reflexivity.
    + destruct l as [| first rest]; simpl;
        [apply Hinvalid; [discriminate | reflexivity] |].
      split; [| split].
      * intros urls' [= <-]. exists link, first, rest. auto.
      * intros link' [= <-] H. destruct (H first rest). exact El.
      * discriminate.
    + destruct d; simpl; apply Hinvalid; try discriminate; reflexivity.
Qed.

Lemma count_bind_outcome {A B : Type} (p : event -> bool) (m : M unit A)
      (f : A -> M unit B) (n k : nat) :
  (count p (trace_of m) <= n)%nat ->
  (forall a, outcome m = Ok a -> count p (trace_of (f a)) <= k)%nat ->
  (count p (trace_of (bind m f)) <= n + k)%nat.
Proof.
  unfold trace_of, outcome. intros Hm Hf. rewrite run_bind.
  destruct (run m) as [[a | e] t1]; simpl in *; [| lia].
  rewrite count_app. specialize (Hf a eq_refl). lia.
Qed.

(** X4.  When the first entry that carries ['map_url'] holds a false value
    (or no entry carries the key), [get_map] fails with ValueError "No map
    URL available" as the cause, and nothing is downloaded -- also when a
    later entry holds a usable URL. *)
Theorem get_map_without_map_url server client_id secret_key device_id
        (colors settings urls : option dict) (urls' : dict) (links : value)
        (items : list value) (u : value) :
  outcome (resolve_urls W server client_id secret_key device_id (or_empty urls))
    = Ok urls' ->
  dict_getitem urls' "links" = Ok links ->
  iter links = Ok items ->
  first_map_url items = Ok u ->
  truthy u = false ->
  outcome (get_map W server client_id secret_key device_id colors settings urls)
    = Raise (processing_failed no_map_url) /\
  count is_download
        (trace_of (get_map W server client_id secret_key device_id colors settings urls))
    = 0%nat.
Proof.
  intros H1 H2 H3 H4 H5. split.
  - rewrite get_map_outcome. unfold get_map_body.
    rewrite outcome_bind, H1.
    rewrite outcome_bind, outcome_lift, H2.
    rewrite outcome_bind, outcome_lift, H3.
    rewrite outcome_bind, outcome_lift, H4.
    rewrite outcome_bind, H5. simpl negb. cbv iota.
    rewrite outcome_bind, outcome_log, outcome_raise. reflexivity.
  - assert (Hle : (count is_download
                     (trace_of (get_map W server client_id secret_key device_id
                                        colors settings urls)) <= 0)%nat); [| lia].
    unfold get_map. cbv zeta. apply (count_try_le _ _ _ _ 0 0);
      [| intro; apply bounded_trace_of; quiet].
    unfold get_map_body.
    apply (count_bind_outcome _ _ _ 0 0);
      [apply bounded_trace_of; apply resolve_urls_bounds |].
    intros a Ha. rewrite H1 in Ha. injection Ha as <-.
    apply (count_bind_outcome _ _ _ 0 0); [apply bounded_trace_of; quiet |].
    intros a Ha. rewrite outcome_lift, H2 in Ha. injection Ha as <-.
    apply (count_bind_outcome _ _ _ 0 0); [apply bounded_trace_of; quiet |].
    intros a Ha. rewrite outcome_lift, H3 in Ha. injection Ha as <-.
    apply (count_bind_outcome _ _ _ 0 0); [apply bounded_trace_of; quiet |].
    intros a Ha. rewrite outcome_lift, H4 in Ha. injection Ha as <-.
    rewrite H5. simpl negb. cbv iota.
    apply (count_bind_outcome _ _ _ 0 0); [apply bounded_trace_of; quiet |].
    intros a Ha. rewrite outcome_bind, outcome_log, outcome_raise in Ha. discriminate.
Qed.

(** X5.  When [path_enabled] is not true, [get_map] returns what [flip]
    makes of the rasterized image; with no settings at all it returns the
    rasterized image itself. *)
Theorem get_map_without_path server client_id secret_key device_id
        (colors settings urls : option dict) (links : value) (header : dict)
        (image : Image) :
  map_rendered W server client_id secret_key device_id
               (or_empty colors) (or_empty urls) links header image ->
  truthy (dict_get (or_empty settings) "path_enabled" (VBool false)) = false ->
  outcome (get_map W server client_id secret_key device_id colors settings urls)
    = outcome (flip W header image (or_empty settings)) /\
  (settings = None ->
   outcome (get_map W server client_id secret_key device_id colors settings urls)
     = Ok (header, image)).
Proof.
  intros Hr Hp.
  assert (H : outcome (get_map W server client_id secret_key device_id
                               colors settings urls)
              = outcome (flip W header image (or_empty settings))).
  { rewrite get_map_outcome.
    rewrite get_map_body_rendered with (1 := Hr).
    unfold path_stage. rewrite Hp. rewrite outcome_ret.
    destruct (flip_total W header image (or_empty settings)) as [out Ho].
    rewrite Ho. reflexivity. }
  split; [exact H |].
  intros ->. rewrite H. reflexivity.
Qed.

(** X6.  Whenever [get_map] returns, the map was located, fetched, parsed
    and rasterized, the path stage ended without error, and the header
    returned is the one [parse_map] gave. *)
Theorem get_map_success_means_rendered server client_id secret_key device_id
        (colors settings urls : option dict) (h : dict) (out : Image) :
  outcome (get_map W server client_id secret_key device_id colors settings urls)
    = Ok (h, out) ->
  exists (links : value) (image image' : Image),
    map_rendered W server client_id secret_key device_id
                 (or_empty colors) (or_empty urls) links h image /\
    outcome (path_stage W links h (or_empty colors) (or_empty settings) image)
      = Ok image' /\
    outcome (flip W h image' (or_empty settings)) = Ok (h, out).
Proof.
  rewrite get_map_outcome. unfold get_map_body.
  rewrite outcome_bind.
  destruct (outcome (resolve_urls W _ _ _ _ _)) as [urls' |] eqn:E1; [| discriminate].
  rewrite outcome_bind, outcome_lift.
  destruct (dict_getitem urls' "links") as [links |] eqn:E2; [| discriminate].
  rewrite outcome_bind, outcome_lift.
  destruct (iter links) as [items |] eqn:E3; [| discriminate].
  rewrite outcome_bind, outcome_lift.
  destruct (first_map_url items) as [map_link |] eqn:E4; [| discriminate].
  rewrite outcome_bind.
  destruct (truthy map_link) eqn:E5; simpl negb; cbv iota;
    [| rewrite outcome_bind, outcome_log, outcome_raise; discriminate].
  rewrite outcome_ret, outcome_bind.
  destruct (outcome (download W map_link)) as [response |] eqn:E6; [| discriminate].
  rewrite outcome_bind, outcome_log, outcome_bind.
  destruct (outcome (parse_map W response)) as [[header cells] |] eqn:E7;
    [| discriminate].
  cbv zeta. cbn [fst snd]. rewrite outcome_bind.
  destruct (outcome (render_layout W cells header (or_empty colors))) as [image |] eqn:E8;
    [| discriminate].
  rewrite outcome_bind.
  destruct (outcome (path_stage W links header (or_empty colors) (or_empty settings) image))
    as [image' |] eqn:E9; [| discriminate].
  destruct (flip_total W header image' (or_empty settings)) as [out' Ho].
  rewrite Ho. intros [= <- <-].
  exists links, image, image'. split; [| split; [exact E9 | exact Ho]].
  exists response, cells. split; [| split; assumption].
  exists map_link. split; [| exact E6].
  exists urls', items. auto.
Qed.

Lemma render_layout_logs_once (raw : list Z) (header colors : dict) :
  match outcome (render_layout W raw header colors) with
  | Ok _ => count is_log (trace_of (render_layout W raw header colors)) = 0%nat
  | Raise e =>
      exists t,
        trace_of (render_layout W raw header colors) = (t ++ [rendering_failed e])%list /\
        count is_log t = 0%nat
  end.
Proof.
  unfold outcome, trace_of, render_layout. rewrite run_try.
  match goal with
  | |- context [run ?b] =>
      assert (Hb : bounded is_log 0 b) by quiet;
      pose proof (bounded_trace_of _ _ _ Hb) as Hc; unfold trace_of in Hc;
      destruct (run b) as [[image | e] t]
  end; simpl in *.
  - lia.
  - exists t. split; [reflexivity | lia].
Qed.

(** X7.  [render_layout] logs a failure once, as the last record, and
    raises it as it is.  A missing ['width'], ['height'] or ['version'] is a
    KeyError; a version that is a bare int or an empty list selects no
    rasterizer; [[0]], ["0"] and [["0"]] select the Legacy rasterizer and
    [[1]], ["1"] and [["1"]] the Rich one, which gets ['roominfo'] or, when
    the header has none, the empty list. *)
Theorem render_layout_edges (raw : list Z) (header colors : dict) :
  let rendered := render_layout W raw header colors in
  (forall e,
      outcome rendered = Raise e ->
      exists t, trace_of rendered = (t ++ [rendering_failed e])%list /\
                count is_log t = 0%nat) /\
  (forall k,
      In k ["width"; "height"; "version"] ->
      lookup k header = None ->
      exists k', outcome rendered = Raise (Exn KeyError [StrOf (VStr k')] None)) /\
  (forall width height,
      lookup "width" header = Some width ->
      lookup "height" header = Some height ->
      (forall n,
          lookup "version" header = Some (VInt n) ->
          run rendered = (Raise (unsupported_protocol (VInt n)),
                          [rendering_failed (unsupported_protocol (VInt n))])) /\
      (lookup "version" header = Some (VList []) ->
       run rendered =
       (Raise (Exn IndexError [Lit "list index out of range"] None),
        [rendering_failed (Exn IndexError [Lit "list index out of range"] None)])) /\
      (forall v,
          In v [VList [VInt 0]; VStr "0"; VList [VStr "0"]] ->
          lookup "version" header = Some v ->
          outcome rendered =
          match to_array_v0 W raw width height colors with
          | Ok array => fromarray W array
          | Raise e => Raise e
          end) /\
      (forall v,
          In v [VList [VInt 1]; VStr "1"; VList [VStr "1"]] ->
          lookup "version" header = Some v ->
          outcome rendered =
          match to_array_v1 W raw width height
                            (dict_get header "roominfo" (VList [])) colors with
          | Ok array => fromarray W array
          | Raise e => Raise e
          end)).
Proof.
  intros rendered. subst rendered. split; [| split].
  - intros e He. pose proof (render_layout_logs_once raw header colors) as H.
    rewrite He in H. exact H.
  - intros k Hk Hn.
    unfold outcome, render_layout, dict_getitem. unfold_m.
    destruct (lookup "width" header) as [width |] eqn:Ew; simpl;
      [| exists "width"; reflexivity].
    destruct (lookup "height" header) as [height |] eqn:Eh; simpl;
      [| exists "height"; reflexivity].
    destruct (lookup "version" header) as [version |] eqn:Ev; simpl;
      [| exists "version"; reflexivity].
    simpl in Hk. destruct Hk as [<- | [<- | [<- | []]]]; congruence.
  - intros width height Hw Hh.
    assert (Hv0 : forall v,
               In v [VList [VInt 0]; VStr "0"; VList [VStr "0"]] ->
               lookup "version" header = Some v ->
               outcome (render_layout W raw header colors) =
               match to_array_v0 W raw width height colors with
               | Ok array => fromarray W array
               | Raise e => Raise e
               end).
    { intros v Hin Hv.
      unfold outcome, render_layout, dict_getitem. unfold_m. rewrite Hw, Hh, Hv.
      simpl in Hin. destruct Hin as [<- | [<- | [<- | []]]]; simpl;
        (destruct (to_array_v0 W raw width height colors) as [a |]; simpl;
         [destruct (fromarray W a) | ]; reflexivity). }
    assert (Hv1 : forall v,
               In v [VList [VInt 1]; VStr "1"; VList [VStr "1"]] ->
               lookup "version" header = Some v ->
               outcome (render_layout W raw header colors) =
               match to_array_v1 W raw width height
                                 (dict_get header "roominfo" (VList [])) colors with
               | Ok array => fromarray W array
               | Raise e => Raise e
               end).
    { intros v Hin Hv.
      unfold outcome, render_layout, dict_getitem. unfold_m. rewrite Hw, Hh, Hv.
      simpl in Hin. destruct Hin as [<- | [<- | [<- | []]]]; simpl;
        (destruct (to_array_v1 W raw width height _ colors) as [a |]; simpl;
         [destruct (fromarray W a) | ]; reflexivity). }
    split; [| split; [| split; [exact Hv0 | exact Hv1]]].
    + intros n Hv.
      unfold render_layout, dict_getitem, rendering_failed, unsupported_protocol.
      unfold_m. rewrite Hw, Hh, Hv. reflexivity.
    + intros Hv.
      unfold render_layout, dict_getitem, rendering_failed. unfold_m.
      rewrite Hw, Hh, Hv. reflexivity.
Qed.

(** X8.  For an image at most 1080 wide the scale is at least 1 and the
    upscaled width lies in (540, 1080].  For a wider image the scale is 0 and
    the size asked of [resize] is (0, 0); for a width of 0 the scale
    computation raises ZeroDivisionError and the image stays as it is. *)
Theorem upscale_bounds (path_link : value) (header colors : dict) (image : Image) :
  let w := fst (size W image) in
  let h := snd (size W image) in
  (0 < w <= 1080 ->
   exists s, compute_scale w = Ok s /\ 1 <= s /\ 540 < w * s <= 1080) /\
  (1080 < w ->
   compute_scale w = Ok 0 /\
   forall resp,
     outcome (download W path_link) = Ok resp ->
     In (Call (c_resize (0, 0) BOX))
        (snd (path_body W path_link header colors image))) /\
  (w = 0 ->
   forall resp,
     outcome (download W path_link) = Ok resp ->
     fst (path_body W path_link header colors image)
       = (Raise (Exn ZeroDivisionError [Lit "division by zero"] None), image)).
Proof.
  intros w h. split; [| split].
  - intros Hw. exists (1080 / w).
    split; [apply compute_scale_floor; lia |].
    pose proof (Z.mul_div_le 1080 w ltac:(lia)).
    pose proof (Z.mul_succ_div_gt 1080 w ltac:(lia)).
    assert (1 <= 1080 / w) by (apply Z.div_le_lower_bound; lia).
    nia.
  - intros Hw.
    assert (Hs : compute_scale w = Ok 0).
    { rewrite compute_scale_floor by lia. rewrite Z.div_small by lia. reflexivity. }
    split; [exact Hs |].
    intros resp Hd. rewrite path_body_eq.
    unfold outcome, run in Hd.
    destruct (download W path_link tt) as [[rd []] td]. simpl in Hd. subst rd.
    fold w h. rewrite Hs. cbv zeta. rewrite !Z.mul_0_r.
    destruct (resize W image (0, 0) BOX) as [big | e].
    + destruct (parse_path W resp 0 header tt) as [[[path | e] []] tp].
      * destruct (truthy (VList path)).
        -- destruct (Draw W big).
           ++ cbn [snd]. rewrite <- app_assoc. apply in_or_app. right. left. reflexivity.
           ++ destruct (iter _) as [fill | e].
              ** destruct (line W big path fill 2) as [lined [e |]].
                 --- cbn [snd]. rewrite <- app_assoc. apply in_or_app. right. left.
                     reflexivity.
                 --- destruct (draw_dock W header 0 lined) as [[r img] t].
                     cbn [snd]. rewrite <- app_assoc. apply in_or_app. right. left.
                     reflexivity.
              ** cbn [snd]. rewrite <- app_assoc. apply in_or_app. right. left.
                 reflexivity.
        -- cbn [snd]. apply in_or_app. right. left. reflexivity.
      * cbn [snd]. apply in_or_app. right. left. reflexivity.
    + cbn [snd]. apply in_or_app. right. left. reflexivity.
  - intros Hw resp Hd. rewrite path_body_eq.
    unfold outcome, run in Hd.
    destruct (download W path_link tt) as [[rd []] td]. simpl in Hd. subst rd.
    fold w. rewrite Hw. reflexivity.
Qed.

Lemma hex_app (a b : list byte) : hex (a ++ b) = (hex a ++ hex b)%string.
Proof. induction a as [| x a IH]; simpl; [reflexivity | rewrite IH; reflexivity]. Qed.

Lemma length_hex (bs : list byte) : String.length (hex bs) = (2 * List.length bs)%nat.
Proof. induction bs as [| x bs IH]; simpl; [reflexivity | rewrite IH; lia]. Qed.

Lemma slice0_app (s t : string) : slice0 (String.length s) (s ++ t)%string = s.
Proof.
  unfold slice0. induction s as [| c s IH]; simpl.
  - destruct t; reflexivity.
  - rewrite IH. reflexivity.
Qed.

Lemma slice0_all (n : nat) (s : string) :
  (String.length s <= n)%nat -> slice0 n s = s.
Proof.
  unfold slice0. revert n. induction s as [| c s IH]; intros n H; simpl in *.
  - destruct n; reflexivity.
  - destruct n; [lia |]. simpl. rewrite IH by lia. reflexivity.
Qed.

Lemma slice_hex_firstn (bs : list byte) :
  slice0 48 (hex bs) = hex (firstn 24 bs).
Proof.
  destruct (Nat.le_gt_cases 24 (List.length bs)) as [H | H].
  - rewrite <- (firstn_skipn 24 bs) at 1. rewrite hex_app.
    replace 48%nat with (String.length (hex (firstn 24 bs))).
    + apply slice0_app.
    + rewrite length_hex, length_firstn. lia.
  - rewrite firstn_all2 by lia. apply slice0_all. rewrite length_hex. lia.
Qed.

(** X9.  [decode_header] is handed the hexadecimal text of the first 24
    bytes of the payload (of all of it when it is shorter), which is at most
    48 characters long; [decode_v0] and [decode_v1] are handed the text of
    the whole payload. *)
Theorem header_is_first_24_bytes (r : response) :
  let payload := content r in
  (exists rest,
      trace_of (parse_map_binary W r) =
      Log DEBUG [LLit "Falling back to binary parsing"]
      :: Call (c_decode_header (hex (firstn 24 payload))) :: rest) /\
  String.length (hex (firstn 24 payload)) = Nat.min 48 (2 * List.length payload) /\
  (forall data,
      In (Call (c_decode_v0 data)) (trace_of (parse_map_binary W r)) \/
      In (Call (c_decode_v1 data)) (trace_of (parse_map_binary W r)) ->
      data = hex payload).
Proof.
  intros payload. subst payload. split; [| split].
  - destruct (parse_map_binary_trace W r) as (rest & H & _).
    cbv zeta in H. rewrite slice_hex_firstn in H.
    exists rest. unfold trace_of, run.
    destruct (parse_map_binary W r tt) as [[res []] t]. exact H.
  - rewrite length_hex, length_firstn. lia.
  - intros data.
    unfold trace_of, parse_map_binary, dict_getitem. unfold_m.
    destruct (decode_header W _) as [header | e]; simpl;
      [| intros [H | H]; intuition discriminate].
    destruct (lookup "version" header) as [version |]; simpl;
      [| intros [H | H]; intuition discriminate].
    destruct (py_eq version (VList [VInt 0])); simpl.
    { destruct (decode_v0 W _ header) as [[cells header'] | e]; simpl;
        intros [H | H]; intuition (try discriminate); congruence. }
    destruct (py_eq version (VList [VInt 1])); simpl.
    { destruct (decode_v1 W _ header) as [[cells header'] | e]; simpl;
        intros [H | H]; intuition (try discriminate); congruence. }
    intros [H | H]; intuition discriminate.
Qed.

(** X10.  With the path disabled, or enabled but without a true
    ['map_url'] among the entries after the first, the path stage returns the
    image as it is and does nothing.  An error while searching those entries
    is not contained: it leaves the stage and [get_map] fails with it as the
    cause. *)
Theorem path_stage_edges (links : value) (header colors settings : dict)
        (image : Image) :
  let staged := path_stage W links header colors settings image in
  (truthy (dict_get settings "path_enabled" (VBool false)) = false ->
   run staged = (Ok image, [])) /\
  (truthy (dict_get settings "path_enabled" (VBool false)) = true ->
   forall rest items,
     slice_from1 links = Ok rest ->
     iter rest = Ok items ->
     (forall u,
         first_map_url items = Ok u -> truthy u = false ->
         run staged = (Ok image, [])) /\
     (forall e,
         first_map_url items = Raise e ->
         run staged = (Raise e, []) /\
         forall server client_id secret_key device_id colors0 settings0 urls,
           colors = or_empty colors0 ->
           settings = or_empty settings0 ->
           map_rendered W server client_id secret_key device_id colors
                        (or_empty urls) links header image ->
           outcome (get_map W server client_id secret_key device_id
                            colors0 settings0 urls)
             = Raise (processing_failed e))).
Proof.
  intros staged. subst staged. split.
  - intros Hp. unfold path_stage. rewrite Hp. reflexivity.
  - intros Hp rest items H1 H2. split.
    + intros u H3 H4. unfold path_stage. rewrite Hp. unfold_m.
      rewrite H1. simpl. rewrite H2. simpl. rewrite H3. simpl. rewrite H4. reflexivity.
    + intros e H3.
      assert (Hrun : run (path_stage W links header colors settings image)
                     = (Raise e, [])).
      { unfold path_stage. rewrite Hp. unfold_m.
        rewrite H1. simpl. rewrite H2. simpl. rewrite H3. reflexivity. }
      split; [exact Hrun |].
      intros server client_id secret_key device_id colors0 settings0 urls
             Hc Hs Hr.
      rewrite get_map_outcome, <- Hc, <- Hs.
      rewrite get_map_body_rendered with (1 := Hr).
      unfold outcome at 1. rewrite Hrun. reflexivity.
Qed.

(** X11.  A JSON body that is not an object never reaches the structured
    decoder.  When it is null, a boolean or a number, [parse_map] raises
    TypeError without falling back to the binary formats.  When it is an
    array or a string, [parse_map] falls back to the binary formats if the
    body holds neither "result" nor "map_data" (as an element of the array,
    as a substring of the string), and raises TypeError without falling back
    if it holds either of them.  An error of the structured decoder other
    than a JSONDecodeError leaves [parse_map] as it is. *)
Theorem parse_map_unstructured_json (r : response) (data : value) :
  json r = Ok data ->
  let raw_json := Log DEBUG [LLit "Raw JSON response: "; LJson data] in
  let raises_TypeError :=
    exists e, run (parse_map W r) = (Raise e, [Call c_json; raw_json]) /\
              exn_cls e = TypeError in
  let falls_back := outcome (parse_map W r) = outcome (parse_map_binary W r) in
  ((data = VNone \/ (exists b, data = VBool b) \/ (exists n, data = VInt n)) ->
   raises_TypeError) /\
  (forall l,
      data = VList l ->
      let holds k := existsb (fun x => py_eq (VStr k) x) l in
      (holds "result" = true -> raises_TypeError) /\
      (holds "result" = false -> holds "map_data" = true -> raises_TypeError) /\
      (holds "result" = false -> holds "map_data" = false -> falls_back)) /\
  (forall s,
      data = VStr s ->
      let holds k := is_substring k s in
      (holds "result" = true -> raises_TypeError) /\
      (holds "result" = false -> holds "map_data" = true -> raises_TypeError) /\
      (holds "result" = false -> holds "map_data" = false -> falls_back)) /\
  (forall arg e,
      (result_list data = true /\ arg = data \/
       result_list data = false /\ wrapper data = Some arg) ->
      decode_custom0 W arg = Raise e ->
      exn_cls e <> JSONDecodeError ->
      outcome (parse_map W r) = Raise e).
Proof.
  intros Hj raw_json raises_TypeError falls_back.
  assert (Hseq : forall b1 b2,
             contains_str "result" data = Ok b1 ->
             contains_str "map_data" data = Ok b2 ->
             (forall k, exists e, getitem_str data k = Raise e /\ exn_cls e = TypeError) ->
             (b1 = true -> raises_TypeError) /\
             (b1 = false -> b2 = true -> raises_TypeError) /\
             (b1 = false -> b2 = false -> falls_back)).
  { intros b1 b2 H1 H2 Hg. subst raises_TypeError falls_back raw_json.
    split; [| split].
    - intros ->. destruct (Hg "result") as (e & He & Hc). exists e.
      split; [| exact Hc].
      unfold parse_map, parse_map_json, except_JSONDecodeError. unfold_m.
      rewrite Hj. cbn -[contains_str getitem_str]. rewrite H1.
      cbn -[contains_str getitem_str]. rewrite He.
      cbn -[contains_str getitem_str]. rewrite Hc. reflexivity.
    - intros -> ->. destruct (Hg "map_data") as (e & He & Hc). exists e.
      split; [| exact Hc].
      unfold parse_map, parse_map_json, except_JSONDecodeError. unfold_m.
      rewrite Hj. cbn -[contains_str getitem_str]. rewrite H1.
      cbn -[contains_str getitem_str]. rewrite H2.
      cbn -[contains_str getitem_str]. rewrite He.
      cbn -[contains_str getitem_str]. rewrite Hc. reflexivity.
    - intros -> ->.
      unfold parse_map. rewrite outcome_try.
      unfold parse_map_json at 1. unfold outcome at 1. unfold_m.
      rewrite Hj. cbn -[contains_str getitem_str]. rewrite H1.
      cbn -[contains_str getitem_str]. rewrite H2. reflexivity. }
  split; [| split; [| split]].
  - intros H. subst raises_TypeError raw_json.
    exists (not_iterable_argument data). split.
    + unfold parse_map, parse_map_json, except_JSONDecodeError. unfold_m.
      rewrite Hj.
      destruct H as [-> | [[b ->] | [n ->]]]; reflexivity.
    + reflexivity.
  - intros l -> holds. subst holds.
    apply Hseq; [reflexivity | reflexivity |].
    intros k. eexists. split; reflexivity.
  - intros s -> holds. subst holds.
    apply Hseq; [reflexivity | reflexivity |].
    intros k. eexists. split; reflexivity.
  - intros arg e Hsel Hd Hc.
    unfold parse_map. rewrite outcome_try.
    assert (Ho : outcome (parse_map_json W r) = Raise e).
    { pose proof (parse_map_json_cases W r) as HJ.
      unfold outcome, run.
      destruct (parse_map_json W r tt) as [[res []] t]. rewrite Hj in HJ.
      destruct HJ as (rest & _ & HJ). simpl.
      destruct Hsel as [[H1 ->] | [H1 H2]]; rewrite H1 in HJ.
      - destruct HJ as [-> _]. exact Hd.
      - rewrite H2 in HJ. destruct HJ as [-> _]. exact Hd. }
    rewrite Ho. unfold except_JSONDecodeError.
    destruct (exn_class_eqb (exn_cls e) JSONDecodeError) eqn:Ec; [| reflexivity].
    apply exn_class_eqb_eq in Ec. contradiction.
Qed.

(** X12.  [parse_path] contains the errors of the binary path decoder
    only: after a JSONDecodeError of the structured attempt, a failure of
    [decode_path_v1] gives the empty path.  An error of the structured
    decoder, of [response.json()], or of the iteration over the decoded path
    that is not a JSONDecodeError leaves [parse_path]; an empty decoded path
    gives the empty list. *)
Theorem parse_path_containment (resp : response) (scale : Z) (header : dict) :
  let parsed := outcome (parse_path W resp scale header) in
  (forall data e,
      json resp = Ok data ->
      decode_path_custom0 W data header = Raise e ->
      exn_cls e <> JSONDecodeError ->
      parsed = Raise e) /\
  (forall e,
      json resp = Raise e -> exn_cls e <> JSONDecodeError -> parsed = Raise e) /\
  (forall e,
      decode_path_v1 W (hex (content resp)) = Raise e ->
      ((exists e0, json resp = Raise e0 /\ exn_cls e0 = JSONDecodeError) \/
       (exists data e0, json resp = Ok data /\
                        decode_path_custom0 W data header = Raise e0 /\
                        exn_cls e0 = JSONDecodeError)) ->
      parsed = Ok []) /\
  (forall data path_data e,
      json resp = Ok data ->
      decode_path_custom0 W data header = Ok path_data ->
      iter path_data = Raise e ->
      parsed = Raise e) /\
  (forall data,
      json resp = Ok data ->
      decode_path_custom0 W data header = Ok (VList []) ->
      parsed = Ok []).
Proof.
  intros parsed. subst parsed.
  assert (Hne : forall e, exn_cls e <> JSONDecodeError ->
                          except_JSONDecodeError e = false).
  { intros e H. unfold except_JSONDecodeError.
    destruct (exn_class_eqb (exn_cls e) JSONDecodeError) eqn:Ec; [| reflexivity].
    apply exn_class_eqb_eq in Ec. contradiction. }
  assert (Heq : forall e, exn_cls e = JSONDecodeError ->
                          except_JSONDecodeError e = true).
  { intros e H. unfold except_JSONDecodeError. rewrite H. reflexivity. }
  unfold outcome, parse_path. unfold_m.
  split; [| split; [| split; [| split]]].
  - intros data e H1 H2 H3. rewrite H1. simpl. rewrite H2. simpl.
    rewrite (Hne e H3). reflexivity.
  - intros e H1 H2. rewrite H1. simpl. rewrite (Hne e H2). reflexivity.
  - intros e Hv [(e0 & H1 & H2) | (data & e0 & H1 & H2 & H3)].
    + rewrite H1. simpl. rewrite (Heq e0 H2). simpl. rewrite Hv. reflexivity.
    + rewrite H1. simpl. rewrite H2. simpl. rewrite (Heq e0 H3). simpl.
      rewrite Hv. reflexivity.
  - intros data pd e H1 H2 H3. rewrite H1. simpl. rewrite H2. simpl.
    rewrite H3. reflexivity.
  - intros data H1 H2. rewrite H1. simpl. rewrite H2. reflexivity.
Qed.

(** X13.  The search for the first ['map_url'] stops at the first entry
    that carries the key: the entries after it are not looked at.  Up to that
    entry every entry is tested, so one that cannot be searched raises; with
    no entry carrying the key the result is [None]. *)
Theorem first_map_url_is_lazy (pre post : list value) (item : value) :
  Forall (fun x => contains_str "map_url" x = Ok false) pre ->
  (contains_str "map_url" item = Ok true ->
   first_map_url (pre ++ item :: post) = getitem_str item "map_url") /\
  (forall e,
      contains_str "map_url" item = Raise e ->
      first_map_url (pre ++ item :: post) = Raise e) /\
  first_map_url pre = Ok VNone.
Proof.
  intros Hpre. induction Hpre as [| x pre Hx Hpre IH]; simpl.
  - split; [intros ->; reflexivity |]. split; [intros e ->; reflexivity | reflexivity].
  - rewrite Hx. exact IH.
Qed.

(** X14.  Without ['pileX'] or ['pileY'] in the header no marker is drawn
    and nothing is raised.  With both, a header without ['version'], or
    without one of ['mapResolution'], ['x_min'], ['y_min'] for a version
    other than [[0]] and [[1]], raises KeyError before any drawing; inside
    the path branch that error is logged and the image keeps the path that
    was drawn. *)
Theorem dock_marker_edges (header : dict) (scale : Z) (image : Image) :
  (lookup "pileX" header = None \/ lookup "pileY" header = None ->
   draw_dock W header scale image = (Ok tt, image, [])) /\
  (forall x y,
      lookup "pileX" header = Some x ->
      lookup "pileY" header = Some y ->
      (lookup "version" header = None ->
       draw_dock W header scale image = (Raise (key_error "version"), image, [])) /\
      (forall version,
          lookup "version" header = Some version ->
          existsb (py_eq version) [VList [VInt 0]; VList [VInt 1]] = false ->
          forall k,
            In k ["mapResolution"; "x_min"; "y_min"] ->
            lookup k header = None ->
            exists k',
              draw_dock W header scale image = (Raise (key_error k'), image, []))) /\
  (forall path_link colors image0 resp big path fill e,
      outcome (download W path_link) = Ok resp ->
      compute_scale (fst (size W image0)) = Ok scale ->
      resize W image0 (fst (size W image0) * scale, snd (size W image0) * scale) BOX
        = Ok big ->
      outcome (parse_path W resp scale header) = Ok path ->
      truthy (VList path) = true ->
      Draw W big = None ->
      iter (dict_get colors "path_color" default_path_color) = Ok fill ->
      line W big path fill 2 = (image, None) ->
      fst (fst (draw_dock W header scale image)) = Raise e ->
      fst (fst (path_try W path_link header colors image0)) = Ok tt /\
      local_after (path_try W path_link header colors) image0
        = snd (fst (draw_dock W header scale image)) /\
      In (Call (c_line path fill 2)) (snd (path_try W path_link header colors image0)) /\
      In (path_rendering_failed e) (snd (path_try W path_link header colors image0))).
Proof.
  split; [| split].
  - intros H. unfold draw_dock. rewrite !has_key_lookup.
    destruct H as [-> | ->]; [reflexivity |].
    destruct (lookup "pileX" header); reflexivity.
  - intros x y Hx Hy. split.
    + intros Hv. unfold draw_dock, dock_point, dict_getitem.
      rewrite !has_key_lookup, Hx, Hy, Hv. reflexivity.
    + intros version Hv Hsel k Hk Hn.
      unfold draw_dock, dock_point, dict_getitem.
      rewrite !has_key_lookup, Hx, Hy, Hv. unfold_m. cbn -[existsb]. rewrite Hsel.
      destruct (lookup "mapResolution" header) eqn:E1; cbn -[existsb];
        [| exists "mapResolution"; reflexivity].
      destruct (lookup "x_min" header) eqn:E2; cbn -[existsb];
        [| exists "x_min"; reflexivity].
      destruct (lookup "y_min" header) eqn:E3; cbn -[existsb];
        [| exists "y_min"; reflexivity].
      simpl in Hk. destruct Hk as [<- | [<- | [<- | []]]]; congruence.
  - intros path_link colors image0 resp big path fill e
           Hd Hs Hr Hp Ht HD Hf Hl He.
    unfold local_after. rewrite path_try_eq, path_body_eq.
    unfold outcome, run in Hd, Hp.
    destruct (download W path_link tt) as [[rd []] td]. simpl in Hd. subst rd.
    rewrite Hs. cbv zeta. rewrite Hr.
    destruct (parse_path W resp scale header tt) as [[rp []] tp]. simpl in Hp. subst rp.
    rewrite Ht, HD, Hf, Hl.
    destruct (draw_dock W header scale image) as [[r img] t]. simpl in He. subst r.
    cbn [fst snd]. unfold path_rendering_failed.
    split; [reflexivity |]. split; [reflexivity |]. split.
    + apply in_or_app. left. apply in_or_app. right. right. left. reflexivity.
    + apply in_or_app. right. left. reflexivity.
Qed.

(** X15.  For a body that is not JSON and a header of version [[0]]
    ([[1]]), [parse_map] returns the header as the Legacy (Rich) decoder left
    it with the cells it decoded, and [render_layout] rasterizes them with
    the Legacy (Rich) rasterizer, the Rich one with the ['roominfo'] of that
    header. *)
Theorem binary_map_reaches_its_rasterizer (r : response) (e0 : exn)
        (header header' : dict) (cells : list Z) (colors : dict)
        (width height : value) :
  json r = Raise e0 ->
  exn_cls e0 = JSONDecodeError ->
  decode_header W (slice0 48 (hex (content r))) = Ok header ->
  lookup "width" header' = Some width ->
  lookup "height" header' = Some height ->
  (lookup "version" header = Some (VList [VInt 0]) ->
   decode_v0 W (hex (content r)) header = Ok (cells, header') ->
   lookup "version" header' = Some (VList [VInt 0]) ->
   outcome (parse_map W r) = Ok (header', cells) /\
   outcome (render_layout W cells header' colors) =
   match to_array_v0 W cells width height colors with
   | Ok array => fromarray W array
   | Raise e => Raise e
   end) /\
  (lookup "version" header = Some (VList [VInt 1]) ->
   decode_v1 W (hex (content r)) header = Ok (cells, header') ->
   lookup "version" header' = Some (VList [VInt 1]) ->
   outcome (parse_map W r) = Ok (header', cells) /\
   outcome (render_layout W cells header' colors) =
   match to_array_v1 W cells width height
                     (dict_get header' "roominfo" (VList [])) colors with
   | Ok array => fromarray W array
   | Raise e => Raise e
   end).
Proof.
  intros Hj Hc Hh Hw Hht.
  pose proof (parse_map_binary_outcome W r) as HB. cbv zeta in HB. rewrite Hh in HB.
  split.
  - intros Hv Hd Hv'. split.
    + rewrite parse_map_not_json with (1 := Hj) (2 := Hc).
      rewrite HB, Hv. simpl. rewrite Hd. reflexivity.
    + unfold outcome, render_layout, dict_getitem. unfold_m. rewrite Hw, Hht, Hv'.
      simpl. destruct (to_array_v0 W cells width height colors) as [a |]; simpl;
        [destruct (fromarray W a) |]; reflexivity.
  - intros Hv Hd Hv'. split.
    + rewrite parse_map_not_json with (1 := Hj) (2 := Hc).
      rewrite HB, Hv. simpl. rewrite Hd. reflexivity.
    + unfold outcome, render_layout, dict_getitem. unfold_m. rewrite Hw, Hht, Hv'.
      simpl. destruct (to_array_v1 W cells width height _ colors) as [a |]; simpl;
        [destruct (fromarray W a) |]; reflexivity.
Qed.

End More.

Section WorkedMore.

Import Sim Scenario MoreScenarios.

Lemma download_reraises_witness :
  let W := world offline in
  let url := VStr "https://map" in
  requests_get W url = Raise unreachable /\
  trace_of (download W url) = [Call (c_requests_get url); download_failed url unreachable].
Proof.
  intros W url.
  destruct (download_reraises W url) as (_ & H & _).
  destruct (H unreachable eq_refl) as (_ & Ht).
  split; [reflexivity | exact Ht].
Defined.

Lemma get_map_call_budget_witness :
  let W := world home in
  let tr := trace_of (get_map W "" "" "" "" None None (Some urls)) in
  count is_link_request tr = 0%nat /\ (count is_download tr <= 1)%nat.
Proof.
  intros W tr.
  destruct (get_map_call_budget W "" "" "" "" None None (Some urls))
    as (_ & _ & H3 & H4).
  split; [apply H3; discriminate | apply H4; reflexivity].
Defined.

Lemma resolve_urls_spec_witness :
  let W := world home in
  exists link first rest,
    get_download_link W "" "" "" "" = Ok link /\
    lookup "result" link = Some (VList (first :: rest)) /\
    [("links", links); ("time", VStr "12:00:00")]
      = [("links", VList (first :: rest)); ("time", VStr (now W))].
Proof.
  intros W.
  destruct (resolve_urls_spec W "" "" "" "" []) as (_ & H).
  destruct (H eq_refl) as (H1 & _).
  exact (H1 _ eq_refl).
Defined.

Lemma get_map_without_map_url_witness :
  let W := world home in
  first_map_url [VDict [("map_url", VStr "")]; VDict [("map_url", VStr "https://path")]]
    = Ok (VStr "") /\
  outcome (get_map W "" "" "" "" None None (Some [("links", blank_first)]))
    = Raise (processing_failed no_map_url).
Proof.
  intros W. split; [reflexivity |].
  exact (proj1 (get_map_without_map_url W "" "" "" "" None None
                  (Some [("links", blank_first)]) [("links", blank_first)] blank_first
                  [VDict [("map_url", VStr "")]; VDict [("map_url", VStr "https://path")]]
                  (VStr "") eq_refl eq_refl eq_refl eq_refl eq_refl)).
Defined.

Lemma get_map_without_path_witness :
  let W := world home in
  outcome (get_map W "" "" "" "" None None (Some urls)) = Ok (legacy_header, small).
Proof.
  intros W.
  destruct (get_map_without_path W "" "" "" "" None None (Some urls) links
              legacy_header small (rendered_small home eq_refl eq_refl eq_refl) eq_refl)
    as (_ & H).
  exact (H eq_refl).
Defined.

Lemma get_map_success_means_rendered_witness :
  let W := world home in
  exists (links0 : value) (rendered staged : Sim.image),
    map_rendered W "" "" "" "" [] urls links0 legacy_header rendered /\
    outcome (path_stage W links0 legacy_header [] [] rendered) = Ok staged /\
    outcome (flip W legacy_header staged []) = Ok (legacy_header, small).
Proof.
  intros W.
  assert (H : outcome (get_map W "" "" "" "" None None (Some urls))
              = Ok (legacy_header, small)) by (vm_compute; reflexivity).
  exact (get_map_success_means_rendered W "" "" "" "" None None (Some urls)
           legacy_header small H).
Defined.

Lemma render_layout_edges_witness :
  let W := world offline in
  run (render_layout W [1; 2; 3; 4] bare_version_header [])
    = (Raise (unsupported_protocol (VInt 0)),
       [rendering_failed (unsupported_protocol (VInt 0))]).
Proof.
  intros W.
  destruct (render_layout_edges W [1; 2; 3; 4] bare_version_header [])
    as (_ & _ & H).
  destruct (H (VInt 2) (VInt 2) eq_refl eq_refl) as (H1 & _).
  exact (H1 0 eq_refl).
Defined.

Lemma upscale_bounds_witness :
  let W := world home in
  let path_link := VStr "https://path" in
  1080 < fst (size W wide) /\
  compute_scale (fst (size W wide)) = Ok 0 /\
  In (Call (c_resize (0, 0) BOX)) (snd (path_body W path_link legacy_header [] wide)) /\
  exists s, compute_scale (fst (size W small)) = Ok s /\ 1 <= s /\
            540 < fst (size W small) * s <= 1080.
Proof.
  intros W path_link.
  assert (Hw : 1080 < fst (size W wide)) by reflexivity.
  destruct (upscale_bounds W path_link legacy_header [] wide) as (_ & H2 & _).
  destruct (H2 Hw) as (Hs & Hr).
  split; [exact Hw |]. split; [exact Hs |].
  split; [exact (Hr path_response eq_refl) |].
  destruct (upscale_bounds W path_link legacy_header [] small) as (H1 & _).
  apply H1. split; [reflexivity | discriminate].
Defined.

Lemma header_is_first_24_bytes_witness :
  let W := world home in
  let r := binary_response map_bytes in
  hex (firstn 24 (content r)) = "000000000000000000000000000000000000000000000000" /\
  forall data,
    In (Call (c_decode_v0 data)) (trace_of (parse_map_binary W r)) ->
    data = "0000000000000000000000000000000000000000000000000102".
Proof.
  intros W r. split; [reflexivity |].
  intros data H.
  destruct (header_is_first_24_bytes W r) as (_ & _ & H3).
  exact (H3 data (or_introl H)).
Defined.

Lemma path_stage_edges_witness :
  let W := world home in
  run (path_stage W map_only legacy_header [] path_on small) = (Ok small, []).
Proof.
  intros W.
  destruct (path_stage_edges W map_only legacy_header [] path_on small) as (_ & H).
  destruct (H eq_refl (VList []) [] eq_refl eq_refl) as (H1 & _).
  exact (H1 VNone eq_refl eq_refl).
Defined.

Lemma parse_map_unstructured_json_witness :
  let W := world home in
  let listed := VList [VStr "map_data"] in
  let r := json_response listed [x5b; x22; x6d; x61; x70; x5f; x64; x61; x74; x61; x22; x5d] in
  existsb (fun x => py_eq (VStr "result") x) [VStr "map_data"] = false /\
  existsb (fun x => py_eq (VStr "map_data") x) [VStr "map_data"] = true /\
  (exists e,
      run (parse_map W r) =
      (Raise e, [Call c_json; Log DEBUG [LLit "Raw JSON response: "; LJson listed]]) /\
      exn_cls e = TypeError) /\
  outcome (parse_map W (json_response (VList [VInt 7]) [x5b; x37; x5d]))
  = outcome (parse_map_binary W (json_response (VList [VInt 7]) [x5b; x37; x5d])) /\
  exists e,
    run (parse_map W (json_response (VInt 5) [x35])) =
    (Raise e, [Call c_json; Log DEBUG [LLit "Raw JSON response: "; LJson (VInt 5)]]) /\
    exn_cls e = TypeError.
Proof.
  intros W listed r.
  split; [reflexivity |]. split; [reflexivity |].
  split; [| split].
  - destruct (parse_map_unstructured_json W r listed eq_refl) as (_ & H & _).
    destruct (H [VStr "map_data"] eq_refl) as (_ & H2 & _).
    exact (H2 eq_refl eq_refl).
  - destruct (parse_map_unstructured_json W
                (json_response (VList [VInt 7]) [x5b; x37; x5d]) (VList [VInt 7]) eq_refl)
      as (_ & H & _).
    destruct (H [VInt 7] eq_refl) as (_ & _ & H3).
    exact (H3 eq_refl eq_refl).
  - destruct (parse_map_unstructured_json W (json_response (VInt 5) [x35]) (VInt 5)
                eq_refl) as (H & _).
    apply H. right. right. exists 5. reflexivity.
Defined.

Lemma parse_path_containment_witness :
  let W := world path_decode_fails in
  exn_cls missing_path_data <> JSONDecodeError /\
  outcome (parse_path W path_response 2 legacy_header) = Raise missing_path_data.
Proof.
  intros W.
  assert (Hc : exn_cls missing_path_data <> JSONDecodeError) by discriminate.
  destruct (parse_path_containment W path_response 2 legacy_header) as (H & _).
  split; [exact Hc |].
  exact (H path_doc missing_path_data eq_refl eq_refl Hc).
Defined.

Lemma first_map_url_is_lazy_witness :
  first_map_url [VDict [("name", VStr "layout")];
                 VDict [("map_url", VStr "https://a")];
                 VNone]
    = Ok (VStr "https://a") /\
  first_map_url [VDict [("name", VStr "layout")]; VNone;
                 VDict [("map_url", VStr "https://a")]]
    = Raise (type_error "argument of type 'NoneType' is not iterable").
Proof.
  assert (Hpre : Forall (fun x => contains_str "map_url" x = Ok false)
                        [VDict [("name", VStr "layout")]])
    by (constructor; [reflexivity | constructor]).
  split.
  - exact (proj1 (first_map_url_is_lazy [VDict [("name", VStr "layout")]] [VNone]
                    (VDict [("map_url", VStr "https://a")]) Hpre) eq_refl).
  - exact (proj1 (proj2 (first_map_url_is_lazy [VDict [("name", VStr "layout")]]
                           [VDict [("map_url", VStr "https://a")]] VNone Hpre))
                 _ eq_refl).
Defined.

Lemma dock_marker_edges_witness :
  let W := world home in
  draw_dock W [("version", VList [VInt 0]); ("pileX", VInt 100)] 2 two_by_two
    = (Ok tt, two_by_two, []).
Proof.
  intros W.
  destruct (dock_marker_edges W [("version", VList [VInt 0]); ("pileX", VInt 100)]
              2 two_by_two) as (H & _).
  apply H. right. reflexivity.
Defined.

Lemma binary_map_reaches_its_rasterizer_witness :
  let W := world home in
  let r := binary_response map_bytes in
  outcome (parse_map W r) = Ok (legacy_header, repeat 0 540) /\
  outcome (render_layout W (repeat 0 540) legacy_header []) = Ok small.
Proof.
  intros W r.
  destruct (binary_map_reaches_its_rasterizer W r no_json_error legacy_header
              legacy_header (repeat 0 540) [] (VInt 540) (VInt 1)
              eq_refl eq_refl eq_refl eq_refl eq_refl) as (H & _).
  destruct (H eq_refl eq_refl eq_refl) as (H1 & H2).
  split; [exact H1 |]. rewrite H2. reflexivity.
Defined.

End WorkedMore.
